(** * A model of the OneNote CUPS backend (cups-backend/onenote_backend.c)

    The backend is a single C program made of system calls.  It is embedded
    here as pure functions over an explicit [World] (regular files,
    directories, the inherited input stream, the diagnostic channel) and an
    [Env] that fixes, call site by call site, what the operating system
    answers where the program cannot decide it (a failing [rename], a short
    [write], the value of [time], ...).  A call fails when the [Env] says
    so, and also when the [World] makes it fail (a missing file).

    C strings are Rocq [string]s: the end of the string stands for the
    terminating NUL.  File contents are [list byte].  [close] has no effect
    that the program could observe and is left out, and so is the
    [strerror(errno)] part of the diagnostics.  [size_t], [time_t] and
    [long] are 64 bits wide; [PATH_MAX] is a field of [Env]. *)

From Stdlib Require Import ZArith Ascii String.
From Stdlib.Strings Require Import Byte.
From stdpp Require Import gmap strings list fin_maps pretty.

Set Warnings "-abstract-large-number".

(** ** Strings as character lists *)

Abbreviation chars := String.list_ascii_of_string.
Abbreviation unchars := String.string_of_list_ascii.
Abbreviation bytes_of := String.list_byte_of_string.

Definition str_take (n : nat) (s : string) : string := unchars (take n (chars s)).
Definition str_drop (n : nat) (s : string) : string := unchars (drop n (chars s)).

(** [snprintf(buf, size, ...)] keeps at most [size - 1] characters of the
    formatted text; the text is given already formatted. *)
Definition snprintf (size : nat) (text : string) : string :=
  str_take (size - 1) text.

Global Instance byte_eq_dec : EqDecision byte := Byte.byte_eq_dec.

(** ** The world *)

(** A regular file: its bytes, owner and permission bits. *)
Record inode := Inode {
  i_data : list byte;
  i_uid : Z;
  i_gid : Z;
  i_mode : Z
}.

(** Text written to the diagnostic channel ([stderr]); the [strerror(errno)]
    part of a message is left out. *)
Inductive diag :=
  | DbgInvalidArgc (argc : nat)
  | ErrTempFile (path : string)
  | ErrOpenInput (path : string)
  | ErrWriteTemp
  | ErrReadInput
  | InfoWrote (total : Z) (path : string)
  | InfoPostScript
  | ErrGetpwnam (user : string)
  | ErrCreateDir (dir : string)
  | ErrMoveCopy (src dst : string)
  | WarnChown (path : string)
  | ErrJson (path : string)
  | InfoQueued (path : string).

(** [history] is ghost state: every change of [files] pushes the state it
    replaces, so that [states] lists every file-system state the run went
    through, the latest first. *)
Record World := MkWorld {
  files : gmap string inode;
  dirs : gmap string Z;
  stdin : list byte;
  stderr : list diag;
  history : list (gmap string inode)
}.

Definition states (w : World) : list (gmap string inode) :=
  files w :: history w.

Definition set_files (f : gmap string inode) (w : World) : World :=
  {| files := f; dirs := dirs w; stdin := stdin w; stderr := stderr w;
     history := files w :: history w |}.

Definition set_dirs (d : gmap string Z) (w : World) : World :=
  {| files := files w; dirs := d; stdin := stdin w; stderr := stderr w;
     history := history w |}.

Definition set_stdin (i : list byte) (w : World) : World :=
  {| files := files w; dirs := dirs w; stdin := i; stderr := stderr w;
     history := history w |}.

Definition fprintf_stderr (d : diag) (w : World) : World :=
  {| files := files w; dirs := dirs w; stdin := stdin w;
     stderr := stderr w ++ [d]; history := history w |}.

Definition data_at (f : gmap string inode) (p : string) : list byte :=
  match f !! p with Some i => i_data i | None => [] end.

(** ** What the operating system decides *)

Inductive errno := EEXIST | EACCES | ENOENT | ENOSPC | EIO | EXDEV | EINVAL.

Global Instance errno_eq_dec : EqDecision errno.
Proof. solve_decision. Defined.

(** Answer to one [read]: an error, or an upper bound on what a stream hands
    over at once ([RdLen k] delivers at most [k + 1] bytes, so a stream that
    has data never reports end of input).  A read from a regular file is
    complete unless it fails. *)
Inductive rd := RdErr | RdLen (k : nat).

(** Answer to one [write]: an error, or the number of bytes the system takes. *)
Inductive wr := WrErr | WrLen (k : nat).

Record passwd := Passwd {
  pw_dir : option string;
  pw_uid : Z;
  pw_gid : Z
}.

Record Env := MkEnv {
  e_PATH_MAX : nat;                    (* <limits.h> *)
  e_euid : Z;
  e_egid : Z;
  e_umask : Z;
  e_TMPDIR : option string;            (* getenv("TMPDIR") *)
  e_mkstemp : option N;                (* None: fails; Some r: the random draw *)
  e_open_input_fail : bool;
  e_capture_reads : list rd;
  e_capture_writes : list wr;
  e_sniff_ps_open_fail : bool;
  e_sniff_ps_read_fail : bool;
  e_sniff_pdf_open_fail : bool;
  e_sniff_pdf_read_fail : bool;
  e_getpwnam : string -> option passwd;
  e_mkdir : string -> option errno;    (* Some e: mkdir of that path fails with e *)
  e_chmod_dir_fail : string -> bool;
  e_now : Z;                           (* time(NULL) *)
  e_rename_fail : bool;
  e_copy_open_src_fail : bool;
  e_copy_open_dst_fail : bool;
  e_copy_reads : list rd;
  e_copy_writes : list wr;
  e_unlink_fail : bool;
  e_chown_doc_fail : bool;
  e_chmod_doc_fail : bool;
  e_fopen_json_fail : bool;
  e_json_flushed : option nat;         (* Some k: only k bytes reach the file *)
  e_chown_json_fail : bool;
  e_chmod_json_fail : bool
}.

(** ** System calls *)

(** An open descriptor for reading: the inherited input stream, a regular
    file with the current offset, or a directory.  The program never renames
    or removes a file it holds open, so the path names the open file. *)
Inductive fd := FdStdin | FdFile (path : string) (off : nat) | FdDir (path : string).

(** [open(path, O_RDONLY)]: [None] is [-1].  A directory can be opened for
    reading; a path where nothing is cannot. *)
Definition sys_open_rd (path : string) (fail : bool) (w : World) : option fd :=
  if fail then None
  else match files w !! path with
       | Some _ => Some (FdFile path 0)
       | None =>
         match dirs w !! path with
         | Some _ => Some (FdDir path)
         | None => None
         end
       end.

(** [read(fd, buf, count)]: [None] is [-1], [Some buf] the bytes delivered
    (none at end of input).  A [read] from a directory fails ([EISDIR]). *)
Definition sys_read (d : fd) (count : nat) (o : rd) (w : World)
  : option (list byte) * fd * World :=
  match o with
  | RdErr => (None, d, w)
  | RdLen k =>
    match d with
    | FdStdin =>
      let buf := take (Nat.min count (S k)) (stdin w) in
      (Some buf, FdStdin, set_stdin (drop (length buf) (stdin w)) w)
    | FdFile p off =>
      let buf := take count (drop off (data_at (files w) p)) in
      (Some buf, FdFile p (off + length buf), w)
    | FdDir p => (None, FdDir p, w)
    end
  end.

Definition next_rd (os : list rd) (count : nat) : rd * list rd :=
  match os with
  | [] => (RdLen count, [])
  | o :: os' => (o, os')
  end.

(** [open(path, O_WRONLY | O_CREAT | O_TRUNC, mode)]: [true] when it
    succeeds. *)
Definition sys_open_trunc (path : string) (mode : Z) (fail : bool) (e : Env)
  (w : World) : bool * World :=
  if fail then (false, w)
  else match files w !! path with
       | Some i =>
         (true, set_files (<[path := Inode [] (i_uid i) (i_gid i) (i_mode i)]> (files w)) w)
       | None =>
         (true, set_files (<[path := Inode [] (e_euid e) (e_egid e)
                                        (Z.ldiff mode (e_umask e))]> (files w)) w)
       end.

(** [write(fd, buf, count)] on a descriptor writing at the end of [path]:
    [None] is [-1], [Some n] the number of bytes taken. *)
Definition sys_write (path : string) (buf : list byte) (o : wr) (w : World)
  : option nat * World :=
  match o with
  | WrErr => (None, w)
  | WrLen k =>
    match files w !! path with
    | None => (None, w)
    | Some i =>
      let n := Nat.min k (length buf) in
      (Some n,
       set_files (<[path := Inode (i_data i ++ take n buf) (i_uid i) (i_gid i) (i_mode i)]>
                    (files w)) w)
    end
  end.

Definition sys_rename (old new : string) (fail : bool) (w : World) : Z * World :=
  if fail then (-1, w)%Z
  else match files w !! old with
       | None => (-1, w)%Z
       | Some i =>
         if decide (old = new) then (0, w)%Z
         else (0%Z, set_files (<[new := i]> (delete old (files w))) w)
       end.

Definition sys_unlink (path : string) (fail : bool) (w : World) : Z * World :=
  if fail then (-1, w)%Z
  else match files w !! path with
       | None => (-1, w)%Z
       | Some _ => (0%Z, set_files (delete path (files w)) w)
       end.

Definition sys_chown (path : string) (uid gid : Z) (fail : bool) (w : World)
  : Z * World :=
  if fail then (-1, w)%Z
  else match files w !! path with
       | None => (-1, w)%Z
       | Some i =>
         (0%Z, set_files (<[path := Inode (i_data i) uid gid (i_mode i)]> (files w)) w)
       end.

Definition sys_chmod (path : string) (mode : Z) (fail : bool) (w : World)
  : Z * World :=
  if fail then (-1, w)%Z
  else match files w !! path with
       | Some i =>
         (0%Z, set_files (<[path := Inode (i_data i) (i_uid i) (i_gid i) mode]> (files w)) w)
       | None =>
         match dirs w !! path with
         | Some _ => (0%Z, set_dirs (<[path := mode]> (dirs w)) w)
         | None => (-1, w)%Z
         end
       end.

(** [mkdir(path, mode)]: [None] when it returns 0, [Some err] when it returns -1
    with [errno = err]. *)
Definition sys_mkdir (path : string) (mode : Z) (fault : option errno) (e : Env)
  (w : World) : option errno * World :=
  match fault with
  | Some err => (Some err, w)
  | None =>
    if bool_decide (is_Some (files w !! path) \/ is_Some (dirs w !! path))
    then (Some EEXIST, w)
    else (None, set_dirs (<[path := Z.ldiff mode (e_umask e)]> (dirs w)) w)
  end.

(** [mkstemp(template)]: the six X that end the template are replaced by six
    characters out of [mkstemp_alphabet]; the file is created exclusively,
    with mode 0600.  [None] is [-1].  A template that does not end in six X
    is refused ([EINVAL]); a C library that fills in fewer X is not covered,
    which matters only when the buffer of line 107 has cut the template. *)
Definition mkstemp_alphabet : list ascii :=
  chars "abcdefghijklmnopqrstuvwxyzABCDEFGHIJKLMNOPQRSTUVWXYZ0123456789".

Definition mkstemp_char (r : N) : ascii :=
  nth (N.to_nat (r mod 62)) mkstemp_alphabet "a"%char.

Definition mkstemp_name (r : N) : list ascii :=
  [mkstemp_char r; mkstemp_char (r / 62); mkstemp_char (r / 62 ^ 2);
   mkstemp_char (r / 62 ^ 3); mkstemp_char (r / 62 ^ 4);
   mkstemp_char (r / 62 ^ 5)]%N.

Definition sys_mkstemp (template : string) (o : option N) (e : Env) (w : World)
  : option string * World :=
  match o with
  | None => (None, w)
  | Some r =>
    let n := String.length template in
    if bool_decide (str_drop (n - 6) template = "XXXXXX") then
      let path := str_take (n - 6) template +:+ unchars (mkstemp_name r) in
      if bool_decide (is_Some (files w !! path) \/ is_Some (dirs w !! path))
      then (None, w)
      else (Some path,
            set_files (<[path := Inode [] (e_euid e) (e_egid e) 384]> (files w)) w)
    else (None, w)
  end.

(** ** The helper functions of the backend *)

(** [file_starts_with] (lines 14-24). *)
Definition file_starts_with (path prefix : string) (open_fail read_fail : bool)
  (w : World) : bool :=
  match sys_open_rd path open_fail w with
  | None => false
  | Some d =>
    match sys_read d 16 (if read_fail then RdErr else RdLen 16) w with
    | (None, _, _) => false
    | (Some buf, _, _) =>
      let n := length buf in
      if n <=? 0 then false
      else
        let plen := String.length prefix in
        if n <? plen then false
        else bool_decide (take plen buf = bytes_of prefix)
    end
  end.

(** [ensure_dir] (lines 26-31): the result, and the [errno] that [mkdir] left
    when it failed. *)
Definition ensure_dir (path : string) (mode : Z) (e : Env) (w : World)
  : Z * option errno * World :=
  match path with
  | EmptyString => (-1, None, w)%Z
  | String _ _ =>
    match sys_mkdir path mode (e_mkdir e path) e w with
    | (None, w') => (0%Z, None, w')
    | (Some err, w') =>
      if decide (err = EEXIST) then (0%Z, Some err, w') else ((-1)%Z, Some err, w')
    end
  end.

(** The loop of [ensure_dirs_recursive] (lines 40-48): [pre] is the part of
    [tmp] before [p], [rest] the part from [p] on. *)
Fixpoint ensure_dirs_loop (pre : list ascii) (rest : list ascii) (mode : Z)
  (e : Env) (w : World) : Z * World :=
  match rest with
  | [] => (0%Z, w)
  | c :: rest' =>
    if decide (c = "/"%char) then
      match ensure_dir (unchars pre) mode e w with
      | (r, err, w') =>
        if negb (r =? 0)%Z && negb (bool_decide (err = Some EEXIST))
        then ((-1)%Z, w')
        else ensure_dirs_loop (pre ++ [c]) rest' mode e w'
      end
    else ensure_dirs_loop (pre ++ [c]) rest' mode e w
  end.

(** [ensure_dirs_recursive] (lines 33-50). *)
Definition ensure_dirs_recursive (path : string) (mode : Z) (e : Env) (w : World)
  : Z * World :=
  match chars path with
  | [] => ((-1)%Z, w)
  | c :: rest =>
    if e_PATH_MAX e <=? String.length path then ((-1)%Z, w)
    else
      match ensure_dirs_loop [c] rest mode e w with
      | (r, w') =>
        if (r =? 0)%Z then
          let '(r', _, w'') := ensure_dir path mode e w' in (r', w'')
        else ((-1)%Z, w')
      end
  end.

(** The retry loop around [write] (lines 65-74 and 130-141): [buf] is what is
    left of the chunk, from [off] on.  The answers [os] are finite and every
    write after the last of them is complete.  The result is the number of
    bytes written, or [None] when a [write] failed. *)
Fixpoint write_retry (path : string) (buf : list byte) (os : list wr) (w : World)
  : option nat * list wr * World :=
  match buf with
  | [] => (Some 0, os, w)
  | _ :: _ =>
    match os with
    | [] =>
      match sys_write path buf (WrLen (length buf)) w with
      | (None, w') => (None, [], w')
      | (Some n, w') => (Some n, [], w')
      end
    | o :: os' =>
      match sys_write path buf o w with
      | (None, w') => (None, os', w')
      | (Some n, w') =>
        match write_retry path (drop n buf) os' w' with
        | (r, os'', w'') => (Nat.add n <$> r, os'', w'')
        end
      end
    end
  end.

Inductive loop_end := LoopEof | LoopReadErr | LoopWriteErr.

(** The loop of [copy_file] (lines 64-75).  [fuel] bounds the number of
    [read]s; [None] stands for a loop that has not ended within it. *)
Fixpoint copy_file_loop (fuel : nat) (src : fd) (dst : string) (rs : list rd)
  (ws : list wr) (w : World) : option (loop_end * World) :=
  match fuel with
  | O => None
  | S fuel' =>
    let '(o, rs') := next_rd rs 8192 in
    match sys_read src 8192 o w with
    | (None, _, w1) => Some (LoopReadErr, w1)
    | (Some [], _, w1) => Some (LoopEof, w1)
    | (Some buf, src', w1) =>
      match write_retry dst buf ws w1 with
      | (None, _, w2) => Some (LoopWriteErr, w2)
      | (Some _, ws', w2) => copy_file_loop fuel' src' dst rs' ws' w2
      end
    end
  end.

(** [copy_file] (lines 52-80); [None] when the loop does not end. *)
Definition copy_file (src dst : string) (mode : Z) (e : Env) (w : World)
  : option (Z * World) :=
  match sys_open_rd src (e_copy_open_src_fail e) w with
  | None => Some ((-1)%Z, w)
  | Some fin =>
    match sys_open_trunc dst mode (e_copy_open_dst_fail e) e w with
    | (false, w1) => Some ((-1)%Z, w1)
    | (true, w1) =>
      match copy_file_loop (S (length (data_at (files w1) src))) fin dst
              (e_copy_reads e) (e_copy_writes e) w1 with
      | None => None
      | Some (LoopEof, w2) => Some (0%Z, w2)
      | Some (_, w2) => Some ((-1)%Z, w2)
      end
    end
  end.

(** ** [main] (lines 82-251) *)

Inductive cups_backend_t := CUPS_BACKEND_OK | CUPS_BACKEND_FAILED.

(** Where control is after a piece of [main]: at the next statement with a
    value, out of [main] through a [return], or in a loop that does not end. *)
Inductive step (A : Type) : Type :=
  | Next (a : A) (w : World)
  | Return (c : cups_backend_t) (w : World)
  | Spin.
Arguments Next {A} a w.
Arguments Return {A} c w.
Arguments Spin {A}.

Definition bind {A B : Type} (m : World -> step A) (k : A -> World -> step B)
  (w : World) : step B :=
  match m w with
  | Next a w' => k a w'
  | Return c w' => Return c w'
  | Spin => Spin
  end.

Notation "'run' x <- m ; k" := (bind m (fun x => k))
  (at level 10, x name, m at level 100, k at level 200, only parsing).

(** The capture loop (lines 126-142).  [total] is [total_written], a
    [size_t]: 64 bits, wrapping. *)
Definition size_t_add (a : Z) (n : nat) : Z := ((a + Z.of_nat n) mod 2 ^ 64)%Z.

Fixpoint capture_loop (fuel : nat) (infd : fd) (outpath : string) (rs : list rd)
  (ws : list wr) (total : Z) (w : World) : option (loop_end * Z * World) :=
  match fuel with
  | O => None
  | S fuel' =>
    let '(o, rs') := next_rd rs 8192 in
    match sys_read infd 8192 o w with
    | (None, _, w1) => Some (LoopReadErr, total, w1)
    | (Some [], _, w1) => Some (LoopEof, total, w1)
    | (Some buf, infd', w1) =>
      match write_retry outpath buf ws w1 with
      | (None, _, w2) => Some (LoopWriteErr, total, w2)
      | (Some n, ws', w2) =>
        capture_loop fuel' infd' outpath rs' ws' (size_t_add total n) w2
      end
    end
  end.

(** What is left to read on a descriptor. *)
Definition pending (d : fd) (w : World) : list byte :=
  match d with
  | FdStdin => stdin w
  | FdFile p off => drop off (data_at (files w) p)
  | FdDir _ => []
  end.

(** Lines 103-104: the scratch directory. *)
Definition tmpdir (e : Env) : string :=
  match e_TMPDIR e with
  | Some (String c d) => String c d
  | _ => "/private/var/spool/cups/tmp"
  end.

(** Lines 107-108: the template handed to [mkstemp], in [templatePath[1024]]. *)
Definition mkstemp_template (e : Env) : string :=
  snprintf 1024 (tmpdir e +:+ "/onenote-print-XXXXXX").

(** Lines 103-154: the job data goes to a fresh temp file, whose path is the
    result. *)
Definition main_capture (file : option string) (e : Env) (w : World) : step string :=
  let template := mkstemp_template e in
  match sys_mkstemp template (e_mkstemp e) e w with
  | (None, w1) => Return CUPS_BACKEND_FAILED (fprintf_stderr (ErrTempFile template) w1)
  | (Some templatePath, w1) =>
    let opened :=
      match file with
      | Some (String c f) =>
        match sys_open_rd (String c f) (e_open_input_fail e) w1 with
        | Some d => inr d
        | None => inl (String c f)
        end
      | _ => inr FdStdin
      end in
    match opened with
    | inl f => Return CUPS_BACKEND_FAILED (fprintf_stderr (ErrOpenInput f) w1)
    | inr infd =>
      match capture_loop (S (length (pending infd w1))) infd templatePath
              (e_capture_reads e) (e_capture_writes e) 0%Z w1 with
      | None => Spin
      | Some (LoopWriteErr, _, w2) =>
        Return CUPS_BACKEND_FAILED (fprintf_stderr ErrWriteTemp w2)
      | Some (LoopReadErr, _, w2) =>
        Return CUPS_BACKEND_FAILED (fprintf_stderr ErrReadInput w2)
      | Some (LoopEof, total, w2) =>
        Next templatePath (fprintf_stderr (InfoWrote total templatePath) w2)
      end
    end
  end.

(** Lines 156-163: the extension of the queued document. *)
Definition main_sniff (templatePath : string) (e : Env) (w : World) : step string :=
  if file_starts_with templatePath "%!PS"
       (e_sniff_ps_open_fail e) (e_sniff_ps_read_fail e) w
  then Next "ps" (fprintf_stderr InfoPostScript w)
  else if file_starts_with templatePath "%PDF"
            (e_sniff_pdf_open_fail e) (e_sniff_pdf_read_fail e) w
  then Next "pdf" w
  else Next "pdf" w.

(** Lines 165-169. *)
Definition main_getpwnam (user : string) (e : Env) (w : World) : step passwd :=
  match e_getpwnam e user with
  | Some pw =>
    match pw_dir pw with
    | Some _ => Next pw w
    | None => Return CUPS_BACKEND_FAILED (fprintf_stderr (ErrGetpwnam user) w)
    end
  | None => Return CUPS_BACKEND_FAILED (fprintf_stderr (ErrGetpwnam user) w)
  end.

Definition rootDir : string := "/Users/Shared/OneNoteHelper".
Definition incomingDir : string := "/Users/Shared/OneNoteHelper/Incoming".
Definition processingDir : string := "/Users/Shared/OneNoteHelper/Processing".
Definition doneDir : string := "/Users/Shared/OneNoteHelper/Done".
Definition failedDir : string := "/Users/Shared/OneNoteHelper/Failed".

(** Lines 177-184: modes 0777 and 01777. *)
Fixpoint main_dirs (ds : list string) (e : Env) (w : World) : step unit :=
  match ds with
  | [] => Next tt w
  | d :: ds' =>
    match ensure_dirs_recursive d 511 e w with
    | (r, w1) =>
      if negb (r =? 0)%Z
      then Return CUPS_BACKEND_FAILED (fprintf_stderr (ErrCreateDir d) w1)
      else main_dirs ds' e (sys_chmod d 1023 (e_chmod_dir_fail e d) w1).2
    end
  end.

(** Lines 186-193.  [time_t] and [long] are 64 bits. *)
Definition to_long (z : Z) : Z := ((z + 2 ^ 63) mod 2 ^ 64 - 2 ^ 63)%Z.

Definition baseName (job_id : string) (now : Z) : string :=
  snprintf 256 ("job-" +:+ job_id +:+ "-" +:+ pretty (to_long now)).

Definition destDoc (e : Env) (job_id : string) (now : Z) (ext : string) : string :=
  snprintf (e_PATH_MAX e) (incomingDir +:+ "/" +:+ baseName job_id now +:+ "." +:+ ext).

Definition destJson (e : Env) (job_id : string) (now : Z) : string :=
  snprintf (e_PATH_MAX e) (incomingDir +:+ "/" +:+ baseName job_id now +:+ ".json").

(** Lines 195-202: mode 0644. *)
Definition main_stage (templatePath dest : string) (e : Env) (w : World) : step unit :=
  match sys_rename templatePath dest (e_rename_fail e) w with
  | (r, w1) =>
    if negb (r =? 0)%Z then
      match copy_file templatePath dest 420 e w1 with
      | None => Spin
      | Some (r', w2) =>
        if negb (r' =? 0)%Z
        then Return CUPS_BACKEND_FAILED (fprintf_stderr (ErrMoveCopy templatePath dest) w2)
        else Next tt (sys_unlink templatePath (e_unlink_fail e) w2).2
      end
    else Next tt w1
  end.

(** Lines 204-207 and 243-246. *)
Definition main_chown_chmod (path : string) (pw : passwd) (chown_fail chmod_fail : bool)
  (w : World) : step unit :=
  match sys_chown path (pw_uid pw) (pw_gid pw) chown_fail w with
  | (r, w1) =>
    let w2 := if negb (r =? 0)%Z then fprintf_stderr (WarnChown path) w1 else w1 in
    Next tt (sys_chmod path 420 chmod_fail w2).2
  end.

(** Lines 210-226: the title, escaped into [escTitle[size]].  [ei] is the
    number of characters already in the buffer; the result is what the loop
    still appends. *)
Definition quote_char : ascii := "034"%char.
Definition backslash_char : ascii := "092"%char.
Definition nl_char : ascii := "010"%char.
Definition cr_char : ascii := "013"%char.
Definition tab_char : ascii := "009"%char.

Fixpoint escape_loop (size : nat) (title : string) (ei : nat) : string :=
  match title with
  | EmptyString => EmptyString
  | String c rest =>
    if negb (ei <? size - 1) then EmptyString
    else if bool_decide (c = quote_char \/ c = backslash_char) then
      if size <=? ei + 2 then EmptyString
      else String backslash_char (String c (escape_loop size rest (ei + 2)))
    else if bool_decide (c = nl_char \/ c = cr_char \/ c = tab_char) then
      if size <=? ei + 2 then EmptyString
      else String backslash_char
             (String (if decide (c = nl_char) then "n"%char
                      else if decide (c = cr_char) then "r"%char else "t"%char)
                     (escape_loop size rest (ei + 2)))
    else String c (escape_loop size rest (ei + 1))
  end.

Definition escTitle (title : string) : string := escape_loop 2048 title 0.

(** The text of the sidecar (the format of lines 233-240). *)
Definition dq : string := String quote_char EmptyString.
Definition nl : string := String nl_char EmptyString.

Definition sidecar_text (doc esc_title user job_id : string) : string :=
  "{" +:+ nl +:+
  "  " +:+ dq +:+ "file" +:+ dq +:+ ": " +:+ dq +:+ doc +:+ dq +:+ "," +:+ nl +:+
  "  " +:+ dq +:+ "title" +:+ dq +:+ ": " +:+ dq +:+ esc_title +:+ dq +:+ "," +:+ nl +:+
  "  " +:+ dq +:+ "user" +:+ dq +:+ ": " +:+ dq +:+ user +:+ dq +:+ "," +:+ nl +:+
  "  " +:+ dq +:+ "job" +:+ dq +:+ ": " +:+ dq +:+ job_id +:+ dq +:+ nl +:+
  "}" +:+ nl.

(** Lines 228-241: [fopen(destJson, "w")] creates or truncates with mode
    0666; the results of [fprintf] and [fclose] are not looked at, and
    [e_json_flushed] says how much of the text reached the file. *)
Definition main_sidecar (json doc title user job_id : string) (e : Env) (w : World)
  : step unit :=
  match sys_open_trunc json 438 (e_fopen_json_fail e) e w with
  | (false, w1) => Return CUPS_BACKEND_FAILED (fprintf_stderr (ErrJson json) w1)
  | (true, w1) =>
    let text := bytes_of (sidecar_text doc (escTitle title) user job_id) in
    let k := match e_json_flushed e with Some k => k | None => length text end in
    Next tt (sys_write json text (WrLen k) w1).2
  end.

(** Lines 204-250: the staged document gets its owner and mode, the sidecar
    is written and gets its owner and mode. *)
Definition main_queue (doc json : string) (pw : passwd) (title user job_id : string)
  (e : Env) : World -> step unit :=
  run _ <- main_chown_chmod doc pw (e_chown_doc_fail e) (e_chmod_doc_fail e);
  run _ <- main_sidecar json doc title user job_id e;
  run _ <- main_chown_chmod json pw (e_chown_json_fail e) (e_chmod_json_fail e);
  fun w => Return CUPS_BACKEND_OK (fprintf_stderr (InfoQueued doc) w).

(** Job mode, from line 93 on. *)
Definition main_job (job_id user title : string) (file : option string) (e : Env)
  : World -> step unit :=
  run templatePath <- main_capture file e;
  run ext <- main_sniff templatePath e;
  run pw <- main_getpwnam user e;
  run _ <- main_dirs [rootDir; incomingDir; processingDir; doneDir; failedDir] e;
  let doc := destDoc e job_id (e_now e) ext in
  let json := destJson e job_id (e_now e) in
  run _ <- main_stage templatePath doc e;
  main_queue doc json pw title user job_id e.

(** [main]: [argv] holds the program name and the arguments, [argc] is its
    length. *)
Definition main (argv : list string) (e : Env) (w : World) : step unit :=
  let argc := length argv in
  if argc =? 1 then Return CUPS_BACKEND_OK w
  else if negb (argc =? 6) && negb (argc =? 7)
  then Return CUPS_BACKEND_FAILED (fprintf_stderr (DbgInvalidArgc argc) w)
  else
    let job_id := nth 1 argv EmptyString in
    let user := nth 2 argv EmptyString in
    let title := nth 3 argv EmptyString in
    let file := if argc =? 7 then Some (nth 6 argv EmptyString) else None in
    main_job job_id user title file e w.

(** ** The escaping rule and its inverse, as the specification words them *)

(** The escaping rule without any buffer: a quote or a backslash gets a
    backslash in front, newline, carriage return and tab become the two
    characters of their escape, every other character is kept. *)
Fixpoint escape_rule (title : string) : string :=
  match title with
  | EmptyString => EmptyString
  | String c rest =>
    if bool_decide (c = quote_char \/ c = backslash_char)
    then String backslash_char (String c (escape_rule rest))
    else if decide (c = nl_char) then String backslash_char (String "n" (escape_rule rest))
    else if decide (c = cr_char) then String backslash_char (String "r" (escape_rule rest))
    else if decide (c = tab_char) then String backslash_char (String "t" (escape_rule rest))
    else String c (escape_rule rest)
  end.

(** What a backslash followed by [c] stands for. *)
Definition unescape_char (c : ascii) : option ascii :=
  if bool_decide (c = quote_char \/ c = backslash_char) then Some c
  else if decide (c = "n"%char) then Some nl_char
  else if decide (c = "r"%char) then Some cr_char
  else if decide (c = "t"%char) then Some tab_char
  else None.

(** The inverse of the rule.  It fails on a text that is not validly
    escaped: a backslash with nothing or with an unknown character after it,
    or a bare quote, newline, carriage return or tab. *)
Fixpoint unescape (s : string) : option string :=
  match s with
  | EmptyString => Some EmptyString
  | String c rest =>
    if decide (c = backslash_char) then
      match rest with
      | EmptyString => None
      | String d rest' =>
        match unescape_char d with
        | Some x => String x <$> unescape rest'
        | None => None
        end
      end
    else if bool_decide (c = quote_char \/ c = nl_char \/ c = cr_char \/ c = tab_char)
    then None
    else String c <$> unescape rest
  end.

(** The characters that the rule replaces by two. *)
Definition needs_escape (c : ascii) : Prop :=
  c = quote_char \/ c = backslash_char \/ c = nl_char \/ c = cr_char \/ c = tab_char.

Global Instance needs_escape_dec c : Decision (needs_escape c).
Proof. unfold needs_escape. apply _. Defined.

(** ** Vocabulary of the statements *)

(** The characters a path ends with. *)
Definition ends_with (suffix : string) (s : string) : Prop :=
  chars suffix `suffix_of` chars s.

(** The sniffer's first look at the temp file meets no error. *)
Definition sniff_readable (path : string) (e : Env) (w : World) : Prop :=
  is_Some (files w !! path) /\
  e_sniff_ps_open_fail e = false /\ e_sniff_ps_read_fail e = false.

(** The path of a temp file: it ends with six characters of [mkstemp]. *)
Definition temp_shaped (path : string) : Prop :=
  exists r, mkstemp_name r `suffix_of` chars path.

(** The name of a queue artifact: a document or a sidecar. *)
Definition queue_named (path : string) : Prop :=
  ends_with ".pdf" path \/ ends_with ".ps" path \/ ends_with ".json" path.

Global Instance queue_named_dec p : Decision (queue_named p).
Proof. unfold queue_named, ends_with. apply _. Defined.

(** Every file-system state between [w] and [w'] satisfies [Q]: the run
    from [w] to [w'] pushed the states [new], all of them in [Q]. *)
Definition passes (Q : gmap string inode -> Prop) (w w' : World) : Prop :=
  exists new, states w' = new ++ states w /\ Forall Q new.

(** [Q] survives a file appearing or changing at [p]; a file going away
    at [p]. *)
Definition ins_ok (Q : gmap string inode -> Prop) (p : string) : Prop :=
  forall s i, Q s -> Q (<[p := i]> s).
Definition del_ok (Q : gmap string inode -> Prop) (p : string) : Prop :=
  forall s, Q s -> Q (delete p s).

(** The file system [f] with [bs] added at the end of the file [p]. *)
Definition append_file (p : string) (bs : list byte) (f : gmap string inode)
  : gmap string inode :=
  match f !! p with
  | Some i => <[p := Inode (i_data i ++ bs) (i_uid i) (i_gid i) (i_mode i)]> f
  | None => f
  end.

(** The descriptor [d] does not read the file that is written at [out]. *)
Definition no_alias (d : fd) (out : string) : Prop :=
  match d with
  | FdStdin => True
  | FdFile p _ => p <> out
  | FdDir _ => True
  end.

(** [Q] survives a change of owner or mode at [p]. *)
Definition meta_ok (Q : gmap string inode -> Prop) (p : string) : Prop :=
  forall s i uid gid mode,
    s !! p = Some i -> Q s -> Q (<[p := Inode (i_data i) uid gid mode]> s).

(** The paths in [X] are as in [f0]. *)
Definition untouched (X : string -> Prop) (f0 : gmap string inode)
  (s : gmap string inode) : Prop :=
  forall p, X p -> s !! p = f0 !! p.

(** The same files with the same bytes; owners and modes may differ. *)
Definition same_data (f f' : gmap string inode) : Prop :=
  forall p, i_data <$> f' !! p = i_data <$> f !! p.

(** The document is in place: it exists and holds [payload]. *)
Definition in_place (doc : string) (payload : list byte) (s : gmap string inode)
  : Prop :=
  exists i, s !! doc = Some i /\ i_data i = payload.

(** The bytes of the job: the named file when there is one, the inherited
    input stream otherwise (line 98 and lines 116-124). *)
Definition job_data (file : option string) (w : World) : list byte :=
  match file with
  | Some (String c f) => data_at (files w) (String c f)
  | _ => stdin w
  end.

Definition is_file (d : fd) : Prop :=
  match d with
  | FdStdin => False
  | FdFile _ _ => True
  | FdDir _ => True
  end.

Definition final_world {A : Type} (r : step A) : option World :=
  match r with
  | Next _ w => Some w
  | Return _ w => Some w
  | Spin => None
  end.

Definition exit_code {A : Type} (r : step A) : option cups_backend_t :=
  match r with
  | Return c _ => Some c
  | _ => None
  end.

(** The environment [e] with other answers to the four ownership and
    permission calls on the document and the sidecar. *)
Definition with_perm_faults (e : Env) (chown_doc chmod_doc chown_json chmod_json : bool)
  : Env :=
  {| e_PATH_MAX := e_PATH_MAX e; e_euid := e_euid e; e_egid := e_egid e;
     e_umask := e_umask e; e_TMPDIR := e_TMPDIR e; e_mkstemp := e_mkstemp e;
     e_open_input_fail := e_open_input_fail e;
     e_capture_reads := e_capture_reads e; e_capture_writes := e_capture_writes e;
     e_sniff_ps_open_fail := e_sniff_ps_open_fail e;
     e_sniff_ps_read_fail := e_sniff_ps_read_fail e;
     e_sniff_pdf_open_fail := e_sniff_pdf_open_fail e;
     e_sniff_pdf_read_fail := e_sniff_pdf_read_fail e;
     e_getpwnam := e_getpwnam e; e_mkdir := e_mkdir e;
     e_chmod_dir_fail := e_chmod_dir_fail e; e_now := e_now e;
     e_rename_fail := e_rename_fail e;
     e_copy_open_src_fail := e_copy_open_src_fail e;
     e_copy_open_dst_fail := e_copy_open_dst_fail e;
     e_copy_reads := e_copy_reads e; e_copy_writes := e_copy_writes e;
     e_unlink_fail := e_unlink_fail e;
     e_chown_doc_fail := chown_doc; e_chmod_doc_fail := chmod_doc;
     e_fopen_json_fail := e_fopen_json_fail e; e_json_flushed := e_json_flushed e;
     e_chown_json_fail := chown_json; e_chmod_json_fail := chmod_json |}.

(** ** Sample data *)

Definition sample_env : Env := {|
  e_PATH_MAX := 1024; e_euid := 1; e_egid := 1; e_umask := 18;
  e_TMPDIR := None; e_mkstemp := Some 12345%N;
  e_open_input_fail := false; e_capture_reads := []; e_capture_writes := [];
  e_sniff_ps_open_fail := false; e_sniff_ps_read_fail := false;
  e_sniff_pdf_open_fail := false; e_sniff_pdf_read_fail := false;
  e_getpwnam := fun u =>
    if bool_decide (u = "nobody") then None
    else Some (Passwd (Some "/Users/alice") 501 20);
  e_mkdir := fun _ => None; e_chmod_dir_fail := fun _ => false;
  e_now := 1700000000;
  e_rename_fail := false; e_copy_open_src_fail := false;
  e_copy_open_dst_fail := false; e_copy_reads := []; e_copy_writes := [];
  e_unlink_fail := false; e_chown_doc_fail := false; e_chmod_doc_fail := false;
  e_fopen_json_fail := false; e_json_flushed := None;
  e_chown_json_fail := false; e_chmod_json_fail := false |}.

(** An empty file system with a PDF waiting on the input stream. *)
Definition sample_world : World :=
  MkWorld ∅ ∅ (bytes_of "%PDF-1.4 sample") [] [].

Definition sample_argv : list string :=
  ["onenote"; "101"; "alice"; "Report"; "1"; "media=A4"].

(** The rename fails (another file system, say) and the first write of the
    fallback copy fails. *)
Definition stage_fail_env : Env := {|
  e_PATH_MAX := 1024; e_euid := 1; e_egid := 1; e_umask := 18;
  e_TMPDIR := None; e_mkstemp := Some 12345%N;
  e_open_input_fail := false; e_capture_reads := []; e_capture_writes := [];
  e_sniff_ps_open_fail := false; e_sniff_ps_read_fail := false;
  e_sniff_pdf_open_fail := false; e_sniff_pdf_read_fail := false;
  e_getpwnam := fun u => Some (Passwd (Some "/Users/alice") 501 20);
  e_mkdir := fun _ => None; e_chmod_dir_fail := fun _ => false;
  e_now := 1700000000;
  e_rename_fail := true; e_copy_open_src_fail := false;
  e_copy_open_dst_fail := false; e_copy_reads := []; e_copy_writes := [WrErr];
  e_unlink_fail := false; e_chown_doc_fail := false; e_chmod_doc_fail := false;
  e_fopen_json_fail := false; e_json_flushed := None;
  e_chown_json_fail := false; e_chmod_json_fail := false |}.

(** The input arrives in pieces of at most 3 bytes and the first two writes
    take 1 byte and no byte. *)
Definition short_io_env : Env := {|
  e_PATH_MAX := 1024; e_euid := 1; e_egid := 1; e_umask := 18;
  e_TMPDIR := Some "/tmp"; e_mkstemp := Some 7%N;
  e_open_input_fail := false;
  e_capture_reads := [RdLen 2; RdLen 0; RdLen 2];
  e_capture_writes := [WrLen 1; WrLen 0];
  e_sniff_ps_open_fail := false; e_sniff_ps_read_fail := false;
  e_sniff_pdf_open_fail := false; e_sniff_pdf_read_fail := false;
  e_getpwnam := fun u => Some (Passwd (Some "/Users/alice") 501 20);
  e_mkdir := fun _ => None; e_chmod_dir_fail := fun _ => false;
  e_now := 1700000000;
  e_rename_fail := false; e_copy_open_src_fail := false;
  e_copy_open_dst_fail := false; e_copy_reads := []; e_copy_writes := [];
  e_unlink_fail := false; e_chown_doc_fail := false; e_chmod_doc_fail := false;
  e_fopen_json_fail := false; e_json_flushed := None;
  e_chown_json_fail := false; e_chmod_json_fail := false |}.





(** Two job identifiers that differ only after their 251st character. *)
Definition long_job_id (last : string) : string :=
  unchars (replicate 251 "7"%char) +:+ last.

(** ** Vocabulary of the further properties *)

(** Something, a directory or a file, sits at [p]. *)
Definition path_exists (w : World) (p : string) : Prop :=
  is_Some (files w !! p) \/ is_Some (dirs w !! p).

(** The inode that [open(path, O_WRONLY | O_CREAT | O_TRUNC, mode)] leaves:
    an existing file keeps its owner and its mode. *)
Definition truncated (e : Env) (mode : Z) (old : option inode) : inode :=
  match old with
  | Some i => Inode [] (i_uid i) (i_gid i) (i_mode i)
  | None => Inode [] (e_euid e) (e_egid e) (Z.ldiff mode (e_umask e))
  end.

Definition no_read_error (rs : list rd) : Prop := Forall (fun o => o <> RdErr) rs.
Definition no_write_error (ws : list wr) : Prop := Forall (fun o => o <> WrErr) ws.

(** A world with one file of seventeen bytes, for the sniffer. *)
Definition long_magic : string := "%PDF-1.7-extended".
Definition long_magic_world : World :=
  MkWorld {[ "/tmp/doc" := Inode (bytes_of long_magic) 1 1 384 ]} ∅ [] [] [].

(** A world with a source file and an older destination of another owner. *)
Definition copy_world : World :=
  MkWorld {[ "/tmp/src" := Inode (bytes_of "%PDF-1.4 copy") 1 1 384;
             "/queue/dst" := Inode (bytes_of "old") 501 20 416 ]} ∅ [] [] [].

(** A world where the source of a copy is a directory. *)
Definition dir_source_world : World :=
  MkWorld {[ "/queue/dst" := Inode (bytes_of "old") 501 20 416 ]}
          {[ "/tmp" := 511%Z ]} [] [] [].

(** From [w] to [w'] nothing changed but the directories, none of which
    changed or went away: a directory of [w'] that is not one of [w] is new,
    where nothing was, and has the mode [m]. *)
Definition dirs_grow (m : Z) (w w' : World) : Prop :=
  files w' = files w /\ stdin w' = stdin w /\ stderr w' = stderr w /\
  history w' = history w /\
  forall q, dirs w' !! q = dirs w !! q \/
            (~ path_exists w q /\ dirs w' !! q = Some m).

(** An environment in which no [mkdir] fails for a reason of its own. *)
Definition mkdir_fault_free (e : Env) : Prop := forall q, e_mkdir e q = None.

(** A world where a regular file sits where a directory is wanted. *)
Definition file_in_the_way : World :=
  MkWorld {[ "/Users/Shared/OneNoteHelper" := Inode (bytes_of "x") 1 1 420 ]} ∅ [] [] [].

(** [mkdir] is refused below [/Users/Shared]. *)
Definition no_access_env : Env := {|
  e_PATH_MAX := 1024; e_euid := 1; e_egid := 1; e_umask := 18;
  e_TMPDIR := None; e_mkstemp := Some 12345%N;
  e_open_input_fail := false; e_capture_reads := []; e_capture_writes := [];
  e_sniff_ps_open_fail := false; e_sniff_ps_read_fail := false;
  e_sniff_pdf_open_fail := false; e_sniff_pdf_read_fail := false;
  e_getpwnam := fun u => Some (Passwd (Some "/Users/alice") 501 20);
  e_mkdir := fun q =>
    if bool_decide (q = "/Users/Shared/OneNoteHelper") then Some EACCES else None;
  e_chmod_dir_fail := fun _ => false;
  e_now := 1700000000;
  e_rename_fail := false; e_copy_open_src_fail := false;
  e_copy_open_dst_fail := false; e_copy_reads := []; e_copy_writes := [];
  e_unlink_fail := false; e_chown_doc_fail := false; e_chmod_doc_fail := false;
  e_fopen_json_fail := false; e_json_flushed := None;
  e_chown_json_fail := false; e_chmod_json_fail := false |}.

(** The name [mkstemp] makes of the template with the draw [r]. *)
Definition temp_path (e : Env) (r : N) : string :=
  str_take (String.length (mkstemp_template e) - 6) (mkstemp_template e)
  +:+ unchars (mkstemp_name r).

(** The paths at which a run of [main] may create, change or remove a file:
    the temp file, the document under either extension, the sidecar, and the
    five queue directories (a regular file that sits in the place of one of
    them gets its mode changed). *)
Definition own_path (argv : list string) (e : Env) (p : string) : Prop :=
  (exists r, e_mkstemp e = Some r /\ p = temp_path e r) \/
  p = destDoc e (nth 1 argv EmptyString) (e_now e) "ps" \/
  p = destDoc e (nth 1 argv EmptyString) (e_now e) "pdf" \/
  p = destJson e (nth 1 argv EmptyString) (e_now e) \/
  p ∈ [rootDir; incomingDir; processingDir; doneDir; failedDir].

(** The file of the job, when there is one, can be opened. *)
Definition input_openable (file : option string) (e : Env) (w : World) : Prop :=
  match file with
  | Some (String c f) =>
    is_Some (files w !! String c f) /\ e_open_input_fail e = false
  | _ => True
  end.

(** A title without a character that the sidecar escapes. *)
Definition plain_title (title : string) : Prop :=
  Forall (fun c => ~ needs_escape c) (chars title).

(** A title of 1024 double quotes. *)
Definition quotes_title : string := unchars (replicate 1024 quote_char).

(** A scratch directory whose name has 1010 characters and ends in six X. *)
Definition long_tmpdir : string :=
  "/" +:+ unchars (replicate 1003 "d"%char) +:+ "XXXXXX".

Definition long_tmpdir_env : Env := {|
  e_PATH_MAX := 1024; e_euid := 1; e_egid := 1; e_umask := 18;
  e_TMPDIR := Some long_tmpdir; e_mkstemp := Some 12345%N;
  e_open_input_fail := false; e_capture_reads := []; e_capture_writes := [];
  e_sniff_ps_open_fail := false; e_sniff_ps_read_fail := false;
  e_sniff_pdf_open_fail := false; e_sniff_pdf_read_fail := false;
  e_getpwnam := fun u => Some (Passwd (Some "/Users/alice") 501 20);
  e_mkdir := fun _ => None; e_chmod_dir_fail := fun _ => false;
  e_now := 1700000000;
  e_rename_fail := false; e_copy_open_src_fail := false;
  e_copy_open_dst_fail := false; e_copy_reads := []; e_copy_writes := [];
  e_unlink_fail := false; e_chown_doc_fail := false; e_chmod_doc_fail := false;
  e_fopen_json_fail := false; e_json_flushed := None;
  e_chown_json_fail := false; e_chmod_json_fail := false |}.

(** A world in which a document of another owner is already staged. *)
Definition staged_doc : string :=
  "/Users/Shared/OneNoteHelper/Incoming/job-101-1700000000.pdf".
Definition staged_json : string :=
  "/Users/Shared/OneNoteHelper/Incoming/job-101-1700000000.json".
Definition staged_world : World :=
  MkWorld {[ staged_doc := Inode (bytes_of "%PDF-1.4 sample") 1 1 384 ]} ∅ [] [] [].

(** The sidecar cannot be opened; or only ten bytes of it reach the file. *)
Definition json_env (fopen_fail : bool) (flushed : option nat) : Env := {|
  e_PATH_MAX := 1024; e_euid := 1; e_egid := 1; e_umask := 18;
  e_TMPDIR := None; e_mkstemp := Some 12345%N;
  e_open_input_fail := false; e_capture_reads := []; e_capture_writes := [];
  e_sniff_ps_open_fail := false; e_sniff_ps_read_fail := false;
  e_sniff_pdf_open_fail := false; e_sniff_pdf_read_fail := false;
  e_getpwnam := fun u => Some (Passwd (Some "/Users/alice") 501 20);
  e_mkdir := fun _ => None; e_chmod_dir_fail := fun _ => false;
  e_now := 1700000000;
  e_rename_fail := false; e_copy_open_src_fail := false;
  e_copy_open_dst_fail := false; e_copy_reads := []; e_copy_writes := [];
  e_unlink_fail := false; e_chown_doc_fail := false; e_chmod_doc_fail := false;
  e_fopen_json_fail := fopen_fail; e_json_flushed := flushed;
  e_chown_json_fail := false; e_chmod_json_fail := false |}.

(** A world with the file of a job, whose name ends like a document's. *)
Definition etc_world : World :=
  MkWorld {[ "/etc/job.pdf" := Inode (bytes_of "%PDF-1.4 sample") 0 0 420 ]} ∅ [] [] [].


(** * Verification *)

(** ** Strings *)

Lemma chars_app (a b : string) : chars (a +:+ b) = chars a ++ chars b.
Proof. induction a as [|c a IH]; simpl; [done|]. by rewrite IH. Qed.

Lemma chars_inj (a b : string) : chars a = chars b -> a = b.
Proof.
  intros H. rewrite <- (string_of_list_ascii_of_string a),
    <- (string_of_list_ascii_of_string b). by rewrite H.
Qed.

Lemma length_chars (s : string) : length (chars s) = String.length s.
Proof. induction s; simpl; congruence. Qed.

Lemma chars_unchars (l : list ascii) : chars (unchars l) = l.
Proof. apply list_ascii_of_string_of_list_ascii. Qed.

Lemma unchars_chars (s : string) : unchars (chars s) = s.
Proof. apply string_of_list_ascii_of_string. Qed.

Lemma length_app_str (a b : string) :
  String.length (a +:+ b) = String.length a + String.length b.
Proof. rewrite <- !length_chars, chars_app, length_app. done. Qed.

Lemma chars_str_take n s : chars (str_take n s) = take n (chars s).
Proof. apply chars_unchars. Qed.

Lemma chars_str_drop n s : chars (str_drop n s) = drop n (chars s).
Proof. apply chars_unchars. Qed.

Lemma str_take_all n s : String.length s <= n -> str_take n s = s.
Proof.
  intros H. apply chars_inj. rewrite chars_str_take, take_ge; [done|].
  by rewrite length_chars.
Qed.

Lemma length_str_take n s : String.length (str_take n s) = Nat.min n (String.length s).
Proof. by rewrite <- !length_chars, chars_str_take, length_take. Qed.

Lemma snprintf_fits size s : String.length s <= size - 1 -> snprintf size s = s.
Proof. apply str_take_all. Qed.

Lemma length_snprintf size s : String.length (snprintf size s) <= size - 1.
Proof. unfold snprintf. rewrite length_str_take. lia. Qed.

Lemma str_app_inv_head (a b c : string) : a +:+ b = a +:+ c -> b = c.
Proof.
  intros H. apply chars_inj. apply (f_equal chars) in H.
  rewrite !chars_app in H. by apply app_inv_head in H.
Qed.

Lemma str_app_inv_tail (a b c : string) : a +:+ c = b +:+ c -> a = b.
Proof.
  intros H. apply chars_inj. apply (f_equal chars) in H.
  rewrite !chars_app in H. by apply app_inv_tail in H.
Qed.

Lemma ends_with_app a b : ends_with b (a +:+ b).
Proof. exists (chars a). apply chars_app. Qed.

Lemma ends_with_app_r a b c : ends_with c b -> ends_with c (a +:+ b).
Proof.
  intros [k Hk]. exists (chars a ++ k). by rewrite chars_app, Hk, app_assoc.
Qed.

(** Two texts that end differently are different. *)
Lemma ends_with_clash (s t a b : string) :
  ends_with a s -> ends_with b t ->
  ~ chars a `suffix_of` chars b -> ~ chars b `suffix_of` chars a -> s <> t.
Proof.
  intros Ha Hb Hab Hba ->.
  destruct (suffix_weak_total _ _ _ Ha Hb); tauto.
Qed.

Ltac no_suffix :=
  apply (bool_decide_eq_false_1 (_ `suffix_of` _)); vm_compute; reflexivity.

(** ** Queue names (lines 186-193) *)

Lemma baseName_fits job_id now :
  String.length job_id + String.length (pretty (to_long now)) + 5 <= 255 ->
  baseName job_id now = "job-" +:+ job_id +:+ "-" +:+ pretty (to_long now).
Proof.
  intros H. unfold baseName. apply snprintf_fits.
  rewrite !length_app_str. cbn [String.length]. lia.
Qed.

Lemma length_baseName job_id now : String.length (baseName job_id now) <= 255.
Proof. apply (length_snprintf 256). Qed.

Lemma destDoc_fits e job_id now ext :
  298 <= e_PATH_MAX e -> String.length ext <= 3 ->
  destDoc e job_id now ext =
  incomingDir +:+ "/" +:+ baseName job_id now +:+ "." +:+ ext.
Proof.
  intros H1 H2. unfold destDoc. apply snprintf_fits.
  pose proof (length_baseName job_id now).
  rewrite !length_app_str. unfold incomingDir. cbn [String.length]. lia.
Qed.

Lemma destJson_fits e job_id now :
  298 <= e_PATH_MAX e ->
  destJson e job_id now = incomingDir +:+ "/" +:+ baseName job_id now +:+ ".json".
Proof.
  intros H1. unfold destJson. apply snprintf_fits.
  pose proof (length_baseName job_id now).
  rewrite !length_app_str. unfold incomingDir. cbn [String.length]. lia.
Qed.

Lemma ext_length ext : ext = "ps" \/ ext = "pdf" -> String.length ext <= 3.
Proof. intros [-> | ->]; simpl; lia. Qed.

Lemma destDoc_ends e job_id now ext :
  298 <= e_PATH_MAX e -> ext = "ps" \/ ext = "pdf" ->
  ends_with ("." +:+ ext) (destDoc e job_id now ext).
Proof.
  intros H1 H2. rewrite destDoc_fits by auto using ext_length.
  do 2 apply ends_with_app_r. apply ends_with_app.
Qed.

Lemma destJson_ends e job_id now :
  298 <= e_PATH_MAX e -> ends_with ".json" (destJson e job_id now).
Proof.
  intros H1. rewrite destJson_fits by done.
  do 2 apply ends_with_app_r. apply ends_with_app.
Qed.

(** A document and a sidecar never share a path. *)
Lemma destDoc_ne_destJson e j1 j2 now1 now2 ext :
  298 <= e_PATH_MAX e -> ext = "ps" \/ ext = "pdf" ->
  destDoc e j1 now1 ext <> destJson e j2 now2.
Proof.
  intros H1 H2.
  eapply ends_with_clash;
    [by apply destDoc_ends | by apply destJson_ends | |];
    destruct H2 as [-> | ->]; no_suffix.
Qed.

(** C9 as the specification states it fails: [baseName] is cut to the 255
    characters of its buffer, and the two identifiers below differ only in a
    character that is cut off. *)
Lemma baseName_collision :
  long_job_id "1" <> long_job_id "2" /\
  baseName (long_job_id "1") 1700000000 = baseName (long_job_id "2") 1700000000 /\
  destDoc sample_env (long_job_id "1") 1700000000 "pdf"
    = destDoc sample_env (long_job_id "2") 1700000000 "pdf" /\
  destJson sample_env (long_job_id "1") 1700000000
    = destJson sample_env (long_job_id "2") 1700000000.
Proof. split; [by vm_compute|]. by vm_compute. Qed.

(** C9, amended: two jobs of the same second with distinct identifiers whose
    base names [job-<job_id>-<unix_timestamp>] fit the 255 characters of the
    buffer get distinct base names, distinct document paths and distinct
    sidecar paths. *)
Theorem queue_names_distinct (e : Env) (j1 j2 : string) (now : Z) (ext1 ext2 : string) :
  298 <= e_PATH_MAX e ->
  String.length j1 + String.length (pretty (to_long now)) + 5 <= 255 ->
  String.length j2 + String.length (pretty (to_long now)) + 5 <= 255 ->
  ext1 = "ps" \/ ext1 = "pdf" ->
  ext2 = "ps" \/ ext2 = "pdf" ->
  j1 <> j2 ->
  baseName j1 now <> baseName j2 now /\
  destDoc e j1 now ext1 <> destDoc e j2 now ext2 /\
  destJson e j1 now <> destJson e j2 now.
Proof.
  intros HP H1 H2 He1 He2 Hne.
  assert (Hb : baseName j1 now <> baseName j2 now).
  { rewrite !baseName_fits by done. intros H.
    apply str_app_inv_head in H. by apply str_app_inv_tail in H. }
  split; [done|]. split.
  - destruct (decide (ext1 = ext2)) as [<- | Hext].
    + rewrite !destDoc_fits by auto using ext_length. intros H.
      do 2 apply str_app_inv_head in H. by apply str_app_inv_tail in H.
    + eapply ends_with_clash; [by apply destDoc_ends | by apply destDoc_ends | |];
        destruct He1 as [-> | ->], He2 as [-> | ->]; try done; no_suffix.
  - rewrite !destJson_fits by done. intros H.
    do 2 apply str_app_inv_head in H. by apply str_app_inv_tail in H.
Qed.

Lemma queue_names_distinct_witness :
  baseName "101" 1700000000 <> baseName "102" 1700000000 /\
  destDoc sample_env "101" 1700000000 "pdf" <> destDoc sample_env "102" 1700000000 "ps" /\
  destJson sample_env "101" 1700000000 <> destJson sample_env "102" 1700000000.
Proof.
  apply (queue_names_distinct sample_env "101" "102" 1700000000 "pdf" "ps");
    try (vm_compute; lia); auto; discriminate.
Defined.

(** ** The escaped title (lines 210-226) *)

Lemma str_take_cons n c s : str_take (S n) (String c s) = String c (str_take n s).
Proof. reflexivity. Qed.

Lemma str_take_0 s : str_take 0 s = EmptyString.
Proof. reflexivity. Qed.

Lemma str_take_nil n : str_take n EmptyString = EmptyString.
Proof. by destruct n. Qed.

(** The inverse undoes the rule on every title. *)
Lemma unescape_escape_rule (s : string) : unescape (escape_rule s) = Some s.
Proof.
  induction s as [|c s IH]; [done|].
  cbn [escape_rule]. unfold unescape_char.
  case_bool_decide as Hq.
  { cbn [unescape]. rewrite decide_True by done. unfold unescape_char.
    rewrite bool_decide_true by done. by rewrite IH. }
  destruct (decide (c = nl_char)) as [-> | Hn].
  { cbn [unescape]. rewrite decide_True by done. by rewrite IH. }
  destruct (decide (c = cr_char)) as [-> | Hr].
  { cbn [unescape]. rewrite decide_True by done. by rewrite IH. }
  destruct (decide (c = tab_char)) as [-> | Ht].
  { cbn [unescape]. rewrite decide_True by done. by rewrite IH. }
  cbn [unescape]. rewrite decide_False by tauto.
  rewrite bool_decide_false by tauto. by rewrite IH.
Qed.

Lemma length_escape_rule_cons c s :
  String.length (escape_rule (String c s)) =
  (if bool_decide (needs_escape c) then 2 else 1) + String.length (escape_rule s).
Proof.
  cbn [escape_rule]. unfold needs_escape.
  destruct (bool_decide_reflect (c = quote_char \/ c = backslash_char)) as [Hq|Hq].
  { rewrite bool_decide_true by tauto. done. }
  destruct (decide (c = nl_char)) as [Hn|Hn].
  { rewrite bool_decide_true by tauto. done. }
  destruct (decide (c = cr_char)) as [Hr|Hr].
  { rewrite bool_decide_true by tauto. done. }
  destruct (decide (c = tab_char)) as [Ht|Ht].
  { rewrite bool_decide_true by tauto. done. }
  rewrite bool_decide_false by tauto. done.
Qed.

(** The loop writes the rule's image of a prefix of the title, stays inside
    the buffer, and goes on as long as the next character still fits. *)
Lemma escape_loop_prefix (size : nat) (title : string) (ei : nat) :
  ei <= size - 1 ->
  exists n,
    escape_loop size title ei = escape_rule (str_take n title) /\
    ei + String.length (escape_loop size title ei) <= size - 1 /\
    (String.length title <= n \/
     size - 1 < ei + String.length (escape_rule (str_take (S n) title))).
Proof.
  revert ei. induction title as [|c rest IH]; intros ei Hei.
  { exists 0. cbn. split; [done|]. split; [lia|]. left; lia. }
  assert (Hstop :
    ei + 1 > size - 1 \/ (ei + 2 > size - 1 /\ needs_escape c) ->
    exists n,
      EmptyString = escape_rule (str_take n (String c rest)) /\
      ei + String.length EmptyString <= size - 1 /\
      (String.length (String c rest) <= n \/
       size - 1 < ei + String.length (escape_rule (str_take (S n) (String c rest))))).
  { intros Hfull. exists 0. split; [done|]. split; [cbn; lia|]. right.
    rewrite str_take_cons, str_take_0, length_escape_rule_cons.
    cbn [escape_rule String.length].
    destruct Hfull as [? | [? Hc]].
    - destruct (bool_decide (needs_escape c)); lia.
    - rewrite bool_decide_true by done. lia. }
  assert (Hgo : forall k pre,
    (forall t, escape_rule (String c t) = pre +:+ escape_rule t) ->
    String.length pre = k -> ei + k <= size - 1 ->
    exists n,
      pre +:+ escape_loop size rest (ei + k) = escape_rule (str_take n (String c rest)) /\
      ei + String.length (pre +:+ escape_loop size rest (ei + k)) <= size - 1 /\
      (String.length (String c rest) <= n \/
       size - 1 < ei + String.length (escape_rule (str_take (S n) (String c rest))))).
  { intros k pre Hpre Hk Hfit.
    destruct (IH (ei + k)) as (n & Heq & Hlen & Hmax); [lia|].
    exists (S n). rewrite !str_take_cons, !Hpre, Heq, !length_app_str.
    split; [done|]. split; [rewrite <- Heq; lia|].
    cbn [String.length]. destruct Hmax; [left|right]; lia. }
  cbn [escape_loop]. unfold needs_escape in Hstop.
  destruct (ei <? size - 1) eqn:Hlt; cbn [negb];
    [apply Nat.ltb_lt in Hlt | apply Nat.ltb_ge in Hlt].
  2:{ apply Hstop. left. lia. }
  destruct (bool_decide_reflect (c = quote_char \/ c = backslash_char)) as [Hq|Hq].
  { destruct (size <=? ei + 2) eqn:Hle;
      [apply Nat.leb_le in Hle | apply Nat.leb_gt in Hle].
    - apply Hstop. right. split; [lia|tauto].
    - apply (Hgo 2 (String backslash_char (String c EmptyString))); [|done|lia].
      intros t. cbn [escape_rule]. by rewrite bool_decide_true by done. }
  destruct (bool_decide_reflect (c = nl_char \/ c = cr_char \/ c = tab_char)) as [Hw|Hw].
  { destruct (size <=? ei + 2) eqn:Hle;
      [apply Nat.leb_le in Hle | apply Nat.leb_gt in Hle].
    - apply Hstop. right. split; [lia|tauto].
    - assert (Hrule : forall t, escape_rule (String c t) =
          String backslash_char
            (String (if decide (c = nl_char) then "n"%char
                     else if decide (c = cr_char) then "r"%char else "t"%char)
                    EmptyString) +:+ escape_rule t).
      { intros t. cbn [escape_rule]. rewrite bool_decide_false by done.
        destruct (decide (c = nl_char)); [done|].
        destruct (decide (c = cr_char)); [done|].
        rewrite decide_True by tauto. done. }
      by apply (Hgo 2 _ Hrule); [|lia]. }
  apply (Hgo 1 (String c EmptyString)); [|done|lia].
  intros t. cbn [escape_rule]. rewrite bool_decide_false by done.
  by rewrite !decide_False by tauto.
Qed.

(** A title whose escaped form fits the buffer is not cut. *)
Lemma escape_loop_fits (size : nat) (title : string) (ei : nat) :
  ei + String.length (escape_rule title) <= size - 1 ->
  escape_loop size title ei = escape_rule title.
Proof.
  intros Hfit. destruct (escape_loop_prefix size title ei) as (n & Heq & _ & Hmax); [lia|].
  destruct Hmax as [Hall | Hcut].
  - by rewrite Heq, str_take_all.
  - exfalso. revert Hcut Hfit. clear. generalize (S n) as m. intros m.
    assert (String.length (escape_rule (str_take m title))
            <= String.length (escape_rule title)); [|lia].
    revert m. induction title as [|c t IH]; intros [|m]; cbn [String.length];
      try (rewrite ?str_take_nil; cbn; lia).
    rewrite str_take_cons, !length_escape_rule_cons. specialize (IH m). lia.
Qed.

(** C4: unescaping the escaped title gives back the title up to the point
    where the 2048-byte buffer cut it; the cut never falls inside an escape
    (the escaped title is the rule's image of a prefix, so it unescapes), it
    leaves room for the terminator, and it happens only where the next
    character no longer fits. *)
Theorem escTitle_roundtrip (title : string) :
  exists n,
    escTitle title = escape_rule (str_take n title) /\
    unescape (escTitle title) = Some (str_take n title) /\
    String.length (escTitle title) <= 2047 /\
    (String.length title <= n \/
     2047 < String.length (escape_rule (str_take (S n) title))).
Proof.
  destruct (escape_loop_prefix 2048 title 0) as (n & Heq & Hlen & Hmax); [lia|].
  exists n. unfold escTitle. rewrite Heq at 2. rewrite unescape_escape_rule.
  repeat split; try done; cbn in Hlen, Hmax |- *; lia.
Qed.

(** ** Argument count (lines 82-91) *)

(** C6: with no argument ([argc] is 1) [main] returns the success sentinel
    and leaves the world as it is; with an argument count other than zero,
    five or six it returns the failure sentinel after one diagnostic line,
    and files, directories, input stream and history are as before. *)
Theorem main_argc_no_side_effect (argv : list string) (e : Env) (w : World) :
  (length argv = 1 -> main argv e w = Return CUPS_BACKEND_OK w) /\
  (length argv <> 1 -> length argv <> 6 -> length argv <> 7 ->
   exists w', main argv e w = Return CUPS_BACKEND_FAILED w' /\
     files w' = files w /\ dirs w' = dirs w /\ stdin w' = stdin w /\
     history w' = history w).
Proof.
  unfold main. split.
  - intros ->. done.
  - intros H1 H6 H7.
    rewrite (proj2 (Nat.eqb_neq _ _) H1), (proj2 (Nat.eqb_neq _ _) H6),
      (proj2 (Nat.eqb_neq _ _) H7). cbn. eauto 10.
Qed.

Lemma main_argc_no_side_effect_witness :
  main ["onenote"] sample_env sample_world = Return CUPS_BACKEND_OK sample_world /\
  exists w', main ["onenote"; "101"; "alice"] sample_env sample_world
             = Return CUPS_BACKEND_FAILED w' /\
    files w' = files sample_world /\ dirs w' = dirs sample_world /\
    stdin w' = stdin sample_world /\ history w' = history sample_world.
Proof.
  split.
  - apply (proj1 (main_argc_no_side_effect ["onenote"] sample_env sample_world)).
    reflexivity.
  - apply (proj2 (main_argc_no_side_effect ["onenote"; "101"; "alice"]
                    sample_env sample_world)); cbn; lia.
Defined.

(** ** The format sniffer (lines 14-24 and 156-163) *)

Lemma length_bytes_of (s : string) : length (bytes_of s) = String.length s.
Proof.
  unfold String.list_byte_of_string. by rewrite length_map, length_chars.
Qed.

(** Where no regular file is, nothing is found: a directory is opened but
    cannot be read. *)
Lemma file_starts_with_no_file path prefix open_fail read_fail w :
  files w !! path = None ->
  file_starts_with path prefix open_fail read_fail w = false.
Proof.
  intros Hf. unfold file_starts_with, sys_open_rd. rewrite Hf.
  destruct open_fail; [done|]. destruct (dirs w !! path); [|done].
  by destruct read_fail.
Qed.

(** [file_starts_with] answers 1 exactly when the file can be opened and
    read and its first bytes are the prefix. *)
Lemma file_starts_with_spec path prefix open_fail read_fail w :
  0 < String.length prefix <= 16 ->
  file_starts_with path prefix open_fail read_fail w = true <->
  is_Some (files w !! path) /\ open_fail = false /\ read_fail = false /\
  take (String.length prefix) (data_at (files w) path) = bytes_of prefix.
Proof.
  intros Hlen.
  destruct (files w !! path) as [i|] eqn:Hf.
  2:{ rewrite file_starts_with_no_file by done.
      split; [done|intros [[? ?] _]; done]. }
  unfold file_starts_with, sys_open_rd. rewrite Hf.
  destruct open_fail; [split; [done|intros (_ & ? & _); done]|].
  destruct read_fail; cbn [sys_read]; [split; [done|intros (_ & _ & ? & _); done]|].
  assert (Hd : data_at (files w) path = i_data i) by (unfold data_at; by rewrite Hf).
  rewrite Hd, drop_0.
  set (n := length (take 16 (i_data i))).
  assert (Hn : n = Nat.min 16 (length (i_data i))) by apply length_take.
  destruct (n <=? 0) eqn:H0; [apply Nat.leb_le in H0 | apply Nat.leb_gt in H0].
  { split; [done|]. intros (_ & _ & _ & Heq). apply (f_equal length) in Heq.
    rewrite length_take, length_bytes_of in Heq. lia. }
  destruct (n <? String.length prefix) eqn:H1;
    [apply Nat.ltb_lt in H1 | apply Nat.ltb_ge in H1].
  { split; [done|]. intros (_ & _ & _ & Heq). apply (f_equal length) in Heq.
    rewrite length_take, length_bytes_of in Heq. lia. }
  rewrite bool_decide_eq_true, take_take, Nat.min_l by lia.
  split; [intros ->; eauto | intros (_ & _ & _ & ->); done].
Qed.

(** C3: the extension is [ps] when the temp file is opened and read without
    error and starts with the four bytes [%!PS]; it is [pdf] when the file
    starts with [%PDF], when it starts with anything else, when it is empty,
    and when it cannot be opened or read.  The sniffer changes no file. *)
Theorem sniff_classification (templatePath : string) (e : Env) (w : World) :
  exists ext w',
    main_sniff templatePath e w = Next ext w' /\
    files w' = files w /\ history w' = history w /\
    (sniff_readable templatePath e w ->
     take 4 (data_at (files w) templatePath) = bytes_of "%!PS" -> ext = "ps") /\
    (take 4 (data_at (files w) templatePath) = bytes_of "%PDF" -> ext = "pdf") /\
    (take 4 (data_at (files w) templatePath) <> bytes_of "%!PS" -> ext = "pdf") /\
    (data_at (files w) templatePath = [] -> ext = "pdf") /\
    (~ sniff_readable templatePath e w -> ext = "pdf").
Proof.
  unfold main_sniff, sniff_readable.
  pose proof (file_starts_with_spec templatePath "%!PS"
    (e_sniff_ps_open_fail e) (e_sniff_ps_read_fail e) w) as Hps.
  cbn [String.length] in Hps. specialize (Hps ltac:(lia)).
  destruct (file_starts_with templatePath "%!PS" _ _ w) eqn:Eps.
  - destruct (proj1 Hps eq_refl) as (Hex & Ho & Hr & Hpre).
    eexists _, _. split; [done|]. repeat split; try done.
    + intros Hpdf. rewrite Hpre in Hpdf. by vm_compute in Hpdf.
    + intros Hemp. rewrite Hemp in Hpre. by vm_compute in Hpre.
    + intros Hno. exfalso. apply Hno. done.
  - assert (Hpdf : forall P : Prop, P ->
      exists ext w', (if file_starts_with templatePath "%PDF"
                           (e_sniff_pdf_open_fail e) (e_sniff_pdf_read_fail e) w
                      then Next "pdf" w else Next "pdf" w) = Next ext w' /\
                     files w' = files w /\ history w' = history w /\ ext = "pdf").
    { intros _ _. destruct (file_starts_with templatePath "%PDF" _ _ w); eauto 10. }
    destruct (Hpdf True I) as (ext & w' & -> & ? & ? & ->).
    eexists _, _. split; [done|]. repeat split; try done.
    intros Hread Hpre. exfalso.
    assert (false = true); [|done]. apply Hps. tauto.
Qed.

Lemma sniff_classification_witness :
  exists w', main_sniff "/tmp/doc" sample_env
    (MkWorld {[ "/tmp/doc" := Inode (bytes_of "%!PS-Adobe-3.0") 1 1 384 ]} ∅ [] [] [])
    = Next "ps" w'.
Proof.
  destruct (sniff_classification "/tmp/doc" sample_env
    (MkWorld {[ "/tmp/doc" := Inode (bytes_of "%!PS-Adobe-3.0") 1 1 384 ]} ∅ [] [] []))
    as (ext & w' & Hrun & _ & _ & Hps & _).
  exists w'. rewrite Hrun. f_equal. apply Hps.
  - split; [by eexists|]. split; reflexivity.
  - reflexivity.
Defined.

(** ** File-system states along a run *)

Section Passes.
Context (Q : gmap string inode -> Prop).

Lemma passes_refl w : passes Q w w.
Proof. exists []. split; [done | constructor]. Qed.

Lemma passes_same w w' : states w' = states w -> passes Q w w'.
Proof. intros H. exists []. split; [done | constructor]. Qed.

Lemma passes_trans w1 w2 w3 : passes Q w1 w2 -> passes Q w2 w3 -> passes Q w1 w3.
Proof.
  intros (n1 & H1 & F1) (n2 & H2 & F2). exists (n2 ++ n1).
  split; [by rewrite H2, H1, app_assoc | by apply Forall_app].
Qed.

Lemma passes_set_files f w : Q f -> passes Q w (set_files f w).
Proof. intros H. exists [f]. split; [done | by repeat constructor]. Qed.

Lemma passes_current w w' : passes Q w w' -> Q (files w) -> Q (files w').
Proof.
  intros (new & H & F) Hw. unfold states in H. destruct new as [|s new].
  - simpl in H. by injection H as -> _.
  - simpl in H. injection H as -> _. by apply Forall_cons_1 in F as [? _].
Qed.

Lemma passes_stderr d w : passes Q w (fprintf_stderr d w).
Proof. by apply passes_same. Qed.

Lemma passes_stdin i w : passes Q w (set_stdin i w).
Proof. by apply passes_same. Qed.

Lemma passes_dirs d w : passes Q w (set_dirs d w).
Proof. by apply passes_same. Qed.

(** Every state of the run is a state from before it or is in [Q]. *)
Lemma passes_states w w' s :
  passes Q w w' -> s ∈ states w' -> s ∈ states w \/ Q s.
Proof.
  intros (new & H & F) Hs. rewrite H in Hs. apply elem_of_app in Hs as [Hs | Hs].
  - right. by apply (proj1 (Forall_forall _ _) F).
  - by left.
Qed.

(** *** System calls *)

Lemma sys_open_trunc_passes p mode fail e w :
  ins_ok Q p -> Q (files w) -> passes Q w (sys_open_trunc p mode fail e w).2.
Proof.
  intros Hi Hw. unfold sys_open_trunc. destruct fail; [apply passes_refl|].
  destruct (files w !! p); apply passes_set_files; by apply Hi.
Qed.

Lemma sys_write_passes p buf o w :
  ins_ok Q p -> Q (files w) -> passes Q w (sys_write p buf o w).2.
Proof.
  intros Hi Hw. unfold sys_write. destruct o; [apply passes_refl|].
  destruct (files w !! p); [|apply passes_refl].
  apply passes_set_files; by apply Hi.
Qed.

Lemma ins_ok_meta_ok p : ins_ok Q p -> meta_ok Q p.
Proof. intros H s i uid gid mode _. apply H. Qed.

Lemma sys_chown_passes p uid gid fail w :
  meta_ok Q p -> Q (files w) -> passes Q w (sys_chown p uid gid fail w).2.
Proof.
  intros Hi Hw. unfold sys_chown. destruct fail; [apply passes_refl|].
  destruct (files w !! p) eqn:E; [|apply passes_refl].
  apply passes_set_files; by apply Hi.
Qed.

Lemma sys_chmod_passes p mode fail w :
  meta_ok Q p -> Q (files w) -> passes Q w (sys_chmod p mode fail w).2.
Proof.
  intros Hi Hw. unfold sys_chmod. destruct fail; [apply passes_refl|].
  destruct (files w !! p) eqn:E; [apply passes_set_files; by apply Hi|].
  destruct (dirs w !! p); [apply passes_dirs | apply passes_refl].
Qed.

Lemma sys_unlink_passes p fail w :
  del_ok Q p -> Q (files w) -> passes Q w (sys_unlink p fail w).2.
Proof.
  intros Hd Hw. unfold sys_unlink. destruct fail; [apply passes_refl|].
  destruct (files w !! p); [|apply passes_refl].
  apply passes_set_files; by apply Hd.
Qed.

Lemma sys_rename_passes old new fail w :
  del_ok Q old -> ins_ok Q new -> Q (files w) ->
  passes Q w (sys_rename old new fail w).2.
Proof.
  intros Hd Hi Hw. unfold sys_rename. destruct fail; [apply passes_refl|].
  destruct (files w !! old); [|apply passes_refl].
  case_decide; [apply passes_refl|].
  apply passes_set_files. by apply Hi, Hd.
Qed.

Lemma sys_mkdir_passes p mode fault e w :
  passes Q w (sys_mkdir p mode fault e w).2.
Proof.
  unfold sys_mkdir. destruct fault; [apply passes_refl|].
  case_bool_decide; [apply passes_refl | apply passes_dirs].
Qed.

Lemma sys_read_passes d count o w : passes Q w (sys_read d count o w).2.
Proof.
  unfold sys_read. destruct o; [apply passes_refl|].
  destruct d; [apply passes_stdin | apply passes_refl | apply passes_refl].
Qed.

Lemma sys_mkstemp_passes template o e w path w' :
  sys_mkstemp template o e w = (Some path, w') ->
  ins_ok Q path -> Q (files w) -> passes Q w w'.
Proof.
  unfold sys_mkstemp. intros H Hi Hw. destruct o; [|done].
  case_bool_decide; [|done]. case_bool_decide; [done|].
  injection H as <- <-. apply passes_set_files. by apply Hi.
Qed.

(** *** The loops *)

Lemma write_retry_passes p buf os w :
  ins_ok Q p -> Q (files w) -> passes Q w (write_retry p buf os w).2.
Proof.
  intros Hi. revert buf w. induction os as [|o os IH]; intros buf w Hw.
  - destruct buf as [|b buf]; [apply passes_refl|]. cbn [write_retry].
    pose proof (sys_write_passes p (b :: buf) (WrLen (length (b :: buf))) w Hi Hw) as H.
    destruct (sys_write p (b :: buf) _ w) as [[n|] w1]; exact H.
  - destruct buf as [|b buf]; [apply passes_refl|]. cbn [write_retry].
    pose proof (sys_write_passes p (b :: buf) o w Hi Hw) as H.
    destruct (sys_write p (b :: buf) o w) as [[n|] w1]; [|exact H].
    cbn [snd] in H.
    specialize (IH (drop n (b :: buf)) w1 (passes_current _ _ H Hw)).
    destruct (write_retry p (drop n (b :: buf)) os w1) as [[r os''] w2].
    cbn [snd] in *. by eapply passes_trans.
Qed.

Lemma copy_file_loop_passes fuel src dst rs ws w r w' :
  copy_file_loop fuel src dst rs ws w = Some (r, w') ->
  ins_ok Q dst -> Q (files w) -> passes Q w w'.
Proof.
  intros H Hi. revert src rs ws w H.
  induction fuel as [|fuel IH]; intros src rs ws w H Hw; [done|].
  cbn [copy_file_loop] in H. destruct (next_rd rs 8192) as [o rs'].
  pose proof (sys_read_passes src 8192 o w) as Hr.
  destruct (sys_read src 8192 o w) as [[[buf|] src'] w1]; cbn [snd] in Hr.
  2:{ by injection H as <- <-. }
  destruct buf as [|b buf]; [by injection H as <- <-|].
  pose proof (passes_current _ _ Hr Hw) as Hw1.
  pose proof (write_retry_passes dst (b :: buf) ws w1 Hi Hw1) as Hwr.
  destruct (write_retry dst (b :: buf) ws w1) as [[[n|] ws'] w2]; cbn [snd] in Hwr.
  - eapply passes_trans; [exact Hr|]. eapply passes_trans; [exact Hwr|].
    eapply IH; [exact H|]. by eapply passes_current.
  - injection H as <- <-. by eapply passes_trans.
Qed.

Lemma capture_loop_passes fuel infd out rs ws total w r total' w' :
  capture_loop fuel infd out rs ws total w = Some (r, total', w') ->
  ins_ok Q out -> Q (files w) -> passes Q w w'.
Proof.
  intros H Hi. revert infd rs ws total w H.
  induction fuel as [|fuel IH]; intros infd rs ws total w H Hw; [done|].
  cbn [capture_loop] in H. destruct (next_rd rs 8192) as [o rs'].
  pose proof (sys_read_passes infd 8192 o w) as Hr.
  destruct (sys_read infd 8192 o w) as [[[buf|] infd'] w1]; cbn [snd] in Hr.
  2:{ by injection H as <- <- <-. }
  destruct buf as [|b buf]; [by injection H as <- <- <-|].
  pose proof (passes_current _ _ Hr Hw) as Hw1.
  pose proof (write_retry_passes out (b :: buf) ws w1 Hi Hw1) as Hwr.
  destruct (write_retry out (b :: buf) ws w1) as [[[n|] ws'] w2]; cbn [snd] in Hwr.
  - eapply passes_trans; [exact Hr|]. eapply passes_trans; [exact Hwr|].
    eapply IH; [exact H|]. by eapply passes_current.
  - injection H as <- <- <-. by eapply passes_trans.
Qed.

Lemma copy_file_passes src dst mode e w r w' :
  copy_file src dst mode e w = Some (r, w') ->
  ins_ok Q dst -> Q (files w) -> passes Q w w'.
Proof.
  unfold copy_file. intros H Hi Hw.
  destruct (sys_open_rd src _ w); [|injection H as <- <-; apply passes_refl].
  pose proof (sys_open_trunc_passes dst mode (e_copy_open_dst_fail e) e w Hi Hw) as Ho.
  destruct (sys_open_trunc dst mode _ e w) as [[|] w1]; cbn [snd] in Ho.
  2:{ by injection H as <- <-. }
  destruct (copy_file_loop _ _ _ _ _ w1) as [[r' w2]|] eqn:Hl; [|done].
  eapply passes_trans; [exact Ho|].
  assert (w2 = w') as -> by (destruct r'; by injection H as <- <-).
  eapply copy_file_loop_passes; [exact Hl | done | by eapply passes_current].
Qed.
End Passes.

(** ** Reading and writing *)

Lemma inode_eta i : Inode (i_data i) (i_uid i) (i_gid i) (i_mode i) = i.
Proof. by destruct i. Qed.

Lemma append_file_nil p f : append_file p [] f = f.
Proof.
  unfold append_file. destruct (f !! p) as [i|] eqn:H; [|done].
  rewrite app_nil_r, inode_eta. by apply insert_id.
Qed.

Lemma append_file_app p b1 b2 f :
  append_file p b2 (append_file p b1 f) = append_file p (b1 ++ b2) f.
Proof.
  unfold append_file. destruct (f !! p) as [i|] eqn:H; [|by rewrite H].
  rewrite lookup_insert_eq. cbn. by rewrite insert_insert_eq, app_assoc.
Qed.

Lemma lookup_append_file_ne p q bs f : q <> p -> append_file p bs f !! q = f !! q.
Proof.
  intros Hne. unfold append_file. destruct (f !! p); [|done].
  by rewrite lookup_insert_ne.
Qed.

Lemma data_at_append_file_ne p q bs f :
  q <> p -> data_at (append_file p bs f) q = data_at f q.
Proof. intros Hne. unfold data_at. by rewrite lookup_append_file_ne. Qed.

Lemma data_at_append_file p bs f :
  is_Some (f !! p) -> data_at (append_file p bs f) p = data_at f p ++ bs.
Proof.
  intros [i Hi]. unfold data_at, append_file. rewrite Hi.
  by rewrite lookup_insert_eq.
Qed.

Lemma is_Some_append_file p q bs f :
  is_Some (append_file p bs f !! q) <-> is_Some (f !! q).
Proof.
  destruct (decide (q = p)) as [-> | Hne]; [|by rewrite lookup_append_file_ne].
  unfold append_file. destruct (f !! p) eqn:H; [|by rewrite H].
  rewrite lookup_insert_eq. split; eauto.
Qed.

(** [write]: some first bytes of the buffer are added to the file. *)
Lemma sys_write_spec p buf o w r w' :
  sys_write p buf o w = (r, w') ->
  exists k, k <= length buf /\
    files w' = append_file p (take k buf) (files w) /\
    stdin w' = stdin w /\ dirs w' = dirs w /\ stderr w' = stderr w /\
    (forall n, r = Some n -> n = k).
Proof.
  unfold sys_write. intros H. destruct o as [|k].
  { injection H as <- <-. exists 0. rewrite take_0, append_file_nil.
    split_and!; try done; lia. }
  destruct (files w !! p) as [i|] eqn:Hi.
  - injection H as <- <-. exists (Nat.min k (length buf)).
    unfold append_file. rewrite Hi. split_and!; try done; [lia|].
    by intros n [= <-].
  - injection H as <- <-. exists 0. rewrite take_0, append_file_nil.
    split_and!; try done; lia.
Qed.

(** The retry loop: it adds first bytes of the chunk, all of them when it
    succeeds. *)
Lemma write_retry_spec p buf os w r os' w' :
  write_retry p buf os w = (r, os', w') ->
  exists k, k <= length buf /\
    files w' = append_file p (take k buf) (files w) /\
    stdin w' = stdin w /\ dirs w' = dirs w /\ stderr w' = stderr w /\
    (forall n, r = Some n -> n = length buf /\ k = length buf).
Proof.
  revert buf w r os' w'. induction os as [|o os IH]; intros buf w r os' w' H.
  - destruct buf as [|b buf].
    { injection H as <- <- <-. exists 0. rewrite take_0, append_file_nil.
      split_and!; try done; by intros n [= <-]. }
    cbn [write_retry] in H.
    destruct (sys_write p (b :: buf) (WrLen (length (b :: buf))) w) as [r1 w1] eqn:Hw.
    pose proof Hw as Hw'. apply sys_write_spec in Hw as (k & Hk & Hf & ? & ? & ? & Hn).
    assert (r = r1 /\ w' = w1) as [-> ->] by (destruct r1; by injection H as <- <- <-).
    exists k. split_and!; try done.
    intros m ->. specialize (Hn _ eq_refl) as <-.
    unfold sys_write in Hw'. destruct (files w !! p); [|congruence].
    injection Hw' as Hm _. cbn [length]. lia.
  - destruct buf as [|b buf].
    { injection H as <- <- <-. exists 0. rewrite take_0, append_file_nil.
      split_and!; try done; by intros n [= <-]. }
    cbn [write_retry] in H.
    destruct (sys_write p (b :: buf) o w) as [r1 w1] eqn:Hw.
    apply sys_write_spec in Hw as (k & Hk & Hf & Hi1 & Hd1 & He1 & Hn).
    destruct r1 as [n|].
    2:{ injection H as <- <- <-. exists k. split_and!; try done. }
    specialize (Hn _ eq_refl) as ->.
    destruct (write_retry p (drop k (b :: buf)) os w1) as [[r2 os2] w2] eqn:Hr.
    injection H as <- <- <-.
    apply IH in Hr as (k' & Hk' & Hf' & Hi2 & Hd2 & He2 & Hn').
    rewrite length_drop in Hk'.
    exists (k + k'). split; [lia|]. split.
    { by rewrite Hf', Hf, append_file_app, take_take_drop. }
    split; [congruence|]. split; [congruence|]. split; [congruence|].
    intros n. destruct r2 as [m|]; [|done]. intros [= <-].
    destruct (Hn' _ eq_refl) as [-> ->]. rewrite length_drop. lia.
Qed.

Lemma take_length_take {A} n (l : list A) : take (length (take n l)) l = take n l.
Proof.
  rewrite length_take. destruct (decide (n <= length l)).
  - by rewrite Nat.min_l.
  - rewrite Nat.min_r, !take_ge by lia. done.
Qed.

(** [read]: the buffer is a beginning of what is pending, a non-empty one
    unless nothing is pending; nothing else changes. *)
Lemma sys_read_spec d count o w r d' w' out :
  sys_read d count o w = (r, d', w') -> 0 < count ->
  files w' = files w /\ dirs w' = dirs w /\ stderr w' = stderr w /\
  (no_alias d out -> no_alias d' out) /\
  (d = FdStdin -> d' = FdStdin) /\
  (is_file d -> is_file d' /\ stdin w' = stdin w) /\
  (forall buf, r = Some buf ->
     buf = take (length buf) (pending d w) /\
     pending d' w' = drop (length buf) (pending d w) /\
     (buf = [] -> pending d w = [])).
Proof.
  unfold sys_read. intros H Hc. destruct o as [|k].
  { injection H as <- <- <-. split_and!; try done. }
  destruct d as [|p off|p].
  - injection H as <- <- <-. split_and!; try done.
    intros buf [= <-]. cbn [pending stdin set_stdin]. split_and!; try done.
    + by rewrite take_length_take.
    + intros Hnil. apply take_nil_inv in Hnil as [? | ?]; [lia | done].
  - injection H as <- <- <-. split_and!; try done.
    intros buf [= <-]. cbn [pending]. split_and!.
    + by rewrite take_length_take.
    + by rewrite drop_drop.
    + intros Hnil. apply take_nil_inv in Hnil as [? | ?]; [lia | done].
  - injection H as <- <- <-. split_and!; try done.
Qed.

Lemma pending_append_file d out bs w w' :
  no_alias d out -> files w' = append_file out bs (files w) -> stdin w' = stdin w ->
  pending d w' = pending d w.
Proof.
  intros Ha Hf Hi. destruct d as [|p off|p]; [done| |done]. cbn in *.
  by rewrite Hf, data_at_append_file_ne.
Qed.

Lemma size_t_add_add total a b :
  size_t_add (size_t_add total a) b = size_t_add total (a + b).
Proof.
  unfold size_t_add. rewrite Zplus_mod_idemp_l. f_equal. lia.
Qed.

Lemma size_t_add_0 total : (0 <= total < 2 ^ 64)%Z -> size_t_add total 0 = total.
Proof. intros H. unfold size_t_add. rewrite Z.add_0_r. by apply Z.mod_small. Qed.

Lemma size_t_add_range total n : (0 <= size_t_add total n < 2 ^ 64)%Z.
Proof. unfold size_t_add. apply Z.mod_pos_bound. done. Qed.

Lemma count_8192_pos : 0 < 8192.
Proof. apply Nat.ltb_lt. by vm_compute. Qed.

(** The capture loop ends within its budget.  It adds a beginning of the
    pending input to the output file, and all of it when it ends at the end
    of the input; [total_written] then has grown by the length of the input. *)
Lemma capture_loop_spec fuel infd out rs ws total w :
  length (pending infd w) < fuel ->
  no_alias infd out \/ pending infd w = [] ->
  (0 <= total < 2 ^ 64)%Z ->
  exists r total' w' k,
    capture_loop fuel infd out rs ws total w = Some (r, total', w') /\
    k <= length (pending infd w) /\
    files w' = append_file out (take k (pending infd w)) (files w) /\
    dirs w' = dirs w /\ stderr w' = stderr w /\
    (is_file infd -> stdin w' = stdin w) /\
    (r = LoopEof ->
     k = length (pending infd w) /\
     total' = size_t_add total (length (pending infd w)) /\
     (infd = FdStdin -> stdin w' = [])).
Proof.
  revert infd rs ws total w.
  induction fuel as [|fuel IH]; intros infd rs ws total w Hfuel Halias Htot; [lia|].
  cbn [capture_loop]. destruct (next_rd rs 8192) as [o rs'].
  destruct (sys_read infd 8192 o w) as [[r1 infd'] w1] eqn:Hr.
  apply (sys_read_spec _ _ _ _ _ _ _ out) in Hr
    as (Hf1 & Hd1 & He1 & Ha1 & Hs1 & Hfile & Hbuf); [|apply count_8192_pos].
  destruct r1 as [buf|].
  2:{ exists LoopReadErr, total, w1, 0. rewrite take_0, append_file_nil.
      split_and!; try done; [lia | by intros [_ ?]%Hfile]. }
  destruct (Hbuf _ eq_refl) as (Hb & Hp1 & Hnil).
  destruct buf as [|b buf].
  { exists LoopEof, total, w1, 0. rewrite take_0, append_file_nil.
    rewrite (Hnil eq_refl). cbn [length]. rewrite size_t_add_0 by done.
    split_and!; try done; [by intros [_ ?]%Hfile|]. intros _. split_and!; try done.
    intros ->. specialize (Hs1 eq_refl) as ->.
    pose proof (Hnil eq_refl) as He. cbn in He, Hp1. by rewrite He in Hp1. }
  set (chunk := b :: buf) in *.
  assert (Hlen : 0 < length chunk <= length (pending infd w)).
  { split; [cbn; lia|]. rewrite Hb at 1. rewrite length_take. lia. }
  destruct Halias as [Halias | Hemp]; [|rewrite Hemp in Hlen; cbn in Hlen; lia].
  destruct (write_retry out chunk ws w1) as [[r2 ws'] w2] eqn:Hw.
  apply write_retry_spec in Hw as (k & Hk & Hf2 & Hi2 & Hd2 & He2 & Hn).
  assert (Htake : take k chunk = take k (pending infd w)).
  { rewrite Hb, take_take. f_equal. lia. }
  destruct r2 as [n|].
  2:{ exists LoopWriteErr, total, w2, k.
      split; [done|]. split; [lia|]. rewrite Hf2, Hf1, Htake.
      split_and!; try congruence.
      intros [_ ?]%Hfile. congruence. }
  destruct (Hn _ eq_refl) as [-> ->].
  assert (Hp2 : pending infd' w2 = drop (length chunk) (pending infd w)).
  { rewrite <- Hp1. eapply pending_append_file; eauto. }
  destruct (IH infd' rs' ws' (size_t_add total (length chunk)) w2)
    as (r & total' & w' & k' & Hrun & Hk' & Hf' & Hd' & He' & Hin' & Heof).
  { rewrite Hp2, length_drop. lia. }
  { left. auto. }
  { apply size_t_add_range. }
  rewrite Hp2, length_drop in Hk'.
  exists r, total', w', (length chunk + k').
  split; [done|]. split; [lia|]. split.
  { rewrite Hf', Hf2, Hf1, Hp2, Htake, append_file_app. by rewrite take_take_drop. }
  split; [congruence|]. split; [congruence|].
  split; [intros [? ?]%Hfile; rewrite Hin' by done; congruence|].
  intros ->. destruct (Heof eq_refl) as (-> & -> & Hin).
  rewrite Hp2, length_drop, size_t_add_add.
  split; [lia|]. split; [f_equal; lia|].
  intros ->. apply Hin. by apply Hs1.
Qed.

(** A directory cannot be read: the loop ends at its first [read]. *)
Lemma capture_loop_dir fuel p out rs ws total w :
  capture_loop (S fuel) (FdDir p) out rs ws total w = Some (LoopReadErr, total, w).
Proof.
  cbn [capture_loop]. destruct (next_rd rs 8192) as [[|k] rs']; done.
Qed.

(** The loop of [copy_file] is the capture loop without the counter. *)
Lemma copy_file_loop_capture_loop fuel src dst rs ws total w :
  copy_file_loop fuel src dst rs ws w =
  (fun x => (x.1.1, x.2)) <$> capture_loop fuel src dst rs ws total w.
Proof.
  revert src rs ws total w.
  induction fuel as [|fuel IH]; intros src rs ws total w; [done|].
  cbn [copy_file_loop capture_loop]. destruct (next_rd rs 8192) as [o rs'].
  destruct (sys_read src 8192 o w) as [[[buf|] src'] w1]; [|done].
  destruct buf as [|b buf]; [done|].
  destruct (write_retry dst (b :: buf) ws w1) as [[[n|] ws'] w2]; [|done].
  apply IH.
Qed.

(** ** [copy_file] and the staging step (lines 52-80 and 195-202) *)

(** [copy_file] always returns.  Either one of the two [open]s failed, and
    it fails and changes nothing; or both succeeded, and the destination,
    truncated, now holds a beginning of the source: all of it when the copy
    succeeds.  A source that is a directory is opened and cannot be read. *)
Lemma copy_file_spec src dst mode e w :
  exists r w',
    copy_file src dst mode e w = Some (r, w') /\
    dirs w' = dirs w /\ stdin w' = stdin w /\ stderr w' = stderr w /\
    ((r = (-1)%Z /\ files w' = files w /\
      (e_copy_open_src_fail e = true \/ ~ path_exists w src \/
       e_copy_open_dst_fail e = true)) \/
     (exists i k,
        (r = 0%Z \/ r = (-1)%Z) /\
        (r = 0%Z -> is_Some (files w !! src)) /\
        files w' = <[dst := i]> (files w) /\
        i_data i = take k (data_at (files w) src) /\
        (r = 0%Z -> src <> dst -> i_data i = data_at (files w) src) /\
        (e_copy_open_src_fail e = false /\ path_exists w src /\
         e_copy_open_dst_fail e = false) /\
        i_uid i = i_uid (truncated e mode (files w !! dst)) /\
        i_gid i = i_gid (truncated e mode (files w !! dst)) /\
        i_mode i = i_mode (truncated e mode (files w !! dst)))).
Proof.
  unfold copy_file.
  destruct (sys_open_rd src (e_copy_open_src_fail e) w) as [fin|] eqn:Hopen.
  2:{ eexists _, _. split_and!; try done. left. split_and!; try done.
      unfold sys_open_rd in Hopen. destruct (e_copy_open_src_fail e); [by left|].
      right. left. intros [[? Hf] | [? Hd]]; rewrite ?Hf in Hopen; [done|].
      destruct (files w !! src); [done|]. by rewrite Hd in Hopen. }
  assert (Hsrc : e_copy_open_src_fail e = false /\ path_exists w src /\
                 (fin = FdFile src 0 /\ is_Some (files w !! src) \/
                  fin = FdDir src /\ files w !! src = None)).
  { unfold sys_open_rd in Hopen. destruct (e_copy_open_src_fail e); [done|].
    split; [done|]. unfold path_exists.
    destruct (files w !! src) eqn:Hf.
    - injection Hopen as <-. split; [left; eauto|]. left. eauto.
    - destruct (dirs w !! src) eqn:Hd; [|done]. injection Hopen as <-.
      split; [right; eauto|]. by right. }
  destruct Hsrc as (Hsf & Hex & Hfin).
  unfold sys_open_trunc.
  destruct (e_copy_open_dst_fail e) eqn:Hdf.
  { eexists _, _. split_and!; try done. left. split_and!; try done. by right; right. }
  set (i0 := truncated e mode (files w !! dst)).
  set (w1 := set_files (<[dst := i0]> (files w)) w).
  assert (Hw1 : (if files w !! dst is Some i
                 then (true, set_files (<[dst := Inode [] (i_uid i) (i_gid i) (i_mode i)]>
                                          (files w)) w)
                 else (true, set_files (<[dst := Inode [] (e_euid e) (e_egid e)
                                          (Z.ldiff mode (e_umask e))]> (files w)) w))
                = (true, w1)).
  { unfold w1, i0, truncated. by destruct (files w !! dst). }
  rewrite Hw1. clear Hw1.
  assert (Hi0 : i_data i0 = []) by (unfold i0, truncated; by destruct (files w !! dst)).
  assert (Hpend : pending fin w1 =
                  if decide (src = dst) then [] else data_at (files w) src).
  { destruct Hfin as [[-> _] | [-> Hnone]].
    - cbn [pending]. rewrite drop_0. unfold data_at, w1. cbn [files set_files].
      case_decide as Heq.
      + subst dst. by rewrite lookup_insert_eq.
      + by rewrite lookup_insert_ne.
    - cbn [pending]. unfold data_at. rewrite Hnone. by case_decide. }
  rewrite (copy_file_loop_capture_loop _ _ _ _ _ 0%Z).
  destruct (capture_loop_spec (S (length (data_at (files w1) src))) fin dst
              (e_copy_reads e) (e_copy_writes e) 0%Z w1)
    as (r & total' & w2 & k & Hrun & Hk & Hf & Hd & He & Hin & Heof).
  { destruct Hfin as [[-> _] | [-> _]]; cbn [pending length]; [rewrite drop_0|]; lia. }
  { rewrite Hpend. case_decide; [by right|]. left.
    by destruct Hfin as [[-> _] | [-> _]]. }
  { lia. }
  assert (Hdir : r = LoopEof -> is_Some (files w !! src)).
  { intros ->. destruct Hfin as [[_ ?] | [-> _]]; [done|].
    by rewrite capture_loop_dir in Hrun. }
  rewrite Hrun. cbn [fmap option_fmap option_map fst snd].
  exists (if r is LoopEof then 0%Z else (-1)%Z), w2.
  split; [by destruct r|]. split; [done|].
  split; [apply Hin; by destruct Hfin as [[-> _] | [-> _]]|]. split; [done|]. right.
  assert (Happ : files w2 = <[dst := Inode (take k (pending fin w1))
                                       (i_uid i0) (i_gid i0) (i_mode i0)]> (files w)).
  { rewrite Hf. unfold append_file, w1. cbn [files set_files].
    by rewrite lookup_insert_eq, insert_insert_eq, Hi0. }
  eexists _, (if decide (src = dst) then 0 else k).
  split; [destruct r; auto|].
  split; [intros Hr; apply Hdir; by destruct r|].
  split; [exact Happ|].
  cbn [i_data i_uid i_gid i_mode]. rewrite Hpend. split.
  { case_decide; [by rewrite take_nil, take_0 | done]. }
  split; [|done].
  intros Hr Hne. destruct r; try done. destruct (Heof eq_refl) as (-> & _).
  rewrite Hpend, decide_False by done. by rewrite take_ge.
Qed.

(** C1 as the specification states it fails: [copy_file] creates the
    destination before it copies, and no path of the program removes it.
    Here the rename fails and the first [write] of the copy fails: [main]
    returns the failure sentinel and the document exists, empty, in the
    queue directory. *)
Lemma stage_failure_leaves_document :
  exists w',
    main sample_argv stage_fail_env sample_world = Return CUPS_BACKEND_FAILED w' /\
    files sample_world
      !! "/Users/Shared/OneNoteHelper/Incoming/job-101-1700000000.pdf" = None /\
    files w' !! "/Users/Shared/OneNoteHelper/Incoming/job-101-1700000000.pdf"
      = Some (Inode [] 1 1 420) /\
    data_at (files w') "/private/var/spool/cups/tmp/onenote-print-hndaaa"
      = bytes_of "%PDF-1.4 sample".
Proof. eexists. split; [by vm_compute|]. by vm_compute. Qed.

(** C1, amended: when the rename fails and the fallback copy fails, the
    staging step makes [main] return the failure sentinel.  When the copy
    failed at one of its two [open]s, the destination and every other file
    are as they were before (absent, if absent).  When both [open]s
    succeeded, so that the copy failed at a later [read] or [write], the
    destination exists and holds a beginning of the source's bytes. *)
Theorem stage_failure (templatePath dest : string) (e : Env) (w : World)
  (r : Z) (w1 : World) :
  (sys_rename templatePath dest (e_rename_fail e) w).1 <> 0%Z ->
  copy_file templatePath dest 420 e w = Some (r, w1) ->
  r <> 0%Z ->
  main_stage templatePath dest e w
    = Return CUPS_BACKEND_FAILED (fprintf_stderr (ErrMoveCopy templatePath dest) w1) /\
  (e_copy_open_src_fail e = true \/ ~ path_exists w templatePath \/
   e_copy_open_dst_fail e = true ->
   files w1 = files w) /\
  (e_copy_open_src_fail e = false -> path_exists w templatePath ->
   e_copy_open_dst_fail e = false ->
   exists i k, files w1 = <[dest := i]> (files w) /\
               i_data i = take k (data_at (files w) templatePath)).
Proof.
  intros Hren Hcopy Hr. split.
  - unfold main_stage.
    assert (Hsame : exists r0, sys_rename templatePath dest (e_rename_fail e) w = (r0, w)
                               /\ r0 <> 0%Z).
    { unfold sys_rename in *. destruct (e_rename_fail e); [by eexists|].
      destruct (files w !! templatePath); [|by eexists].
      case_decide; done. }
    destruct Hsame as (r0 & -> & Hr0).
    rewrite (proj2 (Z.eqb_neq _ _) Hr0). cbn [negb]. rewrite Hcopy.
    by rewrite (proj2 (Z.eqb_neq _ _) Hr).
  - destruct (copy_file_spec templatePath dest 420 e w)
      as (r' & w' & Hrun & _ & _ & _ & Hcases).
    rewrite Hcopy in Hrun. injection Hrun as <- <-.
    destruct Hcases as [(_ & Hf & Hfail) | (i & k & _ & _ & Hf & Hi & _ & Hopen & _)].
    + split; [done|]. intros Hs Hex Hd.
      destruct Hfail as [? | [? | ?]]; [congruence | done | congruence].
    + destruct Hopen as (Hs & Hex & Hd). split.
      * intros [? | [? | ?]]; [congruence | done | congruence].
      * intros _ _ _. by exists i, k.
Qed.

Lemma stage_failure_witness :
  exists w1 i k,
    main_stage "/tmp/onenote-print-a1b2c3" "/queue/job-7-1.pdf" stage_fail_env
      (MkWorld {[ "/tmp/onenote-print-a1b2c3" := Inode (bytes_of "%PDF") 1 1 384 ]}
               ∅ [] [] [])
    = Return CUPS_BACKEND_FAILED
        (fprintf_stderr (ErrMoveCopy "/tmp/onenote-print-a1b2c3" "/queue/job-7-1.pdf") w1) /\
    files w1 = <[ "/queue/job-7-1.pdf" := i ]>
                 {[ "/tmp/onenote-print-a1b2c3" := Inode (bytes_of "%PDF") 1 1 384 ]} /\
    i_data i = take k (bytes_of "%PDF").
Proof.
  edestruct (stage_failure "/tmp/onenote-print-a1b2c3" "/queue/job-7-1.pdf"
               stage_fail_env
               (MkWorld {[ "/tmp/onenote-print-a1b2c3" := Inode (bytes_of "%PDF") 1 1 384 ]}
                        ∅ [] [] []) (-1)%Z) as (Hrun & _ & Hdest).
  - vm_compute. discriminate.
  - vm_compute. reflexivity.
  - discriminate.
  - destruct Hdest as (i & k & Hf & Hi).
    + reflexivity.
    + left. eexists. reflexivity.
    + reflexivity.
    + eexists _, i, k. split; [exact Hrun|]. split; [exact Hf | exact Hi].
Defined.

(** ** The temp file (lines 103-154) *)

Lemma mkstemp_char_alphabet r : mkstemp_char r ∈ mkstemp_alphabet.
Proof.
  unfold mkstemp_char. apply list_elem_of_In, nth_In.
  pose proof (N.mod_upper_bound r 62 ltac:(done)).
  change (length mkstemp_alphabet) with 62. lia.
Qed.

Lemma mkstemp_name_no_dot r : "."%char ∉ mkstemp_name r.
Proof.
  assert (Hdot : "."%char ∉ mkstemp_alphabet).
  { apply (bool_decide_eq_false_1 (_ ∈ _)). by vm_compute. }
  unfold mkstemp_name. intros Hin.
  repeat (apply elem_of_cons in Hin as [Hin | Hin];
          [apply Hdot; rewrite Hin; apply mkstemp_char_alphabet|]).
  by apply elem_of_nil in Hin.
Qed.

(** A temp file never has the name of a document or of a sidecar. *)
Lemma temp_shaped_not_queue_named path : temp_shaped path -> ~ queue_named path.
Proof.
  intros [r Hs] Hq.
  assert (Hno : forall suf : list ascii,
            suf `suffix_of` chars path -> length suf < 6 -> "."%char ∈ suf -> False).
  { intros suf Hsuf Hlen Hdot.
    destruct (suffix_weak_total _ _ _ Hs Hsuf) as [H | [k H]].
    - apply suffix_length in H. cbn [length mkstemp_name] in H. lia.
    - apply (mkstemp_name_no_dot r). rewrite H. apply elem_of_app. by right. }
  destruct Hq as [H | [H | H]]; apply (Hno _ H); cbn; try lia;
    apply elem_of_cons; by left.
Qed.

Lemma sys_mkstemp_spec template o e w r w' :
  sys_mkstemp template o e w = (r, w') ->
  match r with
  | None => w' = w
  | Some path =>
    temp_shaped path /\ files w !! path = None /\
    w' = set_files (<[path := Inode [] (e_euid e) (e_egid e) 384]> (files w)) w
  end.
Proof.
  unfold sys_mkstemp. intros H. destruct o as [n|]; [|by injection H as <- <-].
  case_bool_decide; [|by injection H as <- <-].
  case_bool_decide as Hex; [by injection H as <- <-|].
  injection H as <- <-. split_and!; [| |done].
  - exists n. exists (chars (str_take (String.length template - 6) template)).
    rewrite chars_app. by f_equal.
  - destruct (files w !! _) eqn:E; [|done]. exfalso. apply Hex. left. eauto.
Qed.

(** What [main] reads the job from, once the temp file exists. *)
Lemma pending_job_data file e w path d :
  files w !! path = None ->
  match file with
  | Some (String c f) =>
    sys_open_rd (String c f) (e_open_input_fail e)
      (set_files (<[path := Inode [] (e_euid e) (e_egid e) 384]> (files w)) w)
  | _ => Some FdStdin
  end = Some d ->
  let w1 := set_files (<[path := Inode [] (e_euid e) (e_egid e) 384]> (files w)) w in
  pending d w1 = job_data file w /\
  (no_alias d path \/ pending d w1 = []) /\
  (d = FdStdin \/ is_file d /\ exists c f, file = Some (String c f)).
Proof.
  intros Hnew Hopen w1. unfold job_data.
  assert (Hstdin : Some FdStdin = Some d ->
    pending d w1 = stdin w /\ (no_alias d path \/ pending d w1 = []) /\
    (d = FdStdin \/ is_file d /\ exists c f, file = Some (String c f))).
  { intros [= <-]. split_and!; [done | by left | by left]. }
  destruct file as [[|c f]|]; [by destruct (Hstdin Hopen) | | by destruct (Hstdin Hopen)].
  clear Hstdin. unfold sys_open_rd in Hopen.
  destruct (e_open_input_fail e); [done|].
  destruct (files _ !! String c f) eqn:Hf.
  2:{ destruct (dirs _ !! String c f); [|done]. injection Hopen as <-.
      cbn [files set_files] in Hf. apply lookup_insert_None in Hf as [Hf _].
      cbn [pending]. unfold data_at. rewrite Hf.
      split_and!; [done | by left | right; split; [done | eauto]]. }
  injection Hopen as <-.
  cbn [pending]. rewrite drop_0. unfold data_at, w1. cbn [files set_files].
  destruct (decide (path = String c f)) as [Heq | Hne].
  - subst path. rewrite lookup_insert_eq, Hnew.
    split_and!; [done | by right | right; split; [done | eauto]].
  - rewrite lookup_insert_ne by done.
    split_and!; [done | left; cbn; congruence | right; split; [done | eauto]].
Qed.

(** The capture step always ends.  When it goes on, the temp file is new,
    it holds the job's bytes, and [total_written] is their number. *)
Lemma main_capture_spec file e w :
  (exists w', main_capture file e w = Return CUPS_BACKEND_FAILED w' /\ dirs w' = dirs w) \/
  (exists path w',
     main_capture file e w = Next path w' /\
     temp_shaped path /\ files w !! path = None /\
     files w' = <[path := Inode (job_data file w) (e_euid e) (e_egid e) 384]> (files w) /\
     dirs w' = dirs w /\
     stderr w' = stderr w ++
       [InfoWrote (Z.of_nat (length (job_data file w)) mod 2 ^ 64)%Z path] /\
     ((forall c f, file <> Some (String c f)) -> stdin w' = [])).
Proof.
  unfold main_capture.
  destruct (sys_mkstemp _ (e_mkstemp e) e w) as [[path|] w1] eqn:Hmk;
    apply sys_mkstemp_spec in Hmk; [|subst w1; left; eauto].
  destruct Hmk as (Hshape & Hnew & ->).
  set (w1 := set_files _ w).
  destruct (match file with
            | Some (String c f) => sys_open_rd (String c f) (e_open_input_fail e) w1
            | _ => Some FdStdin
            end) as [d|] eqn:Hopen.
  2:{ left. destruct file as [[|c f]|]; try done. rewrite Hopen. eauto. }
  assert (Hopened : match file with
                    | Some (String c f) =>
                      match sys_open_rd (String c f) (e_open_input_fail e) w1 with
                      | Some d => inr d
                      | None => inl (String c f)
                      end
                    | _ => inr FdStdin
                    end = inr d).
  { destruct file as [[|c f]|]; try (by injection Hopen as <-). by rewrite Hopen. }
  rewrite Hopened. clear Hopened.
  destruct (pending_job_data file e w path d Hnew Hopen) as (Hpend & Halias & Hkind).
  fold w1 in Hpend, Halias.
  destruct (capture_loop_spec (S (length (pending d w1))) d path
              (e_capture_reads e) (e_capture_writes e) 0%Z w1)
    as (r & total' & w2 & k & Hrun & Hk & Hf & Hd & He & Hin & Heof);
    [lia | done | lia |].
  rewrite Hrun. destruct r; [|left; eauto | left; eauto].
  destruct (Heof eq_refl) as (-> & -> & Hstdin).
  right. eexists _, _. split; [done|]. split; [done|]. split; [done|].
  rewrite take_ge in Hf by done. rewrite Hpend in *.
  split_and!.
  - cbn [files fprintf_stderr]. rewrite Hf. unfold append_file, w1.
    cbn [files set_files]. by rewrite lookup_insert_eq, insert_insert_eq.
  - done.
  - cbn [stderr fprintf_stderr]. rewrite He. unfold size_t_add.
    by rewrite Z.add_0_l.
  - intros Hno. cbn [stdin fprintf_stderr].
    destruct Hkind as [-> | (_ & c & f & ->)]; [by apply Hstdin | by destruct (Hno c f)].
Qed.

Lemma main_capture_passes Q file e w w' :
  final_world (main_capture file e w) = Some w' ->
  (forall path, temp_shaped path -> ins_ok Q path) -> Q (files w) ->
  passes Q w w'.
Proof.
  unfold main_capture. intros Hfin Hins Hw.
  destruct (sys_mkstemp _ (e_mkstemp e) e w) as [[path|] w1] eqn:Hmk.
  2:{ apply sys_mkstemp_spec in Hmk as ->. injection Hfin as <-.
      apply passes_stderr. }
  pose proof (sys_mkstemp_spec _ _ _ _ _ _ Hmk) as (Hshape & _ & _).
  pose proof (sys_mkstemp_passes Q _ _ _ _ _ _ Hmk (Hins _ Hshape) Hw) as H1.
  pose proof (passes_current _ _ _ H1 Hw) as Hw1.
  destruct (match file with
            | Some (String c f) =>
              match sys_open_rd (String c f) (e_open_input_fail e) w1 with
              | Some d => inr d
              | None => inl (String c f)
              end
            | _ => inr FdStdin
            end) as [f|d].
  { injection Hfin as <-. eapply passes_trans; [exact H1 | apply passes_stderr]. }
  destruct (capture_loop _ d path _ _ 0%Z w1) as [[[r total] w2]|] eqn:Hloop; [|done].
  pose proof (capture_loop_passes Q _ _ _ _ _ _ _ _ _ _ Hloop (Hins _ Hshape) Hw1) as H2.
  eapply passes_trans; [exact H1|]. eapply passes_trans; [exact H2|].
  destruct r; injection Hfin as <-; apply passes_stderr.
Qed.

(** C2: when the capture loop ends at the end of the input, the temp file,
    which did not exist before, holds exactly the bytes of the source, in
    their order, whatever the sizes of the reads and of the partial writes;
    [total_written] (printed in the diagnostic line) is their number, as a
    [size_t]; an inherited input stream has been read to its end. *)
Theorem capture_complete (file : option string) (e : Env) (w : World)
  (templatePath : string) (w' : World) :
  main_capture file e w = Next templatePath w' ->
  files w !! templatePath = None /\
  data_at (files w') templatePath = job_data file w /\
  stderr w' = stderr w ++
    [InfoWrote (Z.of_nat (length (job_data file w)) mod 2 ^ 64)%Z templatePath] /\
  ((forall c f, file <> Some (String c f)) -> stdin w' = []).
Proof.
  intros Hrun.
  destruct (main_capture_spec file e w)
    as [(w2 & H & _) | (p & w2 & H & _ & Hnew & Hf & _ & He & Hin)];
    rewrite Hrun in H; [done|]. injection H as <- <-.
  split_and!; try done. unfold data_at. by rewrite Hf, lookup_insert_eq.
Qed.

Lemma capture_complete_witness :
  exists templatePath w',
    main_capture None short_io_env sample_world = Next templatePath w' /\
    data_at (files w') templatePath = bytes_of "%PDF-1.4 sample".
Proof.
  eexists _, _.
  refine ((fun H => conj H
             (proj1 (proj2 (capture_complete None short_io_env sample_world _ _ H)))) _).
  vm_compute. reflexivity.
Defined.

(** ** The steps of [main] *)

Lemma untouched_ins_ok X f0 p : ~ X p -> ins_ok (untouched X f0) p.
Proof.
  intros Hp s i Hs q Hq. rewrite lookup_insert_ne; [by apply Hs | congruence].
Qed.

Lemma untouched_del_ok X f0 p : ~ X p -> del_ok (untouched X f0) p.
Proof.
  intros Hp s Hs q Hq. rewrite lookup_delete_ne; [by apply Hs | congruence].
Qed.

Lemma untouched_refl X f0 : untouched X f0 f0.
Proof. by intros p _. Qed.

Lemma in_place_ins_ok doc payload p : p <> doc -> ins_ok (in_place doc payload) p.
Proof.
  intros Hne s i (j & Hj & Hd). exists j. by rewrite lookup_insert_ne.
Qed.

Lemma in_place_meta_ok doc payload p : meta_ok (in_place doc payload) p.
Proof.
  intros s i uid gid mode Hi (j & Hj & Hd).
  destruct (decide (p = doc)) as [-> | Hne].
  - rewrite Hi in Hj. injection Hj as ->. eexists. by rewrite lookup_insert_eq.
  - exists j. by rewrite lookup_insert_ne.
Qed.

Lemma same_data_refl f : same_data f f.
Proof. by intros p. Qed.

Lemma same_data_trans f1 f2 f3 : same_data f1 f2 -> same_data f2 f3 -> same_data f1 f3.
Proof. intros H1 H2 p. by rewrite H2, H1. Qed.

Lemma same_data_meta f p i uid gid mode :
  f !! p = Some i -> same_data f (<[p := Inode (i_data i) uid gid mode]> f).
Proof.
  intros Hi q. destruct (decide (p = q)) as [<- | Hne].
  - by rewrite lookup_insert_eq, Hi.
  - by rewrite lookup_insert_ne.
Qed.

Lemma same_data_data_at f f' p : same_data f f' -> data_at f' p = data_at f p.
Proof.
  intros H. specialize (H p). unfold data_at.
  destruct (f' !! p), (f !! p); cbn in H; congruence.
Qed.

Lemma sys_chown_same_data p uid gid fail w :
  same_data (files w) (files (sys_chown p uid gid fail w).2).
Proof.
  unfold sys_chown. destruct fail; [apply same_data_refl|].
  destruct (files w !! p) eqn:E; [|apply same_data_refl].
  by apply same_data_meta.
Qed.

Lemma sys_chmod_same_data p mode fail w :
  same_data (files w) (files (sys_chmod p mode fail w).2).
Proof.
  unfold sys_chmod. destruct fail; [apply same_data_refl|].
  destruct (files w !! p) eqn:E; [by apply same_data_meta|].
  destruct (dirs w !! p); apply same_data_refl.
Qed.

(** *** Sniffing and the identity lookup *)

Lemma main_sniff_spec templatePath e w :
  exists ext w',
    main_sniff templatePath e w = Next ext w' /\ (ext = "ps" \/ ext = "pdf") /\
    files w' = files w /\ history w' = history w /\ dirs w' = dirs w.
Proof.
  unfold main_sniff.
  destruct (file_starts_with templatePath "%!PS" _ _ w); [eauto 10|].
  destruct (file_starts_with templatePath "%PDF" _ _ w); eauto 10.
Qed.

Lemma main_getpwnam_spec user e w :
  (exists pw, main_getpwnam user e w = Next pw w /\ e_getpwnam e user = Some pw /\
              is_Some (pw_dir pw)) \/
  (main_getpwnam user e w = Return CUPS_BACKEND_FAILED (fprintf_stderr (ErrGetpwnam user) w) /\
   forall pw, e_getpwnam e user = Some pw -> pw_dir pw = None).
Proof.
  unfold main_getpwnam. destruct (e_getpwnam e user) as [pw|]; [|by right].
  destruct (pw_dir pw) eqn:Hd; [left; eauto|].
  right. split; [done|]. by intros ? [= <-].
Qed.

(** *** The queue directories *)

Lemma ensure_dir_files path mode e w :
  files (ensure_dir path mode e w).2 = files w /\
  history (ensure_dir path mode e w).2 = history w.
Proof.
  unfold ensure_dir. destruct path; [done|]. unfold sys_mkdir.
  destruct (e_mkdir e _) as [err|]; [by destruct (decide (err = EEXIST))|].
  by case_bool_decide.
Qed.

Lemma ensure_dirs_loop_files pre rest mode e w :
  files (ensure_dirs_loop pre rest mode e w).2 = files w /\
  history (ensure_dirs_loop pre rest mode e w).2 = history w.
Proof.
  revert pre w. induction rest as [|c rest IH]; intros pre w; [done|].
  cbn [ensure_dirs_loop]. case_decide; [|apply IH].
  pose proof (ensure_dir_files (unchars pre) mode e w) as [Hf Hh].
  destruct (ensure_dir (unchars pre) mode e w) as [[r err] w1]. cbn [snd] in *.
  destruct (negb (r =? 0)%Z && negb (bool_decide (err = Some EEXIST))); [done|].
  destruct (IH (pre ++ [c]) w1) as [-> ->]. done.
Qed.

Lemma ensure_dirs_recursive_files path mode e w :
  files (ensure_dirs_recursive path mode e w).2 = files w /\
  history (ensure_dirs_recursive path mode e w).2 = history w.
Proof.
  unfold ensure_dirs_recursive. destruct (chars path) as [|c rest]; [done|].
  destruct (e_PATH_MAX e <=? String.length path); [done|].
  pose proof (ensure_dirs_loop_files [c] rest mode e w) as [Hf Hh].
  destruct (ensure_dirs_loop [c] rest mode e w) as [r w1]. cbn [snd] in *.
  destruct (r =? 0)%Z; [|done].
  pose proof (ensure_dir_files path mode e w1) as [Hf' Hh'].
  destruct (ensure_dir path mode e w1) as [[r' err] w2]. cbn [snd] in *.
  split; congruence.
Qed.

(** The directory step changes no file's bytes: at most the mode of a file
    that sits where a directory is wanted. *)
Lemma main_dirs_spec Q ds e w :
  (forall d, d ∈ ds -> meta_ok Q d) -> Q (files w) ->
  exists w',
    (main_dirs ds e w = Next tt w' \/ main_dirs ds e w = Return CUPS_BACKEND_FAILED w') /\
    passes Q w w' /\ same_data (files w) (files w').
Proof.
  revert w. induction ds as [|d ds IH]; intros w Hm Hw.
  { exists w. split_and!; [by left | apply passes_refl | apply same_data_refl]. }
  cbn [main_dirs].
  pose proof (ensure_dirs_recursive_files d 511 e w) as [Hf Hh].
  destruct (ensure_dirs_recursive d 511 e w) as [r w1]. cbn [snd] in *.
  assert (H1 : passes Q w w1) by (apply passes_same; unfold states; congruence).
  destruct (negb (r =? 0)%Z).
  { eexists. split; [by right|]. split.
    - eapply passes_trans; [exact H1 | apply passes_stderr].
    - cbn. rewrite Hf. apply same_data_refl. }
  assert (Hw1 : Q (files w1)) by (by rewrite Hf).
  pose proof (sys_chmod_passes Q d 1023 (e_chmod_dir_fail e d) w1
                (Hm d ltac:(by left)) Hw1) as H2.
  pose proof (sys_chmod_same_data d 1023 (e_chmod_dir_fail e d) w1) as Hs2.
  destruct (IH (sys_chmod d 1023 (e_chmod_dir_fail e d) w1).2) as (w' & Hr & Hp & Hs).
  { intros d' Hd'. apply Hm. by right. }
  { by eapply passes_current. }
  exists w'. split; [done|]. split.
  - eapply passes_trans; [exact H1|]. by eapply passes_trans.
  - rewrite <- Hf. by eapply same_data_trans.
Qed.

(** *** Staging *)

Lemma main_stage_spec templatePath dest e w :
  templatePath <> dest ->
  (exists w', main_stage templatePath dest e w = Return CUPS_BACKEND_FAILED w') \/
  (exists w', main_stage templatePath dest e w = Next tt w' /\
              in_place dest (data_at (files w) templatePath) (files w')).
Proof.
  intros Hne. unfold main_stage, sys_rename.
  destruct (e_rename_fail e) eqn:Hfail.
  2:{ destruct (files w !! templatePath) as [i|] eqn:Hi.
      - rewrite decide_False by done. cbn. right. eexists. split; [done|].
        exists i. cbn. rewrite lookup_insert_eq. unfold data_at. by rewrite Hi.
      - cbn. destruct (copy_file_spec templatePath dest 420 e w)
          as (r & w1 & -> & _ & _ & _ & [[-> _] | (i & k & [-> | ->] & Hsome & _)]).
        + left. eauto.
        + destruct (Hsome eq_refl) as [? ?]. congruence.
        + left. eauto. }
  cbn. destruct (copy_file_spec templatePath dest 420 e w)
    as (r & w1 & -> & _ & _ & _ & [[-> _] | (i & k & [-> | ->] & _ & Hf & _ & Hall & _)]).
  - left. eauto.
  - cbn. right. eexists. split; [done|]. unfold sys_unlink.
    assert (Hin : in_place dest (data_at (files w) templatePath) (files w1)).
    { exists i. rewrite Hf, lookup_insert_eq. split; [done|]. by apply Hall. }
    destruct (e_unlink_fail e); [done|].
    destruct (files w1 !! templatePath); [|done]. cbn.
    destruct Hin as (j & Hj & Hd). exists j. by rewrite lookup_delete_ne.
  - left. eauto.
Qed.

Lemma main_stage_total templatePath dest e w :
  exists w', main_stage templatePath dest e w = Next tt w' \/
             main_stage templatePath dest e w = Return CUPS_BACKEND_FAILED w'.
Proof.
  unfold main_stage.
  destruct (sys_rename templatePath dest (e_rename_fail e) w) as [r w1].
  destruct (negb (r =? 0)%Z); [|eauto].
  destruct (copy_file_spec templatePath dest 420 e w1) as (r' & w2 & -> & _).
  destruct (negb (r' =? 0)%Z); eauto.
Qed.

Lemma main_stage_passes Q templatePath dest e w w' :
  final_world (main_stage templatePath dest e w) = Some w' ->
  del_ok Q templatePath -> ins_ok Q dest -> Q (files w) ->
  passes Q w w'.
Proof.
  unfold main_stage. intros Hfin Hd Hi Hw.
  pose proof (sys_rename_passes Q templatePath dest (e_rename_fail e) w Hd Hi Hw) as H1.
  destruct (sys_rename templatePath dest (e_rename_fail e) w) as [r w1]. cbn [snd] in H1.
  destruct (negb (r =? 0)%Z); [|by injection Hfin as <-].
  pose proof (passes_current _ _ _ H1 Hw) as Hw1.
  destruct (copy_file templatePath dest 420 e w1) as [[r' w2]|] eqn:Hc; [|done].
  pose proof (copy_file_passes Q _ _ _ _ _ _ _ Hc Hi Hw1) as H2.
  eapply passes_trans; [exact H1|]. eapply passes_trans; [exact H2|].
  destruct (negb (r' =? 0)%Z); injection Hfin as <-; [apply passes_stderr|].
  apply sys_unlink_passes; [done|]. by eapply passes_current.
Qed.

(** *** Owner and mode *)

Lemma main_chown_chmod_spec Q path pw chown_fail chmod_fail w :
  meta_ok Q path -> Q (files w) ->
  exists w', main_chown_chmod path pw chown_fail chmod_fail w = Next tt w' /\
             passes Q w w' /\ same_data (files w) (files w').
Proof.
  intros Hm Hw. unfold main_chown_chmod.
  pose proof (sys_chown_passes Q path (pw_uid pw) (pw_gid pw) chown_fail w Hm Hw) as H1.
  pose proof (sys_chown_same_data path (pw_uid pw) (pw_gid pw) chown_fail w) as Hs1.
  destruct (sys_chown path (pw_uid pw) (pw_gid pw) chown_fail w) as [r w1].
  cbn [snd] in *. eexists. split; [done|].
  set (w2 := if negb (r =? 0)%Z then fprintf_stderr (WarnChown path) w1 else w1).
  assert (Hf2 : files w2 = files w1) by (unfold w2; by destruct (negb _)).
  assert (H2 : passes Q w1 w2) by (unfold w2; destruct (negb _);
                                     [apply passes_stderr | apply passes_refl]).
  assert (Hw2 : Q (files w2)) by (rewrite Hf2; by eapply passes_current).
  split.
  - eapply passes_trans; [exact H1|]. eapply passes_trans; [exact H2|].
    by apply sys_chmod_passes.
  - eapply same_data_trans; [exact Hs1|]. rewrite <- Hf2. apply sys_chmod_same_data.
Qed.

(** *** The sidecar *)

Lemma main_sidecar_spec Q json doc title user job_id e w :
  ins_ok Q json -> Q (files w) ->
  (e_fopen_json_fail e = true /\
   main_sidecar json doc title user job_id e w
     = Return CUPS_BACKEND_FAILED (fprintf_stderr (ErrJson json) w)) \/
  (e_fopen_json_fail e = false /\
   exists w' i,
     main_sidecar json doc title user job_id e w = Next tt w' /\
     passes Q w w' /\ files w' !! json = Some i /\
     i_data i = take (default (length (bytes_of (sidecar_text doc (escTitle title) user job_id)))
                        (e_json_flushed e))
                     (bytes_of (sidecar_text doc (escTitle title) user job_id))).
Proof.
  intros Hi Hw. unfold main_sidecar.
  pose proof (sys_open_trunc_passes Q json 438 (e_fopen_json_fail e) e w Hi Hw) as H1.
  unfold sys_open_trunc in *. destruct (e_fopen_json_fail e); [by left|]. right.
  split; [done|].
  set (i0 := match files w !! json with
             | Some i => Inode [] (i_uid i) (i_gid i) (i_mode i)
             | None => Inode [] (e_euid e) (e_egid e) (Z.ldiff 438 (e_umask e))
             end).
  set (w1 := set_files (<[json := i0]> (files w)) w).
  assert (Hw1 : (if files w !! json is Some i
                 then (true, set_files (<[json := Inode [] (i_uid i) (i_gid i) (i_mode i)]>
                                          (files w)) w)
                 else (true, set_files (<[json := Inode [] (e_euid e) (e_egid e)
                                          (Z.ldiff 438 (e_umask e))]> (files w)) w))
                = (true, w1)).
  { unfold w1, i0. by destruct (files w !! json). }
  rewrite Hw1 in *. clear Hw1. cbn [snd] in H1.
  set (text := bytes_of (sidecar_text doc (escTitle title) user job_id)).
  set (k := match e_json_flushed e with Some k => k | None => length text end).
  pose proof (sys_write_passes Q json text (WrLen k) w1 Hi
                (passes_current _ _ _ H1 Hw)) as H2.
  eexists _, _. split; [done|]. split; [by eapply passes_trans|].
  unfold sys_write, w1. cbn [files set_files snd]. rewrite lookup_insert_eq.
  cbn [files set_files snd]. rewrite lookup_insert_eq. split; [done|]. cbn [i_data].
  assert (Hd0 : i_data i0 = []) by (unfold i0; by destruct (files w !! json)).
  rewrite Hd0. cbn [app]. rewrite <- length_take, take_length_take.
  unfold k. by destruct (e_json_flushed e).
Qed.

(** ** The whole of [main] *)

Lemma passes_impl (Q Q' : gmap string inode -> Prop) w w' :
  (forall s, Q s -> Q' s) -> passes Q w w' -> passes Q' w w'.
Proof.
  intros H (new & Hs & F). exists new. split; [done|].
  eapply Forall_impl; [exact F | done].
Qed.

Lemma destJson_queue_named e job_id now :
  298 <= e_PATH_MAX e -> queue_named (destJson e job_id now).
Proof. intros H. right. right. by apply destJson_ends. Qed.

Lemma destDoc_queue_named e job_id now ext :
  298 <= e_PATH_MAX e -> ext = "ps" \/ ext = "pdf" ->
  queue_named (destDoc e job_id now ext).
Proof.
  intros H [-> | ->]; [right; left | left];
    by apply (destDoc_ends e job_id now _ H); auto.
Qed.

Lemma dirs_not_queue_named d :
  d ∈ [rootDir; incomingDir; processingDir; doneDir; failedDir] -> ~ queue_named d.
Proof.
  intros Hd. repeat (apply elem_of_cons in Hd as [-> | Hd];
    [apply (bool_decide_eq_false_1 (queue_named _)); vm_compute; reflexivity|]).
  by apply elem_of_nil in Hd.
Qed.

Lemma main_job_mode argv e w :
  length argv = 6 \/ length argv = 7 ->
  main argv e w =
  main_job (nth 1 argv EmptyString) (nth 2 argv EmptyString) (nth 3 argv EmptyString)
    (if length argv =? 7 then Some (nth 6 argv EmptyString) else None) e w.
Proof. unfold main. by intros [-> | ->]. Qed.

(** The last part of [main] returns, and what it returns depends on
    [fopen] alone. *)
Lemma main_queue_spec Q doc json pw title user job_id e w :
  meta_ok Q doc -> ins_ok Q json -> Q (files w) ->
  exists w',
    main_queue doc json pw title user job_id e w
      = Return (if e_fopen_json_fail e then CUPS_BACKEND_FAILED else CUPS_BACKEND_OK) w' /\
    passes Q w w' /\
    (e_fopen_json_fail e = false ->
     data_at (files w') json =
     take (default (length (bytes_of (sidecar_text doc (escTitle title) user job_id)))
                   (e_json_flushed e))
          (bytes_of (sidecar_text doc (escTitle title) user job_id))).
Proof.
  intros Hmd Hij Hw. unfold main_queue, bind.
  destruct (main_chown_chmod_spec Q doc pw (e_chown_doc_fail e) (e_chmod_doc_fail e)
              w Hmd Hw) as (w1 & -> & H1 & _).
  pose proof (passes_current _ _ _ H1 Hw) as Hw1.
  destruct (main_sidecar_spec Q json doc title user job_id e w1 Hij Hw1)
    as [[Hfail ->] | (Hok & w2 & i & -> & H2 & Hi & Hdata)].
  { rewrite Hfail. eexists. split; [done|]. split; [|done].
    eapply passes_trans; [exact H1 | apply passes_stderr]. }
  rewrite Hok.
  pose proof (passes_current _ _ _ H2 Hw1) as Hw2.
  destruct (main_chown_chmod_spec Q json pw (e_chown_json_fail e) (e_chmod_json_fail e)
              w2 (ins_ok_meta_ok Q json Hij) Hw2) as (w3 & -> & H3 & Hs3).
  eexists. split; [done|]. split.
  - eapply passes_trans; [exact H1|]. eapply passes_trans; [exact H2|].
    eapply passes_trans; [exact H3 | apply passes_stderr].
  - intros _. cbn [files fprintf_stderr].
    rewrite (same_data_data_at _ _ json Hs3). unfold data_at. by rewrite Hi.
Qed.

(** *** The ownership and permission answers do not reach the other steps *)

Section PermFaults.
Context (e : Env) (cd md cj mj : bool).

Lemma main_capture_perm file w :
  main_capture file (with_perm_faults e cd md cj mj) w = main_capture file e w.
Proof. reflexivity. Qed.

Lemma main_sniff_perm path w :
  main_sniff path (with_perm_faults e cd md cj mj) w = main_sniff path e w.
Proof. reflexivity. Qed.

Lemma main_getpwnam_perm user w :
  main_getpwnam user (with_perm_faults e cd md cj mj) w = main_getpwnam user e w.
Proof. reflexivity. Qed.

Lemma ensure_dir_perm path mode w :
  ensure_dir path mode (with_perm_faults e cd md cj mj) w = ensure_dir path mode e w.
Proof. reflexivity. Qed.

Lemma ensure_dirs_loop_perm pre rest mode w :
  ensure_dirs_loop pre rest mode (with_perm_faults e cd md cj mj) w
  = ensure_dirs_loop pre rest mode e w.
Proof.
  revert pre w. induction rest as [|c rest IH]; intros pre w; [done|].
  cbn [ensure_dirs_loop]. case_decide; [|apply IH].
  rewrite ensure_dir_perm.
  destruct (ensure_dir (unchars pre) mode e w) as [[r err] w1].
  destruct (negb (r =? 0)%Z && negb (bool_decide (err = Some EEXIST))); [done|].
  apply IH.
Qed.

Lemma ensure_dirs_recursive_perm path mode w :
  ensure_dirs_recursive path mode (with_perm_faults e cd md cj mj) w
  = ensure_dirs_recursive path mode e w.
Proof.
  unfold ensure_dirs_recursive. destruct (chars path) as [|c rest]; [done|].
  cbn [e_PATH_MAX with_perm_faults].
  destruct (e_PATH_MAX e <=? String.length path); [done|].
  rewrite ensure_dirs_loop_perm.
  destruct (ensure_dirs_loop [c] rest mode e w) as [r w1].
  destruct (r =? 0)%Z; [|done]. by rewrite ensure_dir_perm.
Qed.

Lemma main_dirs_perm ds w :
  main_dirs ds (with_perm_faults e cd md cj mj) w = main_dirs ds e w.
Proof.
  revert w. induction ds as [|d ds IH]; intros w; [done|].
  cbn [main_dirs]. rewrite ensure_dirs_recursive_perm.
  destruct (ensure_dirs_recursive d 511 e w) as [r w1].
  destruct (negb (r =? 0)%Z); [done|]. apply IH.
Qed.

Lemma main_stage_perm path dest w :
  main_stage path dest (with_perm_faults e cd md cj mj) w = main_stage path dest e w.
Proof. reflexivity. Qed.
End PermFaults.

(** [main] always returns: no loop of the model runs out of its budget. *)
Lemma main_total argv e w : exists c w', main argv e w = Return c w'.
Proof.
  unfold main. destruct (length argv =? 1); [eauto|].
  destruct (negb (length argv =? 6) && negb (length argv =? 7)); [eauto|].
  unfold main_job, bind.
  destruct (main_capture_spec (if length argv =? 7 then Some (nth 6 argv EmptyString) else None)
              e w) as [(w1 & -> & _) | (path & w1 & -> & _)]; [eauto|].
  destruct (main_sniff_spec path e w1) as (ext & w2 & -> & _).
  destruct (main_getpwnam_spec (nth 2 argv EmptyString) e w2)
    as [(pw & -> & _) | [-> _]]; [|eauto].
  destruct (main_dirs_spec (fun _ => True) [rootDir; incomingDir; processingDir; doneDir; failedDir]
              e w2) as (w3 & [-> | ->] & _); [done | done | | eauto].
  unfold main_stage.
  destruct (sys_rename path _ (e_rename_fail e) w3) as [r w4].
  destruct (negb (r =? 0)%Z).
  - destruct (copy_file_spec path (destDoc e (nth 1 argv EmptyString) (e_now e) ext) 420 e w4)
      as (r' & w5 & -> & _).
    destruct (negb (r' =? 0)%Z); [eauto|].
    destruct (main_queue_spec (fun _ => True)
                (destDoc e (nth 1 argv EmptyString) (e_now e) ext)
                (destJson e (nth 1 argv EmptyString) (e_now e)) pw
                (nth 3 argv EmptyString) (nth 2 argv EmptyString) (nth 1 argv EmptyString) e
                (sys_unlink path (e_unlink_fail e) w5).2) as (w6 & -> & _); done || eauto.
  - destruct (main_queue_spec (fun _ => True)
                (destDoc e (nth 1 argv EmptyString) (e_now e) ext)
                (destJson e (nth 1 argv EmptyString) (e_now e)) pw
                (nth 3 argv EmptyString) (nth 2 argv EmptyString) (nth 1 argv EmptyString) e
                w4) as (w6 & -> & _); done || eauto.
Qed.

(** C7: when the user name has no entry of the identity service (or one
    without a home directory), [main] returns the failure sentinel, creates
    no directory, and at no point of the run has any path with the name of a
    document or of a sidecar been created, changed or removed. *)
Theorem unresolved_user_no_artifact (argv : list string) (e : Env) (w : World) :
  length argv = 6 \/ length argv = 7 ->
  (forall pw, e_getpwnam e (nth 2 argv EmptyString) = Some pw -> pw_dir pw = None) ->
  exists w',
    main argv e w = Return CUPS_BACKEND_FAILED w' /\
    dirs w' = dirs w /\
    forall s, s ∈ states w' -> s ∈ history w \/ untouched queue_named (files w) s.
Proof.
  intros Hargc Hpw. rewrite main_job_mode by done.
  set (file := if length argv =? 7 then Some (nth 6 argv EmptyString) else None).
  set (Q := untouched queue_named (files w)).
  assert (HQ : forall path, temp_shaped path -> ins_ok Q path).
  { intros path Hs. apply untouched_ins_ok. by apply temp_shaped_not_queue_named. }
  assert (Hfinal : forall w', passes Q w w' ->
            forall s, s ∈ states w' -> s ∈ history w \/ Q s).
  { intros w' Hp s Hs. destruct (passes_states Q _ _ _ Hp Hs) as [Hold | ?]; [|by right].
    apply elem_of_cons in Hold as [-> | ?]; [right; apply untouched_refl | by left]. }
  pose proof (main_capture_passes Q file e w) as Hcap.
  unfold main_job, bind.
  destruct (main_capture_spec file e w)
    as [(w1 & Hc & Hd) | (path & w1 & Hc & _ & _ & _ & Hd & _)]; rewrite Hc in *.
  { exists w1. split; [done|]. split; [done|].
    apply Hfinal, Hcap; [done | done | apply untouched_refl]. }
  specialize (Hcap w1 eq_refl HQ (untouched_refl _ _)).
  destruct (main_sniff_spec path e w1) as (ext & w2 & -> & _ & Hf2 & Hh2 & Hd2).
  destruct (main_getpwnam_spec (nth 2 argv EmptyString) e w2)
    as [(pw & _ & Hsome & Hdir) | [-> _]].
  { rewrite (Hpw _ Hsome) in Hdir. by destruct Hdir. }
  eexists. split; [done|]. split; [cbn; congruence|].
  apply Hfinal. eapply passes_trans; [exact Hcap|].
  apply passes_same. unfold states. cbn. congruence.
Qed.

Lemma unresolved_user_no_artifact_witness :
  exists w',
    main ["onenote"; "101"; "nobody"; "Report"; "1"; "media=A4"] sample_env sample_world
      = Return CUPS_BACKEND_FAILED w' /\
    dirs w' = dirs sample_world.
Proof.
  destruct (unresolved_user_no_artifact
              ["onenote"; "101"; "nobody"; "Report"; "1"; "media=A4"]
              sample_env sample_world) as (w' & H & Hd & _).
  - left. reflexivity.
  - intros pw Hpw. vm_compute in Hpw. discriminate.
  - by exists w'.
Defined.

(** C5: in every run of job mode, every file-system state the run goes
    through either still has the sidecar path exactly as it was when the run
    began, or has the document in place, complete: the sidecar is created
    only once the document it names exists and holds all the bytes of the
    job. *)
Theorem sidecar_after_document (argv : list string) (e : Env) (w : World)
  (c : cups_backend_t) (w' : World) :
  length argv = 6 \/ length argv = 7 ->
  298 <= e_PATH_MAX e ->
  main argv e w = Return c w' ->
  let job_id := nth 1 argv EmptyString in
  let file := if length argv =? 7 then Some (nth 6 argv EmptyString) else None in
  exists ext,
    (ext = "ps" \/ ext = "pdf") /\
    forall s, s ∈ states w' ->
      s ∈ history w \/
      s !! destJson e job_id (e_now e) = files w !! destJson e job_id (e_now e) \/
      in_place (destDoc e job_id (e_now e) ext) (job_data file w) s.
Proof.
  intros Hargc Hmax Hmain job_id file. rewrite main_job_mode in Hmain by done.
  fold job_id file in Hmain.
  set (json := destJson e job_id (e_now e)).
  set (Q1 := untouched (fun p => p = json) (files w)).
  assert (Hjson : queue_named json) by (by apply destJson_queue_named).
  assert (Hother : forall p, ~ queue_named p -> ins_ok Q1 p /\ del_ok Q1 p).
  { intros p Hp. split; [apply untouched_ins_ok | apply untouched_del_ok]; congruence. }
  assert (Hfinal : forall ext, ext = "ps" \/ ext = "pdf" ->
            passes (fun s => Q1 s \/ in_place (destDoc e job_id (e_now e) ext)
                                       (job_data file w) s) w w' ->
            exists ext, (ext = "ps" \/ ext = "pdf") /\
              forall s, s ∈ states w' ->
                s ∈ history w \/ s !! json = files w !! json \/
                in_place (destDoc e job_id (e_now e) ext) (job_data file w) s).
  { intros ext Hext Hp. exists ext. split; [done|]. intros s Hs.
    destruct (passes_states _ _ _ _ Hp Hs) as [Hold | [H1 | H2]].
    - apply elem_of_cons in Hold as [-> | ?]; [right; by left | by left].
    - right. left. by apply H1.
    - right. by right. }
  assert (Hearly : passes Q1 w w' ->
            exists ext, (ext = "ps" \/ ext = "pdf") /\
              forall s, s ∈ states w' ->
                s ∈ history w \/ s !! json = files w !! json \/
                in_place (destDoc e job_id (e_now e) ext) (job_data file w) s).
  { intros Hp. apply (Hfinal "pdf"); [by right|].
    eapply passes_impl; [|exact Hp]. by left. }
  unfold main_job, bind in Hmain. cbv zeta in Hmain.
  pose proof (main_capture_passes Q1 file e w) as Hcap.
  destruct (main_capture_spec file e w)
    as [(w1 & Hc & _) | (path & w1 & Hc & Hshape & _ & Hf1 & _)]; rewrite Hc in *.
  { injection Hmain as <- <-. apply Hearly, Hcap; [done | | apply untouched_refl].
    intros p Hp. by apply Hother, temp_shaped_not_queue_named. }
  assert (H1 : passes Q1 w w1).
  { apply Hcap; [done | | apply untouched_refl].
    intros p Hp. by apply Hother, temp_shaped_not_queue_named. }
  clear Hcap.
  assert (Hdata1 : data_at (files w1) path = job_data file w).
  { unfold data_at. by rewrite Hf1, lookup_insert_eq. }
  destruct (main_sniff_spec path e w1) as (ext & w2 & Hs & Hext & Hf2 & Hh2 & _).
  rewrite Hs in Hmain. clear Hs.
  assert (H2 : passes Q1 w w2).
  { eapply passes_trans; [exact H1|]. apply passes_same. unfold states. congruence. }
  destruct (main_getpwnam_spec (nth 2 argv EmptyString) e w2)
    as [(pw & Hg & _) | [Hg _]]; rewrite Hg in Hmain; clear Hg.
  2:{ injection Hmain as <- <-. apply Hearly.
      eapply passes_trans; [exact H2 | apply passes_stderr]. }
  pose proof (passes_current _ _ _ H2 (untouched_refl _ _)) as Hw2.
  destruct (main_dirs_spec Q1 [rootDir; incomingDir; processingDir; doneDir; failedDir]
              e w2) as (w3 & Hdirs & H3 & Hs3); [|done|].
  { intros d Hd. apply ins_ok_meta_ok, Hother. by apply dirs_not_queue_named. }
  assert (H3' : passes Q1 w w3) by (by eapply passes_trans).
  destruct Hdirs as [Hd | Hd]; rewrite Hd in Hmain; clear Hd.
  2:{ injection Hmain as <- <-. by apply Hearly. }
  set (doc := destDoc e job_id (e_now e) ext) in *.
  assert (Hdoc : queue_named doc) by (by apply destDoc_queue_named).
  assert (Hne : path <> doc).
  { intros ->. by apply (temp_shaped_not_queue_named doc). }
  assert (Hdj : doc <> json) by (by apply destDoc_ne_destJson).
  pose proof (main_stage_passes Q1 path doc e w3) as Hst.
  destruct (main_stage_spec path doc e w3 Hne)
    as [(w4 & Hs) | (w4 & Hs & Hin)]; rewrite Hs in *.
  { injection Hmain as <- <-. apply Hearly. eapply passes_trans; [exact H3'|].
    apply Hst; [done | | | by eapply passes_current].
    - apply untouched_del_ok. intros ->. by apply (temp_shaped_not_queue_named json).
    - apply untouched_ins_ok. congruence. }
  assert (H4 : passes Q1 w w4).
  { eapply passes_trans; [exact H3'|].
    apply Hst; [done | | | by eapply passes_current].
    - apply untouched_del_ok. intros ->. by apply (temp_shaped_not_queue_named json).
    - apply untouched_ins_ok. congruence. }
  rewrite (same_data_data_at _ _ path Hs3), Hf2, Hdata1 in Hin.
  destruct (main_queue_spec (in_place doc (job_data file w)) doc json pw
              (nth 3 argv EmptyString) (nth 2 argv EmptyString) job_id e w4)
    as (w5 & Hq & H5 & _).
  { apply in_place_meta_ok. }
  { apply in_place_ins_ok. congruence. }
  { done. }
  fold json in Hmain. rewrite Hq in Hmain. injection Hmain as <- <-.
  apply (Hfinal ext Hext). eapply passes_trans.
  - eapply passes_impl; [|exact H4]. by left.
  - eapply passes_impl; [|exact H5]. by right.
Qed.

Lemma sidecar_after_document_witness :
  exists w',
    main sample_argv sample_env sample_world = Return CUPS_BACKEND_OK w' /\
    exists ext, (ext = "ps" \/ ext = "pdf") /\
      forall s, s ∈ states w' ->
        s ∈ history sample_world \/
        s !! destJson sample_env "101" 1700000000
          = files sample_world !! destJson sample_env "101" 1700000000 \/
        in_place (destDoc sample_env "101" 1700000000 ext)
          (bytes_of "%PDF-1.4 sample") s.
Proof.
  eexists.
  refine ((fun H => conj H
             (sidecar_after_document sample_argv sample_env sample_world _ _ _ _ H)) _).
  - left. reflexivity.
  - vm_compute. lia.
  - vm_compute. reflexivity.
Defined.

(** C8: what [chown] and [chmod] answer on the staged document and on the
    sidecar changes nothing to what [main] returns; once the document is
    staged, the job returns the success sentinel whenever the sidecar can be
    opened, whatever the four calls answer. *)
Theorem perm_failures_do_not_abort (argv : list string) (e : Env) (w : World)
  (chown_doc chmod_doc chown_json chmod_json : bool) :
  (exists c,
     exit_code (main argv (with_perm_faults e chown_doc chmod_doc chown_json chmod_json) w)
       = Some c /\
     exit_code (main argv e w) = Some c) /\
  (forall doc json pw title user job_id w0,
     exists w',
       main_queue doc json pw title user job_id
         (with_perm_faults e chown_doc chmod_doc chown_json chmod_json) w0
       = Return (if e_fopen_json_fail e then CUPS_BACKEND_FAILED else CUPS_BACKEND_OK) w').
Proof.
  set (e' := with_perm_faults e chown_doc chmod_doc chown_json chmod_json).
  assert (Hqueue : forall e0 doc json pw title user job_id w0,
            exists w', main_queue doc json pw title user job_id e0 w0
              = Return (if e_fopen_json_fail e0 then CUPS_BACKEND_FAILED
                        else CUPS_BACKEND_OK) w').
  { intros. destruct (main_queue_spec (fun _ => True) doc json pw title user job_id e0 w0)
      as (w' & H & _); done || eauto. }
  split; [|intros; apply (Hqueue e')].
  unfold main. destruct (length argv =? 1); [by eexists|].
  destruct (negb (length argv =? 6) && negb (length argv =? 7)); [by eexists|].
  unfold main_job, bind.
  rewrite (main_capture_perm e chown_doc chmod_doc chown_json chmod_json). fold e'.
  destruct (main_capture_spec (if length argv =? 7 then Some (nth 6 argv EmptyString) else None)
              e w) as [(w1 & -> & _) | (path & w1 & -> & _)]; [by eexists|].
  rewrite (main_sniff_perm e chown_doc chmod_doc chown_json chmod_json). fold e'.
  destruct (main_sniff_spec path e w1) as (ext & w2 & -> & _).
  rewrite (main_getpwnam_perm e chown_doc chmod_doc chown_json chmod_json). fold e'.
  destruct (main_getpwnam_spec (nth 2 argv EmptyString) e w2)
    as [(pw & -> & _) | [-> _]]; [|by eexists].
  rewrite (main_dirs_perm e chown_doc chmod_doc chown_json chmod_json). fold e'.
  destruct (main_dirs_spec (fun _ => True) [rootDir; incomingDir; processingDir; doneDir; failedDir]
              e w2) as (w3 & [-> | ->] & _); [done | done | | by eexists].
  change (destDoc e' (nth 1 argv EmptyString) (e_now e') ext)
    with (destDoc e (nth 1 argv EmptyString) (e_now e) ext).
  change (destJson e' (nth 1 argv EmptyString) (e_now e'))
    with (destJson e (nth 1 argv EmptyString) (e_now e)).
  rewrite (main_stage_perm e chown_doc chmod_doc chown_json chmod_json). fold e'.
  destruct (main_stage_total path
              (destDoc e (nth 1 argv EmptyString) (e_now e) ext) e w3)
    as (w4 & [-> | ->]); [|by eexists].
  destruct (Hqueue e' (destDoc e (nth 1 argv EmptyString) (e_now e) ext)
              (destJson e (nth 1 argv EmptyString) (e_now e)) pw
              (nth 3 argv EmptyString) (nth 2 argv EmptyString)
              (nth 1 argv EmptyString) w4) as (wa & ->).
  destruct (Hqueue e (destDoc e (nth 1 argv EmptyString) (e_now e) ext)
              (destJson e (nth 1 argv EmptyString) (e_now e)) pw
              (nth 3 argv EmptyString) (nth 2 argv EmptyString)
              (nth 1 argv EmptyString) w4) as (wb & ->).
  by eexists.
Qed.



(** * Further properties of the code *)

(** ** [file_starts_with] (lines 14-24) *)

(** X1: [file_starts_with] answers 1 exactly when the file can be opened
    and read, is not empty, the prefix is at most as long as the 16-byte
    buffer, and the file begins with the prefix.  So an empty prefix is
    found in every readable file but an empty one. *)
Theorem file_starts_with_iff (path prefix : string) (open_fail read_fail : bool)
  (w : World) :
  file_starts_with path prefix open_fail read_fail w = true <->
  is_Some (files w !! path) /\ open_fail = false /\ read_fail = false /\
  data_at (files w) path <> [] /\ String.length prefix <= 16 /\
  take (String.length prefix) (data_at (files w) path) = bytes_of prefix.
Proof.
  destruct (files w !! path) as [i|] eqn:Hf.
  2:{ rewrite file_starts_with_no_file by done.
      split; [done|intros [[? ?] _]; done]. }
  unfold file_starts_with, sys_open_rd. rewrite Hf.
  destruct open_fail; [split; [done|intros (_ & ? & _); done]|].
  destruct read_fail; cbn [sys_read]; [split; [done|intros (_ & _ & ? & _); done]|].
  assert (Hd : data_at (files w) path = i_data i) by (unfold data_at; by rewrite Hf).
  rewrite Hd, drop_0. rewrite length_take.
  destruct (Nat.min 16 (length (i_data i)) <=? 0) eqn:H0;
    [apply Nat.leb_le in H0 | apply Nat.leb_gt in H0].
  { split; [done|]. intros (_ & _ & _ & Hne & _). destruct (i_data i); [done|].
    cbn [length] in H0. lia. }
  destruct (Nat.min 16 (length (i_data i)) <? String.length prefix) eqn:H1;
    [apply Nat.ltb_lt in H1 | apply Nat.ltb_ge in H1].
  { split; [done|]. intros (_ & _ & _ & _ & Hle & Heq). apply (f_equal length) in Heq.
    rewrite length_take, length_bytes_of in Heq. lia. }
  rewrite bool_decide_eq_true, take_take, Nat.min_l by lia.
  split.
  - intros Heq. split; [eauto|]. split; [done|]. split; [done|]. split.
    { intros Hnil. rewrite Hnil in H0. cbn in H0. lia. }
    split; [lia | done].
  - by intros (_ & _ & _ & _ & _ & ->).
Qed.

(** X2: the sniffer reads 16 bytes and no more, so a prefix of more than 16
    bytes is never found, whatever the file holds. *)
Theorem file_starts_with_long_prefix (path prefix : string)
  (open_fail read_fail : bool) (w : World) :
  16 < String.length prefix ->
  file_starts_with path prefix open_fail read_fail w = false.
Proof.
  intros Hlen. unfold file_starts_with.
  destruct (sys_open_rd path open_fail w) as [d|]; [|done].
  destruct d as [|p off|p]; (destruct read_fail; cbn [sys_read]; [done|]); [| |done].
  - rewrite length_take. destruct (_ <=? 0); [done|].
    destruct (_ <? String.length prefix) eqn:H; [done|].
    apply Nat.ltb_ge in H. lia.
  - rewrite length_take. destruct (_ <=? 0); [done|].
    destruct (_ <? String.length prefix) eqn:H; [done|].
    apply Nat.ltb_ge in H. lia.
Qed.

Lemma file_starts_with_long_prefix_witness :
  take 17 (data_at (files long_magic_world) "/tmp/doc") = bytes_of long_magic /\
  file_starts_with "/tmp/doc" long_magic false false long_magic_world = false.
Proof.
  split; [reflexivity|].
  apply (file_starts_with_long_prefix "/tmp/doc" long_magic false false long_magic_world).
  vm_compute. lia.
Defined.

(** ** [copy_file] (lines 52-80) *)

Lemma write_retry_ok p buf os w :
  no_write_error os -> is_Some (files w !! p) ->
  exists n os' w', write_retry p buf os w = (Some n, os', w') /\ no_write_error os'.
Proof.
  unfold no_write_error. revert buf w.
  induction os as [|o os IH]; intros buf w Hos [i Hi].
  - destruct buf as [|b buf]; [eexists _, _, _; by split|].
    cbn [write_retry sys_write]. rewrite Hi. eexists _, _, _. by split.
  - destruct buf as [|b buf]; [eexists _, _, _; by split|].
    apply Forall_cons_1 in Hos as [Ho Hos]. destruct o as [|k]; [done|].
    cbn [write_retry sys_write]. rewrite Hi.
    edestruct (IH (drop (Nat.min k (length (b :: buf))) (b :: buf))) as (n & os' & w' & -> & Hos').
    { done. }
    { cbn [files set_files]. rewrite lookup_insert_eq. eauto. }
    cbn. eexists _, _, _. by split.
Qed.

(** Without a failing [read] or [write], the loop ends at the end of the
    input. *)
Lemma capture_loop_ok fuel infd out rs ws total w :
  length (pending infd w) < fuel ->
  no_alias infd out \/ pending infd w = [] ->
  (forall p, infd <> FdDir p) ->
  no_read_error rs -> no_write_error ws -> is_Some (files w !! out) ->
  exists total' w', capture_loop fuel infd out rs ws total w = Some (LoopEof, total', w').
Proof.
  revert infd rs ws total w.
  induction fuel as [|fuel IH];
    intros infd rs ws total w Hfuel Halias Hnd Hrs Hws Hout; [lia|].
  cbn [capture_loop].
  assert (Hnext : exists k rs', next_rd rs 8192 = (RdLen k, rs') /\ no_read_error rs').
  { unfold no_read_error in *. destruct rs as [|[|k] rs]; cbn.
    - eexists _, _. by split.
    - by apply Forall_cons_1 in Hrs as [? _].
    - apply Forall_cons_1 in Hrs as [_ ?]. eexists _, _. by split. }
  destruct Hnext as (k0 & rs' & -> & Hrs').
  destruct (sys_read infd 8192 (RdLen k0) w) as [[r1 infd'] w1] eqn:Hr.
  pose proof Hr as Hr'.
  apply (sys_read_spec _ _ _ _ _ _ _ out) in Hr
    as (Hf1 & Hd1 & He1 & Ha1 & Hs1 & Hfile & Hbuf); [|apply count_8192_pos].
  assert (exists buf, r1 = Some buf /\ forall p, infd' <> FdDir p) as (buf & -> & Hnd').
  { unfold sys_read in Hr'. destruct infd as [|q off|q]; [| |by destruct (Hnd q)];
      injection Hr' as <- <- _; eauto. }
  destruct (Hbuf _ eq_refl) as (Hb & Hp1 & Hnil).
  destruct buf as [|b buf]; [eauto|].
  set (chunk := b :: buf) in *.
  assert (Hlen : 0 < length chunk <= length (pending infd w)).
  { split; [cbn; lia|]. rewrite Hb at 1. rewrite length_take. lia. }
  destruct Halias as [Halias | Hemp]; [|rewrite Hemp in Hlen; cbn in Hlen; lia].
  destruct (write_retry_ok out chunk ws w1 Hws) as (n & ws' & w2 & Hw & Hws').
  { by rewrite Hf1. }
  rewrite Hw.
  apply write_retry_spec in Hw as (k & Hk & Hf2 & Hi2 & Hd2 & He2 & Hn).
  apply IH; try done.
  - rewrite (pending_append_file infd' out (take k chunk) w1 w2), Hp1, length_drop;
      auto; lia.
  - left. auto.
  - rewrite Hf2. apply is_Some_append_file. by rewrite Hf1.
Qed.

(** What [copy_file] does once both files are open: the destination is
    truncated, keeps its owner and mode when it existed, and receives a
    beginning of the source, all of it when the result is 0. *)
Lemma copy_file_run src dst mode e w :
  e_copy_open_src_fail e = false -> is_Some (files w !! src) ->
  e_copy_open_dst_fail e = false ->
  let pend := if decide (src = dst) then [] else data_at (files w) src in
  let i0 := truncated e mode (files w !! dst) in
  exists r w' k,
    copy_file src dst mode e w = Some (if r is LoopEof then 0%Z else (-1)%Z, w') /\
    k <= length pend /\
    files w' = <[dst := Inode (take k pend) (i_uid i0) (i_gid i0) (i_mode i0)]> (files w) /\
    (r = LoopEof -> k = length pend) /\
    (no_read_error (e_copy_reads e) -> no_write_error (e_copy_writes e) -> r = LoopEof).
Proof.
  intros Hsf [isrc Hsrc] Hdf pend i0. unfold copy_file, sys_open_rd, sys_open_trunc.
  rewrite Hsf, Hsrc, Hdf.
  set (w1 := set_files (<[dst := i0]> (files w)) w).
  assert (Hw1 : (if files w !! dst is Some i
                 then (true, set_files (<[dst := Inode [] (i_uid i) (i_gid i) (i_mode i)]>
                                          (files w)) w)
                 else (true, set_files (<[dst := Inode [] (e_euid e) (e_egid e)
                                          (Z.ldiff mode (e_umask e))]> (files w)) w))
                = (true, w1)).
  { unfold w1, i0, truncated. by destruct (files w !! dst). }
  rewrite Hw1. clear Hw1.
  assert (Hi0 : i_data i0 = []) by (unfold i0, truncated; by destruct (files w !! dst)).
  assert (Hpend : pending (FdFile src 0) w1 = pend).
  { cbn [pending]. rewrite drop_0. unfold data_at, w1, pend. cbn [files set_files].
    case_decide as Heq.
    - subst dst. by rewrite lookup_insert_eq.
    - by rewrite lookup_insert_ne. }
  assert (Halias : no_alias (FdFile src 0) dst \/ pending (FdFile src 0) w1 = []).
  { rewrite Hpend. unfold pend. case_decide; [by right | by left]. }
  assert (Hfuel : length (pending (FdFile src 0) w1) < S (length (data_at (files w1) src))).
  { cbn [pending]. rewrite drop_0. lia. }
  rewrite (copy_file_loop_capture_loop _ _ _ _ _ 0%Z).
  pose proof (capture_loop_ok _ (FdFile src 0) dst (e_copy_reads e) (e_copy_writes e)
                0%Z w1 Hfuel Halias ltac:(done)) as Hgood.
  destruct (capture_loop_spec _ (FdFile src 0) dst (e_copy_reads e) (e_copy_writes e)
              0%Z w1 Hfuel Halias ltac:(lia))
    as (r & total' & w2 & k & Hrun & Hk & Hf & _ & _ & _ & Heof).
  rewrite Hrun. cbn [fmap option_fmap option_map fst snd].
  exists r, w2, k. rewrite Hpend in Hk, Hf, Heof.
  split; [by destruct r|]. split; [done|]. split.
  { rewrite Hf. unfold append_file, w1. cbn [files set_files].
    rewrite lookup_insert_eq, insert_insert_eq, Hi0. done. }
  split; [by intros [? _]%Heof|].
  intros Hrs Hws.
  destruct (Hgood Hrs Hws) as (t & w3 & Hok).
  { unfold w1. cbn [files set_files]. rewrite lookup_insert_eq. eauto. }
  rewrite Hok in Hrun. by injection Hrun as <- _ _.
Qed.

(** X3: when [copy_file] returns 0 and source and destination are two
    paths, the destination holds exactly the bytes of the source; a
    destination that existed keeps its owner and its mode (a new one gets the
    caller's identity and the requested mode cleared by the umask); the
    source and every other file are left as they were. *)
Theorem copy_file_success (src dst : string) (mode : Z) (e : Env) (w w' : World) :
  src <> dst ->
  copy_file src dst mode e w = Some (0%Z, w') ->
  files w' = <[dst := Inode (data_at (files w) src)
                        (i_uid (truncated e mode (files w !! dst)))
                        (i_gid (truncated e mode (files w !! dst)))
                        (i_mode (truncated e mode (files w !! dst)))]> (files w).
Proof.
  intros Hne Hrun.
  assert (Hopen : e_copy_open_src_fail e = false /\ is_Some (files w !! src) /\
                  e_copy_open_dst_fail e = false).
  { destruct (copy_file_spec src dst mode e w)
      as (r0 & w0 & Hrun0 & _ & _ & _ & Hcases).
    rewrite Hrun in Hrun0. injection Hrun0 as <- <-.
    destruct Hcases as [[? _] | (i & k & _ & Hsrc & _ & _ & _ & (? & _ & ?) & _)];
      [done|]. split_and!; [done | by apply Hsrc | done]. }
  destruct Hopen as (Hsf & Hsrc & Hdf).
  destruct (copy_file_run src dst mode e w Hsf Hsrc Hdf)
    as (r & w2 & k & Hrun2 & Hk & Hf & Heof & _).
  rewrite Hrun in Hrun2. destruct r; [|done|done]. injection Hrun2 as <-.
  rewrite decide_False in * by done.
  rewrite Hf, (Heof eq_refl), take_ge by done. done.
Qed.

Lemma copy_file_success_witness :
  exists w',
    copy_file "/tmp/src" "/queue/dst" 420 sample_env copy_world = Some (0%Z, w') /\
    files w' !! "/queue/dst" = Some (Inode (bytes_of "%PDF-1.4 copy") 501 20 416).
Proof.
  eexists. split; [vm_compute; reflexivity|].
  match goal with
  | |- files ?w !! _ = _ =>
    assert (H : copy_file "/tmp/src" "/queue/dst" 420 sample_env copy_world
                = Some (0%Z, w)) by (vm_compute; reflexivity);
    rewrite (copy_file_success "/tmp/src" "/queue/dst" 420 sample_env copy_world w
               ltac:(discriminate) H)
  end.
  rewrite lookup_insert_eq. reflexivity.
Defined.

(** X4: whatever [copy_file] returns, it changes no file but the
    destination, no directory, and nothing of the input stream or of the
    diagnostics.  When the source cannot be opened ([open] fails, or nothing
    is at the path), it returns -1 and the destination, too, is left as it
    was.  When the source is a directory, [open] succeeds and the first
    [read] fails: it returns -1 and the destination is left truncated (or
    created, empty). *)
Theorem copy_file_frame (src dst : string) (mode : Z) (e : Env) (w : World) :
  exists r w',
    copy_file src dst mode e w = Some (r, w') /\
    (forall p, p <> dst -> files w' !! p = files w !! p) /\
    dirs w' = dirs w /\ stdin w' = stdin w /\ stderr w' = stderr w /\
    (e_copy_open_src_fail e = true \/ ~ path_exists w src ->
     r = (-1)%Z /\ files w' = files w) /\
    (e_copy_open_src_fail e = false ->
     files w !! src = None -> is_Some (dirs w !! src) ->
     e_copy_open_dst_fail e = false ->
     r = (-1)%Z /\
     files w' = <[dst := truncated e mode (files w !! dst)]> (files w)).
Proof.
  destruct (copy_file_spec src dst mode e w)
    as (r & w' & Hrun & Hd & Hi & He & Hcases).
  exists r, w'. split; [done|]. split.
  { intros p Hp. destruct Hcases as [(_ & -> & _) | (i & k & _ & _ & -> & _)]; [done|].
    by rewrite lookup_insert_ne. }
  split; [done|]. split; [done|]. split; [done|]. split.
  - intros Hfail.
    destruct Hcases as [(-> & -> & _) | (i & k & _ & _ & _ & _ & _ & (Hs & Hex & _) & _)];
      [done|].
    destruct Hfail; [congruence | done].
  - intros Hsf Hnone Hdir Hdf.
    destruct Hcases as [(_ & _ & Hfail) |
                        (i & k & Hr & Hsrc & -> & Hdata & _ & _ & Hu & Hg & Hm)].
    { destruct Hfail as [? | [Hno | ?]]; [congruence | | congruence].
      destruct Hno. by right. }
    split.
    + destruct Hr as [-> | ->]; [|done].
      destruct (Hsrc eq_refl) as [? ?]. congruence.
    + f_equal. rewrite <- (inode_eta i), Hu, Hg, Hm, Hdata.
      unfold data_at. rewrite Hnone, take_nil.
      unfold truncated. by destruct (files w !! dst).
Qed.

Lemma copy_file_frame_witness :
  exists w',
    copy_file "/tmp" "/queue/dst" 420 sample_env dir_source_world = Some ((-1)%Z, w') /\
    files w' !! "/queue/dst" = Some (Inode [] 501 20 416).
Proof.
  destruct (copy_file_frame "/tmp" "/queue/dst" 420 sample_env dir_source_world)
    as (r & w' & Hrun & _ & _ & _ & _ & _ & Hdir).
  destruct Hdir as [-> Hf].
  - reflexivity.
  - reflexivity.
  - eexists. reflexivity.
  - reflexivity.
  - exists w'. split; [exact Hrun|]. rewrite Hf. reflexivity.
Defined.

(** X5: copying a file onto itself loses it.  The destination is truncated
    before the first [read], so when no call fails [copy_file] returns 0 and
    leaves the file empty. *)
Theorem copy_file_onto_itself (path : string) (mode : Z) (e : Env) (w : World)
  (i : inode) :
  files w !! path = Some i ->
  e_copy_open_src_fail e = false -> e_copy_open_dst_fail e = false ->
  no_read_error (e_copy_reads e) -> no_write_error (e_copy_writes e) ->
  exists w',
    copy_file path path mode e w = Some (0%Z, w') /\
    files w' = <[path := Inode [] (i_uid i) (i_gid i) (i_mode i)]> (files w).
Proof.
  intros Hi Hsf Hdf Hrs Hws.
  destruct (copy_file_run path path mode e w Hsf ltac:(eauto) Hdf)
    as (r & w' & k & Hrun & _ & Hf & _ & Hok).
  rewrite (Hok Hrs Hws) in Hrun. exists w'. split; [done|].
  rewrite Hf, decide_True, take_nil, Hi by done. done.
Qed.

Lemma copy_file_onto_itself_witness :
  exists w',
    copy_file "/tmp/src" "/tmp/src" 420 sample_env copy_world = Some (0%Z, w') /\
    data_at (files w') "/tmp/src" = [].
Proof.
  destruct (copy_file_onto_itself "/tmp/src" 420 sample_env copy_world
              (Inode (bytes_of "%PDF-1.4 copy") 1 1 384))
    as (w' & Hrun & Hf); try reflexivity; try constructor.
  exists w'. split; [exact Hrun|]. unfold data_at. rewrite Hf, lookup_insert_eq. reflexivity.
Defined.



(** ** [ensure_dir] and [ensure_dirs_recursive] (lines 26-50) *)

Lemma dirs_grow_refl m w : dirs_grow m w w.
Proof. unfold dirs_grow. split_and!; try done. by left. Qed.

Lemma path_exists_same w w' q :
  files w' = files w -> dirs w' !! q = dirs w !! q ->
  path_exists w' q <-> path_exists w q.
Proof. unfold path_exists. by intros -> ->. Qed.

Lemma dirs_grow_trans m w1 w2 w3 :
  dirs_grow m w1 w2 -> dirs_grow m w2 w3 -> dirs_grow m w1 w3.
Proof.
  intros (Hf1 & Hi1 & He1 & Hh1 & H1) (Hf2 & Hi2 & He2 & Hh2 & H2).
  split_and!; try congruence. intros q.
  destruct (H2 q) as [Heq | [Hno Hnew]].
  - rewrite Heq. apply H1.
  - destruct (H1 q) as [Heq1 | [Hno1 Hnew1]].
    + right. split; [|done]. intros Hex. apply Hno. by apply (path_exists_same w1 w2).
    + exfalso. apply Hno. right. rewrite Hnew1. eauto.
Qed.

Lemma dirs_grow_exists m w w' q : dirs_grow m w w' -> path_exists w q -> path_exists w' q.
Proof.
  intros (Hf & _ & _ & _ & H) Hex. destruct (H q) as [Heq | [Hno _]]; [|done].
  by apply (path_exists_same w w').
Qed.

Lemma ensure_dir_grow path mode e w :
  dirs_grow (Z.ldiff mode (e_umask e)) w (ensure_dir path mode e w).2.
Proof.
  unfold ensure_dir. destruct path as [|c path]; [apply dirs_grow_refl|].
  unfold sys_mkdir. destruct (e_mkdir e _) as [err|].
  { destruct (decide (err = EEXIST)); apply dirs_grow_refl. }
  case_bool_decide as Hex; [apply dirs_grow_refl|].
  cbn. unfold dirs_grow. split_and!; try done. intros q. cbn.
  destruct (decide (q = String c path)) as [-> | Hne].
  - right. split; [done|]. by rewrite lookup_insert_eq.
  - left. by rewrite lookup_insert_ne.
Qed.

Lemma ensure_dirs_loop_grow pre rest mode e w :
  dirs_grow (Z.ldiff mode (e_umask e)) w (ensure_dirs_loop pre rest mode e w).2.
Proof.
  revert pre w. induction rest as [|c rest IH]; intros pre w; [apply dirs_grow_refl|].
  cbn [ensure_dirs_loop]. case_decide; [|apply IH].
  pose proof (ensure_dir_grow (unchars pre) mode e w) as H1.
  destruct (ensure_dir (unchars pre) mode e w) as [[r err] w1]. cbn [snd] in *.
  destruct (negb (r =? 0)%Z && negb (bool_decide (err = Some EEXIST))); [done|].
  eapply dirs_grow_trans; [exact H1 | apply IH].
Qed.

Lemma ensure_dirs_recursive_grow path mode e w :
  dirs_grow (Z.ldiff mode (e_umask e)) w (ensure_dirs_recursive path mode e w).2.
Proof.
  unfold ensure_dirs_recursive.
  destruct (chars path) as [|c rest]; [apply dirs_grow_refl|].
  destruct (e_PATH_MAX e <=? String.length path); [apply dirs_grow_refl|].
  pose proof (ensure_dirs_loop_grow [c] rest mode e w) as H1.
  destruct (ensure_dirs_loop [c] rest mode e w) as [r w1]. cbn [snd] in *.
  destruct (r =? 0)%Z; [|done].
  pose proof (ensure_dir_grow path mode e w1) as H2.
  destruct (ensure_dir path mode e w1) as [[r' err] w2]. cbn [snd] in *.
  by eapply dirs_grow_trans.
Qed.

(** X7: [ensure_dirs_recursive] changes no file and nothing but
    directories; a directory that exists keeps its mode, and a directory it
    makes is made where nothing was, with the requested mode cleared by the
    umask. *)
Theorem ensure_dirs_recursive_only_adds (path : string) (mode : Z) (e : Env)
  (w : World) :
  let w' := (ensure_dirs_recursive path mode e w).2 in
  files w' = files w /\ stdin w' = stdin w /\ stderr w' = stderr w /\
  history w' = history w /\
  forall q, dirs w' !! q = dirs w !! q \/
            (~ path_exists w q /\ dirs w' !! q = Some (Z.ldiff mode (e_umask e))).
Proof. apply ensure_dirs_recursive_grow. Qed.

(** What one [ensure_dir] answers when no [mkdir] fails by itself. *)
Lemma ensure_dir_fault_free path mode e w :
  mkdir_fault_free e -> path <> EmptyString ->
  exists err w', ensure_dir path mode e w = (0%Z, err, w') /\ path_exists w' path.
Proof.
  intros He Hne. unfold ensure_dir. destruct path as [|c path]; [done|].
  unfold sys_mkdir. rewrite He. case_bool_decide as Hex.
  - rewrite decide_True by done. eauto.
  - eexists _, _. split; [done|]. right. cbn. rewrite lookup_insert_eq. eauto.
Qed.

Lemma unchars_nonempty (l : list ascii) : l <> [] -> unchars l <> EmptyString.
Proof. by destruct l. Qed.

Lemma ensure_dirs_loop_creates pre rest mode e w :
  mkdir_fault_free e -> pre <> [] ->
  exists w',
    ensure_dirs_loop pre rest mode e w = (0%Z, w') /\
    forall j, rest !! j = Some "/"%char -> path_exists w' (unchars (pre ++ take j rest)).
Proof.
  intros He. revert pre w. induction rest as [|c rest IH]; intros pre w Hpre.
  { eexists. split; [done|]. intros j Hj. by rewrite lookup_nil in Hj. }
  cbn [ensure_dirs_loop].
  assert (Hpre' : pre ++ [c] <> []) by (by destruct pre).
  assert (Hshift : forall j, (pre ++ [c]) ++ take j rest = pre ++ take (S j) (c :: rest)).
  { intros j. by rewrite <- app_assoc. }
  case_decide as Hc.
  - destruct (ensure_dir_fault_free (unchars pre) mode e w He (unchars_nonempty _ Hpre))
      as (err & w1 & -> & Hex).
    cbn [Z.eqb negb andb].
    destruct (IH (pre ++ [c]) w1 Hpre') as (w' & Hrun & Hall).
    exists w'. split; [done|]. intros [|j] Hj.
    + rewrite take_0, app_nil_r.
      pose proof (ensure_dirs_loop_grow (pre ++ [c]) rest mode e w1) as Hg.
      rewrite Hrun in Hg. by eapply dirs_grow_exists.
    + rewrite <- Hshift. by apply Hall.
  - destruct (IH (pre ++ [c]) w Hpre') as (w' & Hrun & Hall).
    exists w'. split; [done|]. intros [|j] Hj.
    + cbn in Hj. congruence.
    + rewrite <- Hshift. by apply Hall.
Qed.

(** X8: [ensure_dirs_recursive] is a [mkdir -p].  When no [mkdir] fails
    for a reason of its own and the path is not empty and shorter than
    [PATH_MAX], it returns 0, and afterwards the path exists and so does
    every beginning of it that ends before a slash (the leading one
    excepted). *)
Theorem ensure_dirs_recursive_creates (path : string) (mode : Z) (e : Env) (w : World) :
  mkdir_fault_free e ->
  path <> EmptyString -> String.length path < e_PATH_MAX e ->
  exists w',
    ensure_dirs_recursive path mode e w = (0%Z, w') /\
    path_exists w' path /\
    forall i, 1 <= i -> chars path !! i = Some "/"%char ->
              path_exists w' (str_take i path).
Proof.
  intros He Hne Hlen. unfold ensure_dirs_recursive.
  destruct (chars path) as [|c rest] eqn:Hchars.
  { destruct path; [done | discriminate]. }
  rewrite (proj2 (Nat.leb_gt _ _)) by done.
  destruct (ensure_dirs_loop_creates [c] rest mode e w He ltac:(done)) as (w1 & -> & Hall).
  cbn [Z.eqb].
  destruct (ensure_dir_fault_free path mode e w1 He Hne) as (err & w2 & Hrun & Hex).
  rewrite Hrun. exists w2. split; [done|]. split; [done|].
  intros [|i] Hi Hslash; [lia|].
  pose proof (ensure_dir_grow path mode e w1) as Hg. rewrite Hrun in Hg.
  eapply dirs_grow_exists; [exact Hg|].
  unfold str_take. rewrite Hchars. cbn [take]. apply (Hall i Hslash).
Qed.

Lemma ensure_dirs_recursive_creates_witness :
  exists w',
    ensure_dirs_recursive incomingDir 511 sample_env sample_world = (0%Z, w') /\
    path_exists w' incomingDir /\ path_exists w' "/Users/Shared".
Proof.
  destruct (ensure_dirs_recursive_creates incomingDir 511 sample_env sample_world)
    as (w' & Hrun & Hex & Hall).
  - intros q. reflexivity.
  - discriminate.
  - vm_compute. lia.
  - exists w'. split; [exact Hrun|]. split; [exact Hex|].
    apply (Hall 13); [lia | reflexivity].
Defined.

Lemma ensure_dir_again path mode e w r err w1 w2 :
  ensure_dir path mode e w = (r, err, w1) ->
  (r = 0%Z \/ err = Some EEXIST) ->
  files w2 = files w -> (forall q, path_exists w1 q -> path_exists w2 q) ->
  exists err', ensure_dir path mode e w2 = (0%Z, err', w2).
Proof.
  unfold ensure_dir. intros Hrun Hok Hf Hex.
  destruct path as [|c path]; [injection Hrun as <- <- _; by destruct Hok|].
  unfold sys_mkdir in *. destruct (e_mkdir e (String c path)) as [err0|].
  { destruct (decide (err0 = EEXIST)) as [-> | Hne]; [eauto|].
    injection Hrun as <- <- _. destruct Hok as [? | [= ?]]; done. }
  assert (Hthere : path_exists w1 (String c path)).
  { case_bool_decide as Hw; injection Hrun as _ _ <-; [done|].
    right. cbn. rewrite lookup_insert_eq. eauto. }
  rewrite bool_decide_true by (by apply Hex). rewrite decide_True by done. eauto.
Qed.

Lemma ensure_dirs_loop_again pre rest mode e w w1 w2 :
  ensure_dirs_loop pre rest mode e w = (0%Z, w1) ->
  files w2 = files w -> (forall q, path_exists w1 q -> path_exists w2 q) ->
  ensure_dirs_loop pre rest mode e w2 = (0%Z, w2).
Proof.
  revert pre w. induction rest as [|c rest IH]; intros pre w Hrun Hf Hex; [done|].
  cbn [ensure_dirs_loop] in *. case_decide; [|by eapply IH].
  pose proof (ensure_dir_grow (unchars pre) mode e w) as Hg.
  destruct (ensure_dir (unchars pre) mode e w) as [[r err] wa] eqn:Hfirst. cbn [snd] in Hg.
  destruct (negb (r =? 0)%Z && negb (bool_decide (err = Some EEXIST))) eqn:Hfail;
    [done|].
  assert (Hok : r = 0%Z \/ err = Some EEXIST).
  { apply andb_false_iff in Hfail as [Hr | He].
    - left. apply negb_false_iff in Hr. by apply Z.eqb_eq.
    - right. apply negb_false_iff in He. by apply bool_decide_eq_true in He. }
  pose proof (ensure_dirs_loop_grow (pre ++ [c]) rest mode e wa) as Hg2.
  rewrite Hrun in Hg2. cbn [snd] in Hg2.
  destruct (ensure_dir_again _ _ _ _ _ _ _ w2 Hfirst Hok Hf) as (err' & ->).
  { intros q Hq. apply Hex. by eapply dirs_grow_exists. }
  cbn [Z.eqb negb andb]. eapply IH; [exact Hrun | | done].
  destruct Hg as (-> & _). done.
Qed.

(** X9: [ensure_dirs_recursive] can be repeated.  After a call that
    returned 0, the same call returns 0 again and changes nothing, whatever
    [mkdir] answered the first time. *)
Theorem ensure_dirs_recursive_idempotent (path : string) (mode : Z) (e : Env)
  (w w1 : World) :
  ensure_dirs_recursive path mode e w = (0%Z, w1) ->
  ensure_dirs_recursive path mode e w1 = (0%Z, w1).
Proof.
  unfold ensure_dirs_recursive. intros Hrun.
  destruct (chars path) as [|c rest]; [done|].
  destruct (e_PATH_MAX e <=? String.length path); [done|].
  pose proof (ensure_dirs_loop_grow [c] rest mode e w) as Hg1.
  destruct (ensure_dirs_loop [c] rest mode e w) as [r wa] eqn:Hloop. cbn [snd] in Hg1.
  destruct (r =? 0)%Z eqn:Hr; [|done]. apply Z.eqb_eq in Hr. subst r.
  pose proof (ensure_dir_grow path mode e wa) as Hg2.
  destruct (ensure_dir path mode e wa) as [[r' err] wb] eqn:Hlast. cbn [snd] in Hg2.
  injection Hrun as -> ->.
  assert (Hfiles : files w1 = files w).
  { destruct Hg1 as (H1 & _), Hg2 as (H2 & _). congruence. }
  rewrite (ensure_dirs_loop_again [c] rest mode e w wa w1 Hloop Hfiles).
  2:{ intros q. by apply dirs_grow_exists with (m := Z.ldiff mode (e_umask e)). }
  cbn [Z.eqb].
  destruct (ensure_dir_again path mode e wa 0%Z err w1 w1 Hlast ltac:(by left))
    as (err' & ->); [|done|done].
  by destruct Hg2 as (-> & _).
Qed.

Lemma ensure_dirs_recursive_idempotent_witness :
  exists w1,
    ensure_dirs_recursive incomingDir 511 sample_env sample_world = (0%Z, w1) /\
    ensure_dirs_recursive incomingDir 511 sample_env w1 = (0%Z, w1).
Proof.
  eexists.
  refine ((fun H => conj H
             (ensure_dirs_recursive_idempotent incomingDir 511 sample_env sample_world _ H)) _).
  vm_compute. reflexivity.
Defined.

Lemma ensure_dirs_recursive_fault_free path mode e w :
  mkdir_fault_free e -> path <> EmptyString -> String.length path < e_PATH_MAX e ->
  exists w', ensure_dirs_recursive path mode e w = (0%Z, w') /\ path_exists w' path.
Proof.
  intros He Hne Hlen. unfold ensure_dirs_recursive.
  destruct (chars path) as [|c rest] eqn:Hchars.
  { destruct path; [done | discriminate]. }
  rewrite (proj2 (Nat.leb_gt _ _)) by done.
  destruct (ensure_dirs_loop_creates [c] rest mode e w He ltac:(done)) as (w1 & -> & _).
  cbn [Z.eqb].
  destruct (ensure_dir_fault_free path mode e w1 He Hne) as (err & w2 & -> & ?). eauto.
Qed.

(** X10: a regular file in the place of the directory goes unnoticed.
    [mkdir] answers [EEXIST] for it, which [ensure_dir] takes for success: when
    no [mkdir] fails for another reason, [ensure_dirs_recursive] returns 0 and
    there is still a file and no new directory at the path. *)
Theorem ensure_dirs_recursive_accepts_file (path : string) (mode : Z) (e : Env)
  (w : World) (i : inode) :
  mkdir_fault_free e ->
  path <> EmptyString -> String.length path < e_PATH_MAX e ->
  files w !! path = Some i ->
  exists w',
    ensure_dirs_recursive path mode e w = (0%Z, w') /\
    files w' !! path = Some i /\ dirs w' !! path = dirs w !! path.
Proof.
  intros He Hne Hlen Hi.
  pose proof (ensure_dirs_recursive_grow path mode e w) as Hg.
  destruct (ensure_dirs_recursive_fault_free path mode e w He Hne Hlen) as (w' & Hrun & _).
  rewrite Hrun in Hg. cbn [snd] in Hg. destruct Hg as (Hf & _ & _ & _ & Hd).
  exists w'. split; [done|]. split; [by rewrite Hf|].
  destruct (Hd path) as [? | [Hno _]]; [done|]. exfalso. apply Hno. left. eauto.
Qed.

Lemma ensure_dirs_recursive_accepts_file_witness :
  exists w',
    ensure_dirs_recursive rootDir 511 sample_env file_in_the_way = (0%Z, w') /\
    dirs w' !! rootDir = None.
Proof.
  destruct (ensure_dirs_recursive_accepts_file rootDir 511 sample_env file_in_the_way
              (Inode (bytes_of "x") 1 1 420)) as (w' & Hrun & _ & Hd).
  - intros q. reflexivity.
  - discriminate.
  - vm_compute. lia.
  - reflexivity.
  - exists w'. split; [exact Hrun | exact Hd].
Defined.

Lemma length_unchars (l : list ascii) : String.length (unchars l) = length l.
Proof. by rewrite <- length_chars, chars_unchars. Qed.

Lemma ensure_dir_changes path mode e w q :
  dirs (ensure_dir path mode e w).2 !! q <> dirs w !! q -> q = path.
Proof.
  unfold ensure_dir. destruct path as [|c path]; [done|].
  unfold sys_mkdir. destruct (e_mkdir e _) as [err|].
  { by destruct (decide (err = EEXIST)). }
  case_bool_decide; [done|]. cbn. intros Hne.
  destruct (decide (q = String c path)); [done|]. by rewrite lookup_insert_ne in Hne.
Qed.

Lemma ensure_dirs_loop_stops pre rest mode e w j err :
  pre <> [] -> rest !! j = Some "/"%char ->
  e_mkdir e (unchars (pre ++ take j rest)) = Some err -> err <> EEXIST ->
  exists w',
    ensure_dirs_loop pre rest mode e w = ((-1)%Z, w') /\
    forall q, dirs w' !! q <> dirs w !! q -> String.length q < length pre + j.
Proof.
  revert pre w j. induction rest as [|c rest IH]; intros pre w j Hpre Hj Hfault Herr.
  { by rewrite lookup_nil in Hj. }
  assert (Hpre' : pre ++ [c] <> []) by (by destruct pre).
  cbn [ensure_dirs_loop]. destruct j as [|j].
  - injection Hj as ->. rewrite decide_True by done.
    rewrite take_0, app_nil_r in Hfault. unfold ensure_dir.
    destruct (unchars pre) as [|a s] eqn:Hu; [by apply unchars_nonempty in Hu|].
    unfold sys_mkdir. rewrite Hfault, decide_False by done. cbn.
    rewrite bool_decide_false by congruence. cbn.
    exists w. split; [done|]. by intros q Hq.
  - cbn in Hj. cbn [take] in Hfault.
    replace (pre ++ c :: take j rest) with ((pre ++ [c]) ++ take j rest) in Hfault
      by (by rewrite <- app_assoc).
    assert (Hlen : length (pre ++ [c]) + j = length pre + S j)
      by (rewrite length_app; cbn; lia).
    case_decide.
    + pose proof (ensure_dir_changes (unchars pre) mode e w) as Hch.
      destruct (ensure_dir (unchars pre) mode e w) as [[r err0] w1]. cbn [snd] in Hch.
      destruct (negb (r =? 0)%Z && negb (bool_decide (err0 = Some EEXIST))).
      * eexists. split; [done|]. intros q Hq. rewrite (Hch q Hq), length_unchars. lia.
      * destruct (IH (pre ++ [c]) w1 j Hpre' Hj Hfault Herr) as (w' & -> & Hall).
        eexists. split; [done|]. intros q Hq.
        destruct (decide (dirs w1 !! q = dirs w !! q)) as [Heq | Hne].
        -- rewrite <- Hlen. apply Hall. congruence.
        -- rewrite (Hch q Hne), length_unchars. lia.
    + destruct (IH (pre ++ [c]) w j Hpre' Hj Hfault Herr) as (w' & -> & Hall).
      eexists. split; [done|]. intros q Hq. rewrite <- Hlen. by apply Hall.
Qed.

(** X11: [ensure_dirs_recursive] stops at the first directory it cannot
    make.  When [mkdir] fails, for another reason than [EEXIST], on the
    beginning of the path that ends before the slash at position [i], the
    result is -1 and no directory as long as that beginning or longer has
    been made or changed. *)
Theorem ensure_dirs_recursive_stops (path : string) (mode : Z) (e : Env) (w : World)
  (i : nat) (err : errno) :
  1 <= i -> chars path !! i = Some "/"%char ->
  e_mkdir e (str_take i path) = Some err -> err <> EEXIST ->
  exists w',
    ensure_dirs_recursive path mode e w = ((-1)%Z, w') /\
    forall q, dirs w' !! q <> dirs w !! q -> String.length q < i.
Proof.
  intros Hi Hslash Hfault Herr. unfold ensure_dirs_recursive, str_take in *.
  destruct (chars path) as [|c rest]; [by rewrite lookup_nil in Hslash|].
  destruct (e_PATH_MAX e <=? String.length path); [eexists; by split|].
  destruct i as [|i]; [lia|]. cbn in Hslash. cbn [take] in Hfault.
  destruct (ensure_dirs_loop_stops [c] rest mode e w i err ltac:(done) Hslash Hfault Herr)
    as (w' & -> & Hall).
  cbn. exists w'. split; [done|]. intros q Hq. specialize (Hall q Hq). cbn in Hall. lia.
Qed.

Lemma ensure_dirs_recursive_stops_witness :
  exists w',
    ensure_dirs_recursive incomingDir 511 no_access_env sample_world = ((-1)%Z, w') /\
    dirs w' !! incomingDir = None.
Proof.
  destruct (ensure_dirs_recursive_stops incomingDir 511 no_access_env sample_world 27 EACCES)
    as (w' & Hrun & Hall).
  - lia.
  - reflexivity.
  - reflexivity.
  - discriminate.
  - exists w'. split; [exact Hrun|].
    destruct (dirs w' !! incomingDir) eqn:Hd; [|reflexivity].
    exfalso. assert (String.length incomingDir < 27); [|vm_compute in *; lia].
    apply Hall. rewrite Hd. discriminate.
Defined.

(** ** The queue directories of [main] (lines 171-184) *)

Lemma main_dirs_layout_aux ds e w :
  mkdir_fault_free e -> (forall d, e_chmod_dir_fail e d = false) ->
  (forall d, d ∈ ds -> d <> EmptyString /\ String.length d < e_PATH_MAX e /\
                       files w !! d = None) ->
  exists w',
    main_dirs ds e w = Next tt w' /\ files w' = files w /\
    (forall q, dirs w !! q = Some 1023%Z -> dirs w' !! q = Some 1023%Z) /\
    forall d, d ∈ ds -> dirs w' !! d = Some 1023%Z.
Proof.
  intros He Hch. revert w. induction ds as [|d ds IH]; intros w Hds.
  { exists w. split_and!; try done. intros d Hd. by apply elem_of_nil in Hd. }
  destruct (Hds d ltac:(by left)) as (Hne & Hlen & Hfile).
  cbn [main_dirs].
  pose proof (ensure_dirs_recursive_grow d 511 e w) as Hg.
  destruct (ensure_dirs_recursive_fault_free d 511 e w He Hne Hlen) as (w1 & Hrun & Hex).
  rewrite Hrun in *. cbn [snd Z.eqb negb] in *.
  destruct Hg as (Hf1 & _ & _ & _ & Hd1).
  assert (Hdir : is_Some (dirs w1 !! d)).
  { destruct Hex as [Hex | Hex]; [|done]. rewrite Hf1, Hfile in Hex. by destruct Hex. }
  destruct Hdir as [m Hm].
  assert (Hchmod : (sys_chmod d 1023 (e_chmod_dir_fail e d) w1).2
                   = set_dirs (<[d := 1023%Z]> (dirs w1)) w1).
  { unfold sys_chmod. by rewrite Hch, Hf1, Hfile, Hm. }
  rewrite Hchmod.
  destruct (IH (set_dirs (<[d := 1023%Z]> (dirs w1)) w1)) as (w' & -> & Hf' & Hkeep & Hall).
  { intros d' Hd'. destruct (Hds d' ltac:(by right)) as (? & ? & ?).
    split_and!; try done. cbn. by rewrite Hf1. }
  exists w'. split; [done|]. split; [cbn in Hf'; congruence|]. split.
  - intros q Hq. apply Hkeep. cbn.
    destruct (decide (q = d)) as [-> | Hqd]; [by rewrite lookup_insert_eq|].
    rewrite lookup_insert_ne by done.
    destruct (Hd1 q) as [-> | [Hno _]]; [done|]. exfalso. apply Hno. right. eauto.
  - intros d' [-> | Hd']%elem_of_cons; [|by apply Hall].
    apply Hkeep. cbn. by rewrite lookup_insert_eq.
Qed.

(** X12: the queue layout.  When no [mkdir] and no [chmod] fails, the
    directories are not empty strings and are shorter than [PATH_MAX], and
    none of them is a regular file, the directory step of [main] goes on to
    the next step, changes no file, and leaves every directory of its list
    with mode 01777. *)
Theorem main_dirs_layout (ds : list string) (e : Env) (w : World) :
  mkdir_fault_free e -> (forall d, e_chmod_dir_fail e d = false) ->
  (forall d, d ∈ ds -> d <> EmptyString /\ String.length d < e_PATH_MAX e /\
                       files w !! d = None) ->
  exists w',
    main_dirs ds e w = Next tt w' /\ files w' = files w /\
    forall d, d ∈ ds -> dirs w' !! d = Some 1023%Z.
Proof.
  intros He Hch Hds.
  destruct (main_dirs_layout_aux ds e w He Hch Hds) as (w' & ? & ? & _ & ?). eauto.
Qed.

Lemma main_dirs_layout_witness :
  exists w',
    main_dirs [rootDir; incomingDir; processingDir; doneDir; failedDir]
      sample_env sample_world = Next tt w' /\
    dirs w' !! rootDir = Some 1023%Z /\ dirs w' !! incomingDir = Some 1023%Z /\
    dirs w' !! processingDir = Some 1023%Z /\ dirs w' !! doneDir = Some 1023%Z /\
    dirs w' !! failedDir = Some 1023%Z.
Proof.
  destruct (main_dirs_layout [rootDir; incomingDir; processingDir; doneDir; failedDir]
              sample_env sample_world) as (w' & Hrun & _ & Hall).
  - intros q. reflexivity.
  - intros d. reflexivity.
  - intros d Hd. split; [|split; [|reflexivity]].
    + intros ->. revert Hd. apply (bool_decide_eq_false_1 (_ ∈ _)). vm_compute. reflexivity.
    + repeat (apply elem_of_cons in Hd as [-> | Hd]; [vm_compute; lia|]).
      by apply elem_of_nil in Hd.
  - exists w'. split; [exact Hrun|].
    repeat split; apply Hall; apply (bool_decide_eq_true_1 (_ ∈ _)); vm_compute; reflexivity.
Defined.

(** ** Staging and queueing in [main] (lines 195-250) *)

Lemma main_stage_result templatePath dest e w :
  templatePath <> dest ->
  (exists w',
     main_stage templatePath dest e w = Return CUPS_BACKEND_FAILED w' /\
     files w' !! templatePath = files w !! templatePath /\
     forall p, p <> dest -> files w' !! p = files w !! p) \/
  (exists w' i,
     main_stage templatePath dest e w = Next tt w' /\
     is_Some (files w !! templatePath) /\
     files w' !! dest = Some i /\ i_data i = data_at (files w) templatePath /\
     (e_unlink_fail e = false -> files w' !! templatePath = None) /\
     forall p, p <> templatePath -> p <> dest -> files w' !! p = files w !! p).
Proof.
  intros Hne. unfold main_stage.
  assert (Hcopy :
    (exists w',
       match copy_file templatePath dest 420 e w with
       | Some (r', w2) =>
         if negb (r' =? 0)%Z
         then Return CUPS_BACKEND_FAILED (fprintf_stderr (ErrMoveCopy templatePath dest) w2)
         else Next tt (sys_unlink templatePath (e_unlink_fail e) w2).2
       | None => Spin
       end = Return CUPS_BACKEND_FAILED w' /\
       files w' !! templatePath = files w !! templatePath /\
       forall p, p <> dest -> files w' !! p = files w !! p) \/
    (exists w' i,
       match copy_file templatePath dest 420 e w with
       | Some (r', w2) =>
         if negb (r' =? 0)%Z
         then Return CUPS_BACKEND_FAILED (fprintf_stderr (ErrMoveCopy templatePath dest) w2)
         else Next tt (sys_unlink templatePath (e_unlink_fail e) w2).2
       | None => Spin
       end = Next tt w' /\
       is_Some (files w !! templatePath) /\
       files w' !! dest = Some i /\ i_data i = data_at (files w) templatePath /\
       (e_unlink_fail e = false -> files w' !! templatePath = None) /\
       forall p, p <> templatePath -> p <> dest -> files w' !! p = files w !! p)).
  { destruct (copy_file_spec templatePath dest 420 e w)
      as (r & w1 & -> & _ & _ & _ & [(-> & Hf & _) | (i & k & Hr & Hsrc & Hf & _ & Hall & _)]).
    - left. eexists. split; [done|]. cbn. by rewrite Hf.
    - destruct Hr as [-> | ->]; cbn [Z.eqb negb].
      + right. unfold sys_unlink.
        assert (H1 : files w1 !! templatePath = files w !! templatePath)
          by (by rewrite Hf, lookup_insert_ne).
        assert (Hd : files w1 !! dest = Some i) by (by rewrite Hf, lookup_insert_eq).
        destruct (e_unlink_fail e) eqn:Hu.
        * exists w1, i. split_and!; try done; [by apply Hsrc | by apply Hall|].
          intros p _ Hp. by rewrite Hf, lookup_insert_ne.
        * destruct (Hsrc eq_refl) as [j Hj]. rewrite H1, Hj. cbn.
          eexists _, i. split; [done|]. split; [eauto|]. cbn.
          split; [by rewrite lookup_delete_ne|]. split; [by apply Hall|].
          split; [intros _; by rewrite lookup_delete_eq|].
          intros p Hp1 Hp2. by rewrite lookup_delete_ne, Hf, lookup_insert_ne.
      + left. eexists. split; [done|]. cbn. split.
        * by rewrite Hf, lookup_insert_ne.
        * intros p Hp. by rewrite Hf, lookup_insert_ne. }
  unfold sys_rename. destruct (e_rename_fail e); [exact Hcopy|].
  destruct (files w !! templatePath) as [i|] eqn:Hi; [|exact Hcopy].
  rewrite decide_False by done. cbn. right. eexists _, i. split; [done|]. cbn.
  split; [eauto|]. split; [by rewrite lookup_insert_eq|].
  split; [unfold data_at; by rewrite Hi|].
  split; [intros _; by rewrite lookup_insert_ne, lookup_delete_eq|].
  intros p Hp1 Hp2. by rewrite lookup_insert_ne, lookup_delete_ne.
Qed.

(** X13: what becomes of the temp file in the staging step (temp file and
    destination being two paths).  When the step fails, [main] returns the
    failure sentinel and the temp file is left in place, untouched; when it
    succeeds, the destination holds the bytes of the temp file, and the temp
    file is gone unless [unlink] failed after a fallback copy.  No third
    file is changed either way. *)
Theorem main_stage_temp_file (templatePath dest : string) (e : Env) (w : World) :
  templatePath <> dest ->
  (exists w',
     main_stage templatePath dest e w = Return CUPS_BACKEND_FAILED w' /\
     files w' !! templatePath = files w !! templatePath /\
     forall p, p <> dest -> files w' !! p = files w !! p) \/
  (exists w' i,
     main_stage templatePath dest e w = Next tt w' /\
     is_Some (files w !! templatePath) /\
     files w' !! dest = Some i /\ i_data i = data_at (files w) templatePath /\
     (e_unlink_fail e = false -> files w' !! templatePath = None) /\
     forall p, p <> templatePath -> p <> dest -> files w' !! p = files w !! p).
Proof. apply main_stage_result. Qed.

Lemma main_stage_temp_file_witness :
  exists w',
    main_stage "/tmp/onenote-print-a1b2c3" "/queue/job-7-1.pdf" stage_fail_env
      (MkWorld {[ "/tmp/onenote-print-a1b2c3" := Inode (bytes_of "%PDF") 1 1 384 ]}
               ∅ [] [] [])
    = Return CUPS_BACKEND_FAILED w' /\
    files w' !! "/tmp/onenote-print-a1b2c3" = Some (Inode (bytes_of "%PDF") 1 1 384).
Proof.
  destruct (main_stage_temp_file "/tmp/onenote-print-a1b2c3" "/queue/job-7-1.pdf"
              stage_fail_env
              (MkWorld {[ "/tmp/onenote-print-a1b2c3" := Inode (bytes_of "%PDF") 1 1 384 ]}
                       ∅ [] [] []))
    as [(w' & Hrun & Htmp & _) | (w' & i & Hrun & _)].
  - discriminate.
  - exists w'. split; [exact Hrun|]. rewrite Htmp. reflexivity.
  - exfalso. vm_compute in Hrun. discriminate.
Defined.

Lemma main_chown_chmod_files path pw chown_fail chmod_fail w i :
  files w !! path = Some i ->
  exists w',
    main_chown_chmod path pw chown_fail chmod_fail w = Next tt w' /\
    files w' = <[path := Inode (i_data i)
                          (if chown_fail then i_uid i else pw_uid pw)
                          (if chown_fail then i_gid i else pw_gid pw)
                          (if chmod_fail then i_mode i else 420%Z)]> (files w).
Proof.
  intros Hi. unfold main_chown_chmod, sys_chown, sys_chmod.
  destruct chown_fail, chmod_fail; cbn [fst snd negb Z.eqb files fprintf_stderr];
    rewrite ?Hi; cbn [fst snd negb Z.eqb files set_files fprintf_stderr];
    rewrite ?Hi, ?lookup_insert_eq; cbn [snd files set_files i_data i_uid i_gid i_mode];
    eexists; (split; [reflexivity|]); rewrite ?insert_insert_eq; try done.
  rewrite inode_eta. by rewrite insert_id.
Qed.

Lemma main_sidecar_files json doc title user job_id e w :
  e_fopen_json_fail e = false ->
  let text := bytes_of (sidecar_text doc (escTitle title) user job_id) in
  let j0 := truncated e 438 (files w !! json) in
  exists w',
    main_sidecar json doc title user job_id e w = Next tt w' /\
    files w' = <[json := Inode (take (default (length text) (e_json_flushed e)) text)
                          (i_uid j0) (i_gid j0) (i_mode j0)]> (files w).
Proof.
  intros Hfopen text j0. unfold main_sidecar, sys_open_trunc. rewrite Hfopen.
  assert (Hopen : (if files w !! json is Some i1
                   then (true, set_files (<[json := Inode [] (i_uid i1) (i_gid i1) (i_mode i1)]>
                                            (files w)) w)
                   else (true, set_files (<[json := Inode [] (e_euid e) (e_egid e)
                                            (Z.ldiff 438 (e_umask e))]> (files w)) w))
                  = (true, set_files (<[json := Inode [] (i_uid j0) (i_gid j0) (i_mode j0)]>
                                        (files w)) w)).
  { unfold j0, truncated. by destruct (files w !! json). }
  rewrite Hopen. unfold sys_write. cbn [files set_files]. rewrite lookup_insert_eq.
  eexists. split; [reflexivity|]. cbn [snd files set_files i_data i_uid i_gid i_mode app].
  rewrite insert_insert_eq. f_equal. f_equal.
  fold text. rewrite <- length_take, take_length_take.
  by destruct (e_json_flushed e).
Qed.

(** The files after the last part of [main], when the sidecar can be
    opened. *)
Lemma main_queue_files doc json pw title user job_id e w i :
  files w !! doc = Some i -> doc <> json -> e_fopen_json_fail e = false ->
  let text := bytes_of (sidecar_text doc (escTitle title) user job_id) in
  let j0 := truncated e 438 (files w !! json) in
  exists w',
    main_queue doc json pw title user job_id e w = Return CUPS_BACKEND_OK w' /\
    files w' =
    <[json := Inode (take (default (length text) (e_json_flushed e)) text)
                (if e_chown_json_fail e then i_uid j0 else pw_uid pw)
                (if e_chown_json_fail e then i_gid j0 else pw_gid pw)
                (if e_chmod_json_fail e then i_mode j0 else 420%Z)]>
      (<[doc := Inode (i_data i)
                  (if e_chown_doc_fail e then i_uid i else pw_uid pw)
                  (if e_chown_doc_fail e then i_gid i else pw_gid pw)
                  (if e_chmod_doc_fail e then i_mode i else 420%Z)]> (files w)).
Proof.
  intros Hi Hne Hfopen text j0. unfold main_queue, bind.
  destruct (main_chown_chmod_files doc pw (e_chown_doc_fail e) (e_chmod_doc_fail e) w i Hi)
    as (w1 & -> & Hf1).
  destruct (main_sidecar_files json doc title user job_id e w1 Hfopen) as (w2 & -> & Hf2).
  rewrite Hf1, lookup_insert_ne in Hf2 by done. fold j0 text in Hf2.
  destruct (main_chown_chmod_files json pw (e_chown_json_fail e) (e_chmod_json_fail e) w2
              (Inode (take (default (length text) (e_json_flushed e)) text)
                     (i_uid j0) (i_gid j0) (i_mode j0)))
    as (w3 & -> & Hf3).
  { by rewrite Hf2, lookup_insert_eq. }
  eexists. split; [reflexivity|]. cbn [files fprintf_stderr].
  rewrite Hf3, Hf2, insert_insert_eq. done.
Qed.

(** X14: the queue entry of a successful run.  When [main] returns the
    success sentinel, the document exists and holds the bytes of the job, the
    sidecar exists, each of the two belongs to the user's uid and gid unless
    its [chown] failed and has mode 0644 unless its [chmod] failed; and, unless
    [unlink] failed, no other file has appeared, gone or changed its bytes: no
    temp file is left behind. *)
Theorem main_success_queue_entry (argv : list string) (e : Env) (w w' : World) :
  length argv = 6 \/ length argv = 7 ->
  298 <= e_PATH_MAX e ->
  main argv e w = Return CUPS_BACKEND_OK w' ->
  let job_id := nth 1 argv EmptyString in
  let user := nth 2 argv EmptyString in
  let file := if length argv =? 7 then Some (nth 6 argv EmptyString) else None in
  exists ext pw doc_i json_i,
    (ext = "ps" \/ ext = "pdf") /\ e_getpwnam e user = Some pw /\
    files w' !! destDoc e job_id (e_now e) ext = Some doc_i /\
    i_data doc_i = job_data file w /\
    files w' !! destJson e job_id (e_now e) = Some json_i /\
    (e_chown_doc_fail e = false -> i_uid doc_i = pw_uid pw /\ i_gid doc_i = pw_gid pw) /\
    (e_chmod_doc_fail e = false -> i_mode doc_i = 420%Z) /\
    (e_chown_json_fail e = false -> i_uid json_i = pw_uid pw /\ i_gid json_i = pw_gid pw) /\
    (e_chmod_json_fail e = false -> i_mode json_i = 420%Z) /\
    (e_unlink_fail e = false ->
     forall p, p <> destDoc e job_id (e_now e) ext -> p <> destJson e job_id (e_now e) ->
               i_data <$> files w' !! p = i_data <$> files w !! p).
Proof.
  intros Hargc Hmax Hmain job_id user file. rewrite main_job_mode in Hmain by done.
  fold job_id user file in Hmain. unfold main_job, bind in Hmain. cbv zeta in Hmain.
  destruct (main_capture_spec file e w)
    as [(w1 & Hc & _) | (path & w1 & Hc & Hshape & Hnew & Hf1 & _)];
    rewrite Hc in Hmain; [done|].
  destruct (main_sniff_spec path e w1) as (ext & w2 & Hs & Hext & Hf2 & _).
  rewrite Hs in Hmain.
  destruct (main_getpwnam_spec user e w2) as [(pw & Hg & Hpw & _) | [Hg _]];
    rewrite Hg in Hmain; [|done].
  destruct (main_dirs_spec (fun _ => True)
              [rootDir; incomingDir; processingDir; doneDir; failedDir] e w2)
    as (w3 & [Hd | Hd] & _ & Hs3); [done | done | |]; rewrite Hd in Hmain; [|done].
  set (doc := destDoc e job_id (e_now e) ext) in *.
  set (json := destJson e job_id (e_now e)) in *.
  assert (Hne : path <> doc).
  { intros ->. apply (temp_shaped_not_queue_named doc); [done|].
    by apply destDoc_queue_named. }
  assert (Hdj : doc <> json) by (by apply destDoc_ne_destJson).
  destruct (main_stage_result path doc e w3 Hne)
    as [(w4 & Hst & _) | (w4 & i & Hst & _ & Hi & Hdata & Hgone & Hrest)];
    rewrite Hst in Hmain; [done|].
  destruct (e_fopen_json_fail e) eqn:Hfopen.
  { destruct (main_queue_spec (fun _ => True) doc json pw (nth 3 argv EmptyString)
                user job_id e w4) as (w5 & Hq & _); [done | done | done |].
    rewrite Hq, Hfopen in Hmain. done. }
  destruct (main_queue_files doc json pw (nth 3 argv EmptyString) user job_id e w4 i
              Hi Hdj Hfopen) as (w5 & Hq & Hf5).
  rewrite Hq in Hmain. injection Hmain as <-.
  eexists ext, pw, _, _. split; [done|]. split; [done|].
  split; [by rewrite Hf5, lookup_insert_ne, lookup_insert_eq|].
  split.
  { cbn [i_data]. rewrite Hdata, (same_data_data_at _ _ path Hs3), Hf2.
    unfold data_at. by rewrite Hf1, lookup_insert_eq. }
  split; [by rewrite Hf5, lookup_insert_eq|].
  split; [by intros ->|]. split; [by intros ->|].
  split; [by intros ->|]. split; [by intros ->|].
  intros Hunlink p Hp1 Hp2. rewrite Hf5, !lookup_insert_ne by done.
  destruct (decide (p = path)) as [-> | Hpp].
  - by rewrite (Hgone Hunlink), Hnew.
  - rewrite (Hrest p Hpp Hp1), (Hs3 p), Hf2, Hf1. by rewrite lookup_insert_ne.
Qed.

Lemma main_success_queue_entry_witness :
  exists w' ext doc_i,
    main sample_argv sample_env sample_world = Return CUPS_BACKEND_OK w' /\
    files w' !! destDoc sample_env "101" 1700000000 ext = Some doc_i /\
    i_data doc_i = bytes_of "%PDF-1.4 sample".
Proof.
  destruct (main_total sample_argv sample_env sample_world) as (c & w' & H).
  assert (c = CUPS_BACKEND_OK) as -> by (vm_compute in H; congruence).
  destruct (main_success_queue_entry sample_argv sample_env sample_world w'
              (or_introl eq_refl)) as (ext & pw & doc_i & json_i & _ & _ & Hdoc & Hdata & _).
  - vm_compute. lia.
  - exact H.
  - exists w', ext, doc_i. split; [exact H|]. split; [exact Hdoc | exact Hdata].
Defined.

(** The name of the temp file is the one [mkstemp] makes of the template. *)
Lemma sys_mkstemp_path e w path w' :
  sys_mkstemp (mkstemp_template e) (e_mkstemp e) e w = (Some path, w') ->
  exists r, e_mkstemp e = Some r /\ path = temp_path e r.
Proof.
  unfold sys_mkstemp. destruct (e_mkstemp e) as [r|]; [|done].
  case_bool_decide; [|done]. case_bool_decide; [done|].
  intros [= <- _]. by exists r.
Qed.

Lemma main_capture_path file e w path w' :
  main_capture file e w = Next path w' ->
  exists r, e_mkstemp e = Some r /\ path = temp_path e r.
Proof.
  unfold main_capture.
  destruct (sys_mkstemp _ (e_mkstemp e) e w) as [[path'|] w1] eqn:Hmk; [|done].
  apply sys_mkstemp_path in Hmk.
  destruct (match file with
            | Some (String c f) =>
              match sys_open_rd (String c f) (e_open_input_fail e) w1 with
              | Some d => inr d
              | None => inl (String c f)
              end
            | _ => inr FdStdin
            end) as [f|d]; [done|].
  destruct (capture_loop _ d path' _ _ 0%Z w1) as [[[[| |] total] w2]|]; try done.
  by intros [= <- _].
Qed.

Lemma main_capture_passes_at Q file e w w' :
  final_world (main_capture file e w) = Some w' ->
  (forall r, e_mkstemp e = Some r -> ins_ok Q (temp_path e r)) -> Q (files w) ->
  passes Q w w'.
Proof.
  unfold main_capture.
  intros Hfin Hins Hw.
  destruct (sys_mkstemp _ (e_mkstemp e) e w) as [[path|] w1] eqn:Hmk.
  2:{ apply sys_mkstemp_spec in Hmk as ->. injection Hfin as <-.
      apply passes_stderr. }
  assert (Hpath : ins_ok Q path).
  { destruct (sys_mkstemp_path _ _ _ _ Hmk) as (r & Hr & ->). by apply Hins. }
  pose proof (sys_mkstemp_passes Q _ _ _ _ _ _ Hmk Hpath Hw) as H1.
  pose proof (passes_current _ _ _ H1 Hw) as Hw1.
  destruct (match file with
            | Some (String c f) =>
              match sys_open_rd (String c f) (e_open_input_fail e) w1 with
              | Some d => inr d
              | None => inl (String c f)
              end
            | _ => inr FdStdin
            end) as [f|d].
  { injection Hfin as <-. eapply passes_trans; [exact H1 | apply passes_stderr]. }
  destruct (capture_loop _ d path _ _ 0%Z w1) as [[[r total] w2]|] eqn:Hloop; [|done].
  pose proof (capture_loop_passes Q _ _ _ _ _ _ _ _ _ _ Hloop Hpath Hw1) as H2.
  eapply passes_trans; [exact H1|]. eapply passes_trans; [exact H2|].
  destruct r; injection Hfin as <-; apply passes_stderr.
Qed.

(** X15: [main] writes nowhere else.  In every state a run goes through,
    every path other than the temp file that [mkstemp] made, the document
    path (with either extension), the sidecar path and the five queue
    directories holds the file it held when the run began, with its bytes,
    its owner and its mode, or no file if it held none. *)
Theorem main_touches_only_own_paths (argv : list string) (e : Env) (w : World)
  (c : cups_backend_t) (w' : World) :
  main argv e w = Return c w' ->
  forall s, s ∈ states w' ->
    s ∈ history w \/ forall p, ~ own_path argv e p -> s !! p = files w !! p.
Proof.
  intros Hmain.
  set (Q := untouched (fun p => ~ own_path argv e p) (files w)).
  assert (Hins : forall p, own_path argv e p -> ins_ok Q p /\ del_ok Q p).
  { intros p Hp. split; [apply untouched_ins_ok | apply untouched_del_ok]; tauto. }
  assert (Hfinal : passes Q w w' ->
            forall s, s ∈ states w' -> s ∈ history w \/ Q s).
  { intros Hp s Hs. destruct (passes_states Q _ _ _ Hp Hs) as [Hold | ?]; [|by right].
    apply elem_of_cons in Hold as [-> | ?]; [right; apply untouched_refl | by left]. }
  apply Hfinal. clear Hfinal. revert Hmain. unfold main.
  destruct (length argv =? 1); [intros [= <- <-]; apply passes_refl|].
  destruct (negb (length argv =? 6) && negb (length argv =? 7));
    [intros [= <- <-]; apply passes_stderr|].
  set (file := if length argv =? 7 then Some (nth 6 argv EmptyString) else None).
  set (job_id := nth 1 argv EmptyString).
  unfold main_job, bind. cbv zeta. intros Hmain.
  pose proof (main_capture_passes_at Q file e w) as Hcap.
  assert (Htemp : forall r, e_mkstemp e = Some r -> ins_ok Q (temp_path e r)).
  { intros r Hr. apply Hins. left. by exists r. }
  destruct (main_capture_spec file e w)
    as [(w1 & Hc & _) | (path & w1 & Hc & _)].
  { rewrite Hc in *. injection Hmain as <- <-.
    apply Hcap; [done | done | apply untouched_refl]. }
  assert (Hpath : own_path argv e path).
  { destruct (main_capture_path _ _ _ _ _ Hc) as (r & Hr & ->). left. by exists r. }
  rewrite Hc in *.
  specialize (Hcap w1 eq_refl Htemp (untouched_refl _ _)).
  destruct (main_sniff_spec path e w1) as (ext & w2 & Hs & Hext & Hf2 & Hh2 & _).
  rewrite Hs in Hmain. clear Hs.
  assert (H2 : passes Q w w2).
  { eapply passes_trans; [exact Hcap|]. apply passes_same. unfold states. congruence. }
  destruct (main_getpwnam_spec (nth 2 argv EmptyString) e w2)
    as [(pw & Hg & _) | [Hg _]]; rewrite Hg in Hmain; clear Hg.
  2:{ injection Hmain as <- <-. eapply passes_trans; [exact H2 | apply passes_stderr]. }
  pose proof (passes_current _ _ _ H2 (untouched_refl _ _)) as Hw2.
  destruct (main_dirs_spec Q [rootDir; incomingDir; processingDir; doneDir; failedDir]
              e w2) as (w3 & Hdirs & H3 & _); [|done|].
  { intros d Hd. apply ins_ok_meta_ok, Hins. by do 4 right. }
  assert (H3' : passes Q w w3) by (by eapply passes_trans).
  destruct Hdirs as [Hd | Hd]; rewrite Hd in Hmain; clear Hd.
  2:{ by injection Hmain as <- <-. }
  set (doc := destDoc e job_id (e_now e) ext) in *.
  set (json := destJson e job_id (e_now e)) in *.
  assert (Hdoc : own_path argv e doc).
  { unfold doc, job_id. destruct Hext as [-> | ->]; [right; by left | right; right; by left]. }
  assert (Hjson : own_path argv e json) by (do 3 right; by left).
  pose proof (main_stage_passes Q path doc e w3) as Hst.
  assert (H4 : forall w4, final_world (main_stage path doc e w3) = Some w4 -> passes Q w w4).
  { intros w4 Hw4. eapply passes_trans; [exact H3'|].
    apply Hst; [done | | | by eapply passes_current].
    - by apply Hins.
    - by apply Hins. }
  destruct (main_stage_total path doc e w3) as (w4 & [Hs | Hs]); rewrite Hs in *.
  2:{ injection Hmain as <- <-. by apply H4. }
  specialize (H4 w4 eq_refl).
  destruct (main_queue_spec Q doc json pw (nth 3 argv EmptyString)
              (nth 2 argv EmptyString) job_id e w4) as (w5 & Hq & H5 & _).
  { by apply ins_ok_meta_ok, Hins. }
  { by apply Hins. }
  { by eapply passes_current. }
  rewrite Hq in Hmain. injection Hmain as _ <-. by eapply passes_trans.
Qed.

Lemma main_touches_only_own_paths_witness :
  exists w',
    main (sample_argv ++ ["/etc/job.pdf"]) sample_env etc_world
    = Return CUPS_BACKEND_OK w' /\
    forall s, s ∈ states w' ->
      s ∈ history etc_world \/
      forall p, ~ own_path (sample_argv ++ ["/etc/job.pdf"]) sample_env p ->
                s !! p = files etc_world !! p.
Proof.
  eexists.
  refine ((fun H => conj H
             (main_touches_only_own_paths (sample_argv ++ ["/etc/job.pdf"])
                sample_env etc_world _ _ H)) _).
  vm_compute. reflexivity.
Defined.



(** X17: [main] always returns one of its two sentinels.  With an input
    that ends and writes that go through after finitely many short ones,
    neither the capture loop nor the loop of [copy_file] runs forever. *)
Theorem main_terminates (argv : list string) (e : Env) (w : World) :
  exists c w', main argv e w = Return c w'.
Proof. apply main_total. Qed.

(** ** The run without a failing call *)

Lemma str_app_assoc (a b c : string) : (a +:+ b) +:+ c = a +:+ (b +:+ c).
Proof. apply chars_inj. by rewrite !chars_app, app_assoc. Qed.

Lemma str_drop_app (a b : string) : str_drop (String.length a) (a +:+ b) = b.
Proof.
  apply chars_inj. rewrite chars_str_drop, chars_app, <- length_chars.
  by rewrite drop_app_length.
Qed.

Lemma str_take_app (a b : string) : str_take (String.length a) (a +:+ b) = a.
Proof.
  apply chars_inj. rewrite chars_str_take, chars_app, <- length_chars.
  by rewrite take_app_length.
Qed.

Lemma sys_mkstemp_ok (t : string) (r : N) e w :
  ~ path_exists w (t +:+ unchars (mkstemp_name r)) ->
  sys_mkstemp (t +:+ "XXXXXX") (Some r) e w =
  (Some (t +:+ unchars (mkstemp_name r)),
   set_files (<[t +:+ unchars (mkstemp_name r) := Inode [] (e_euid e) (e_egid e) 384]>
                (files w)) w).
Proof.
  intros Hfree. unfold sys_mkstemp.
  replace (String.length (t +:+ "XXXXXX") - 6) with (String.length t)
    by (rewrite length_app_str; cbn [String.length]; lia).
  rewrite str_drop_app, str_take_app, bool_decide_true by done.
  by rewrite bool_decide_false by done.
Qed.

Lemma main_capture_no_fault file e w r :
  String.length (tmpdir e) <= 1002 -> e_mkstemp e = Some r ->
  ~ path_exists w (tmpdir e +:+ "/onenote-print-" +:+ unchars (mkstemp_name r)) ->
  input_openable file e w ->
  no_read_error (e_capture_reads e) -> no_write_error (e_capture_writes e) ->
  exists w1,
    main_capture file e w
    = Next (tmpdir e +:+ "/onenote-print-" +:+ unchars (mkstemp_name r)) w1.
Proof.
  intros Hlen Hr Hfree Hin Hrs Hws. unfold main_capture, mkstemp_template.
  rewrite snprintf_fits by (rewrite length_app_str; cbn [String.length]; lia).
  rewrite Hr.
  change (tmpdir e +:+ "/onenote-print-XXXXXX")
    with (tmpdir e +:+ ("/onenote-print-" +:+ "XXXXXX")).
  rewrite <- str_app_assoc. rewrite <- str_app_assoc in Hfree.
  rewrite sys_mkstemp_ok by done.
  set (path := (tmpdir e +:+ "/onenote-print-") +:+ unchars (mkstemp_name r)) in *.
  set (w1 := set_files _ w).
  assert (Hnew : files w !! path = None).
  { destruct (files w !! path) eqn:E; [|done]. exfalso. apply Hfree. left. eauto. }
  assert (Hopen : exists d,
            match file with
            | Some (String c f) => sys_open_rd (String c f) (e_open_input_fail e) w1
            | _ => Some FdStdin
            end = Some d /\ forall p, d <> FdDir p).
  { destruct file as [[|c f]|]; [by eexists | | by eexists].
    destruct Hin as [[i Hi] Hflag]. unfold sys_open_rd. rewrite Hflag.
    unfold w1. cbn [files set_files].
    destruct (decide (path = String c f)) as [-> | Hne];
      [rewrite lookup_insert_eq | rewrite lookup_insert_ne, Hi by done]; by eexists. }
  destruct Hopen as (d & Hopen & Hnd).
  assert (Hopened : match file with
                    | Some (String c f) =>
                      match sys_open_rd (String c f) (e_open_input_fail e) w1 with
                      | Some d => inr d
                      | None => inl (String c f)
                      end
                    | _ => inr FdStdin
                    end = inr d).
  { destruct file as [[|c f]|]; try (by injection Hopen as <-). by rewrite Hopen. }
  rewrite Hopened.
  destruct (pending_job_data file e w path d Hnew Hopen) as (_ & Halias & _).
  fold w1 in Halias.
  destruct (capture_loop_ok (S (length (pending d w1))) d path
              (e_capture_reads e) (e_capture_writes e) 0%Z w1) as (t & w2 & ->).
  { lia. }
  { done. }
  { done. }
  { done. }
  { done. }
  { unfold w1. cbn [files set_files]. rewrite lookup_insert_eq. eauto. }
  eexists. unfold path. by rewrite str_app_assoc.
Qed.

Lemma main_dirs_fault_free ds e w :
  mkdir_fault_free e ->
  (forall d, d ∈ ds -> d <> EmptyString /\ String.length d < e_PATH_MAX e) ->
  exists w', main_dirs ds e w = Next tt w'.
Proof.
  intros He. revert w. induction ds as [|d ds IH]; intros w Hds; [by eexists|].
  destruct (Hds d ltac:(by left)) as (Hne & Hlen). cbn [main_dirs].
  destruct (ensure_dirs_recursive_fault_free d 511 e w He Hne Hlen) as (w1 & -> & _).
  cbn [Z.eqb negb]. apply IH. intros d' Hd'. apply Hds. by right.
Qed.

(** X18: the run without a failing call succeeds.  In job mode, when the
    scratch directory name is at most 1002 characters long, the name drawn
    by [mkstemp] is free, the file of the job (if any) can be opened, no
    [read] or [write] of the capture fails, the user has an entry with a home
    directory, no [mkdir] fails for a reason of its own, and [rename] and the
    [fopen] of the sidecar do not fail, [main] returns the success
    sentinel. *)
Theorem main_no_fault (argv : list string) (e : Env) (w : World) (r : N) (pw : passwd) :
  length argv = 6 \/ length argv = 7 ->
  298 <= e_PATH_MAX e ->
  String.length (tmpdir e) <= 1002 -> e_mkstemp e = Some r ->
  ~ path_exists w (tmpdir e +:+ "/onenote-print-" +:+ unchars (mkstemp_name r)) ->
  input_openable (if length argv =? 7 then Some (nth 6 argv EmptyString) else None) e w ->
  no_read_error (e_capture_reads e) -> no_write_error (e_capture_writes e) ->
  e_getpwnam e (nth 2 argv EmptyString) = Some pw -> is_Some (pw_dir pw) ->
  mkdir_fault_free e -> e_rename_fail e = false -> e_fopen_json_fail e = false ->
  exists w', main argv e w = Return CUPS_BACKEND_OK w'.
Proof.
  intros Hargc Hmax Hlen Hr Hfree Hin Hrs Hws Hpw Hdir Hmk Hren Hfopen.
  rewrite main_job_mode by done. unfold main_job, bind. cbv zeta.
  destruct (main_capture_no_fault _ e w r Hlen Hr Hfree Hin Hrs Hws) as (w1 & Hcap).
  destruct (main_capture_spec
              (if length argv =? 7 then Some (nth 6 argv EmptyString) else None) e w)
    as [(wx & Hc & _) | (path & wx & Hc & _ & _ & Hf1 & _)];
    rewrite Hcap in Hc; [done|]. injection Hc as <- <-. rewrite Hcap.
  destruct (main_sniff_spec
              (tmpdir e +:+ "/onenote-print-" +:+ unchars (mkstemp_name r)) e w1)
    as (ext & w2 & -> & _ & Hf2 & _).
  unfold main_getpwnam. rewrite Hpw. destruct Hdir as [dir ->].
  destruct (main_dirs_fault_free [rootDir; incomingDir; processingDir; doneDir; failedDir]
              e w2 Hmk) as (w3 & Hd).
  { intros d Hd. split.
    - intros ->. revert Hd. apply (bool_decide_eq_false_1 (_ ∈ _)). by vm_compute.
    - repeat (apply elem_of_cons in Hd as [-> | Hd]; [cbn; lia|]).
      by apply elem_of_nil in Hd. }
  destruct (main_dirs_spec (fun _ => True)
              [rootDir; incomingDir; processingDir; doneDir; failedDir] e w2)
    as (wy & [Hd' | Hd'] & _ & Hs3); [done | done | |]; rewrite Hd in Hd'; [|done].
  injection Hd' as <-. rewrite Hd.
  assert (Htemp : is_Some (files w3
            !! (tmpdir e +:+ "/onenote-print-" +:+ unchars (mkstemp_name r)))).
  { specialize (Hs3 (tmpdir e +:+ "/onenote-print-" +:+ unchars (mkstemp_name r))).
    rewrite Hf2, Hf1, lookup_insert_eq in Hs3. cbn in Hs3.
    destruct (files w3 !! _); [eauto | done]. }
  destruct Htemp as [i Hi].
  assert (Hstage : exists w4,
            main_stage (tmpdir e +:+ "/onenote-print-" +:+ unchars (mkstemp_name r))
              (destDoc e (nth 1 argv EmptyString) (e_now e) ext) e w3 = Next tt w4).
  { unfold main_stage, sys_rename. rewrite Hren, Hi. case_decide; eauto. }
  destruct Hstage as (w4 & ->).
  destruct (main_queue_spec (fun _ => True)
              (destDoc e (nth 1 argv EmptyString) (e_now e) ext)
              (destJson e (nth 1 argv EmptyString) (e_now e)) (Passwd (Some dir) (pw_uid pw) (pw_gid pw))
              (nth 3 argv EmptyString) (nth 2 argv EmptyString) (nth 1 argv EmptyString) e
              w4) as (w5 & Hq & _); [done | done | done |].
  rewrite Hfopen in Hq. eauto.
Qed.

Lemma main_no_fault_witness :
  exists w', main sample_argv sample_env sample_world = Return CUPS_BACKEND_OK w'.
Proof.
  apply (main_no_fault sample_argv sample_env sample_world 12345%N
           (Passwd (Some "/Users/alice") 501 20)).
  - left. reflexivity.
  - vm_compute. lia.
  - vm_compute. lia.
  - reflexivity.
  - intros [[x Hx] | [x Hx]]; vm_compute in Hx; discriminate.
  - exact I.
  - constructor.
  - constructor.
  - reflexivity.
  - eexists. reflexivity.
  - intros q. reflexivity.
  - reflexivity.
  - reflexivity.
Defined.

(** ** More on the escaped title (lines 210-226) *)

Lemma length_escape_rule_le (t : string) :
  String.length (escape_rule t) <= 2 * String.length t.
Proof.
  induction t as [|c t IH]; [done|].
  rewrite length_escape_rule_cons. cbn [String.length].
  destruct (bool_decide (needs_escape c)); lia.
Qed.

Lemma length_escape_rule_take_S (n : nat) (t : string) :
  String.length (escape_rule (str_take (S n) t))
  <= String.length (escape_rule (str_take n t)) + 2.
Proof.
  revert n. induction t as [|c t IH]; intros n.
  { rewrite !str_take_nil. cbn. lia. }
  destruct n as [|n].
  - rewrite str_take_cons, !str_take_0, length_escape_rule_cons. cbn.
    destruct (bool_decide (needs_escape c)); lia.
  - rewrite !(str_take_cons _ c), !length_escape_rule_cons.
    specialize (IH n). lia.
Qed.

Lemma escape_rule_plain (t : string) : plain_title t -> escape_rule t = t.
Proof.
  unfold plain_title. induction t as [|c t IH]; [done|].
  cbn [list_ascii_of_string]. intros [Hc Ht]%Forall_cons.
  unfold needs_escape in Hc. cbn [escape_rule].
  rewrite bool_decide_false by tauto.
  rewrite !decide_False by tauto. by rewrite IH.
Qed.

(** X19: a title of at most 1023 characters is never cut, whatever it
    holds: the buffer of 2048 bytes has room for every character escaped, and
    unescaping the escaped title gives the whole title back. *)
Theorem escTitle_short_title (title : string) :
  String.length title <= 1023 ->
  escTitle title = escape_rule title /\ unescape (escTitle title) = Some title.
Proof.
  intros Hlen. pose proof (length_escape_rule_le title).
  assert (escTitle title = escape_rule title) as ->.
  { apply escape_loop_fits. lia. }
  split; [done|]. apply unescape_escape_rule.
Qed.

Lemma escTitle_short_title_witness :
  String.length (String quote_char "Report") <= 1023 /\
  escTitle (String quote_char "Report") = escape_rule (String quote_char "Report") /\
  unescape (escTitle (String quote_char "Report")) = Some (String quote_char "Report").
Proof.
  refine ((fun H => conj H (escTitle_short_title _ H)) _). vm_compute. lia.
Defined.

(** X20: a title of at most 2047 characters, none of which is a double
    quote, a backslash, a newline, a carriage return or a tab, goes into the
    sidecar as it is; other control characters are not escaped. *)
Theorem escTitle_plain (title : string) :
  plain_title title -> String.length title <= 2047 -> escTitle title = title.
Proof.
  intros Hplain Hlen. unfold escTitle.
  rewrite escape_loop_fits; rewrite escape_rule_plain; done || (simpl; lia).
Qed.

Lemma escTitle_plain_witness :
  plain_title (String "001" "Report") /\
  String.length (String "001" "Report") <= 2047 /\
  escTitle (String "001" "Report") = String "001" "Report".
Proof.
  refine ((fun H1 H2 => conj H1 (conj H2 (escTitle_plain _ H1 H2))) _ _).
  - apply (bool_decide_eq_true_1 (plain_title _)). vm_compute. reflexivity.
  - vm_compute. lia.
Defined.

(** X21: when the title is cut, the escaped title has 2046 or 2047
    characters: the loop gives up at most one byte of the buffer, the one
    that a two-character escape would have needed. *)
Theorem escTitle_cut_late (title : string) :
  escTitle title <> escape_rule title ->
  2046 <= String.length (escTitle title) <= 2047.
Proof.
  intros Hcut.
  destruct (escape_loop_prefix 2048 title 0) as (n & Heq & Hlen & Hmax); [lia|].
  fold (escTitle title) in Heq, Hlen.
  destruct Hmax as [Hall | Hnext].
  { exfalso. apply Hcut. by rewrite Heq, str_take_all. }
  pose proof (length_escape_rule_take_S n title).
  rewrite <- Heq in *. cbn in Hnext, Hlen. lia.
Qed.

Lemma escTitle_cut_late_witness :
  escTitle quotes_title <> escape_rule quotes_title /\
  2046 <= String.length (escTitle quotes_title) <= 2047.
Proof.
  refine ((fun H => conj H (escTitle_cut_late _ H)) _).
  intros H. apply (f_equal String.length) in H. vm_compute in H. discriminate H.
Defined.

(** ** More on the queue names (lines 186-193) *)

Lemma pretty_N_go_no_dash (x : N) (s : string) :
  "-"%char ∉ chars s -> "-"%char ∉ chars (pretty_N_go x s).
Proof.
  revert s. induction (N.lt_wf_0 x) as [x _ IH]; intros s Hs.
  assert (x = 0 \/ 0 < x)%N as [-> | Hx] by lia.
  - by rewrite pretty_N_go_0.
  - rewrite pretty_N_go_step by done. apply IH.
    { by apply N.div_lt. }
    cbn [list_ascii_of_string]. rewrite not_elem_of_cons. split; [|done].
    unfold pretty_N_char. by repeat case_match.
Qed.

(** A number that is not negative prints without a dash. *)
Lemma pretty_Z_no_dash (z : Z) : (0 <= z)%Z -> "-"%char ∉ chars (pretty z).
Proof.
  intros Hz. destruct z as [|p|p]; [| |lia].
  - vm_compute. by intros [Hin | Hin%elem_of_nil]%elem_of_cons.
  - unfold pretty, pretty_Z, pretty, pretty_positive, pretty, pretty_N.
    rewrite decide_False by done.
    apply pretty_N_go_no_dash. cbn. apply not_elem_of_nil.
Qed.

(** Two texts cut at their last occurrence of [x] are equal piece by piece. *)
Lemma app_last_occurrence_inj {A} (x : A) (l1 l2 k1 k2 : list A) :
  x ∉ k1 -> x ∉ k2 -> l1 ++ x :: k1 = l2 ++ x :: k2 -> l1 = l2 /\ k1 = k2.
Proof.
  revert k2. induction k1 as [|a k1 IH] using rev_ind;
    intros k2; destruct k2 as [|b k2 _] using rev_ind; intros H1 H2 Heq.
  - apply (app_inj_2 _ _ [x] [x]) in Heq; [|done]. by destruct Heq.
  - exfalso. rewrite app_comm_cons, app_assoc in Heq.
    apply (app_inj_2 _ _ [x] [b]) in Heq as [_ [= ->]]; [|done].
    apply H2. apply elem_of_app. right. by left.
  - exfalso. rewrite app_comm_cons, app_assoc in Heq.
    apply (app_inj_2 _ _ [a] [x]) in Heq as [_ [= ->]]; [|done].
    apply H1. apply elem_of_app. right. by left.
  - rewrite !app_comm_cons, !app_assoc in Heq.
    apply (app_inj_2 _ _ [a] [b]) in Heq as [Heq [= ->]]; [|done].
    rewrite not_elem_of_app in H1, H2.
    by destruct (IH k2) as [-> ->]; try tauto.
Qed.

(** X22: a base name that fits its buffer of 256 bytes determines the job
    identifier and the second it was made in, as long as the clock is not
    before 1970: two jobs share a base name only when they share both. *)
Theorem baseName_injective (j1 j2 : string) (now1 now2 : Z) :
  (0 <= to_long now1)%Z -> (0 <= to_long now2)%Z ->
  String.length j1 + String.length (pretty (to_long now1)) + 5 <= 255 ->
  String.length j2 + String.length (pretty (to_long now2)) + 5 <= 255 ->
  baseName j1 now1 = baseName j2 now2 ->
  j1 = j2 /\ to_long now1 = to_long now2.
Proof.
  intros Hn1 Hn2 Hfit1 Hfit2 Heq.
  rewrite !baseName_fits in Heq by done.
  apply str_app_inv_head in Heq. apply (f_equal chars) in Heq.
  rewrite !chars_app in Heq. cbn [list_ascii_of_string app] in Heq.
  apply app_last_occurrence_inj in Heq as [Hj Hp]; [|by apply pretty_Z_no_dash..].
  split; [by apply chars_inj|].
  apply chars_inj in Hp. by apply (inj pretty) in Hp.
Qed.

Lemma baseName_injective_witness :
  baseName "17-3" 1700000000 = baseName "17-3" 1700000000 /\
  "17-3" = "17-3" /\ to_long 1700000000 = to_long 1700000000.
Proof.
  refine ((fun H => conj H (baseName_injective "17-3" "17-3" 1700000000
                              1700000000 _ _ _ _ H)) _);
    vm_compute; (reflexivity || lia || discriminate).
Defined.

(** ** A scratch directory with a long name (lines 103-108) *)

(** A template that lost a part of its six X to the buffer of 1024 bytes no
    longer ends in six X. *)
Lemma template_cut (t : string) :
  1003 <= String.length t <= 1022 ->
  ~ ends_with "XXXXXX" (snprintf 1024 (t +:+ "/onenote-print-XXXXXX")).
Proof.
  intros Hlen Hx. unfold ends_with in Hx.
  assert (Hp : take (1023 - String.length t) (chars "/onenote-print-XXXXXX")
               `suffix_of` chars (snprintf 1024 (t +:+ "/onenote-print-XXXXXX"))).
  { unfold snprintf. rewrite chars_str_take, chars_app, take_app.
    rewrite (take_ge (chars t)) by (rewrite length_chars; lia).
    rewrite length_chars. change (1024 - 1) with 1023. by apply suffix_app_r. }
  assert (Hall : Forall (fun k =>
            ~ chars "XXXXXX" `suffix_of` take k (chars "/onenote-print-XXXXXX") /\
            ~ take k (chars "/onenote-print-XXXXXX") `suffix_of` chars "XXXXXX")
          (seq 1 20)).
  { apply (bool_decide_eq_true_1 (Forall _ _)). vm_compute. reflexivity. }
  rewrite Forall_forall in Hall.
  destruct (Hall (1023 - String.length t)) as [H1 H2].
  { apply elem_of_seq. lia. }
  destruct (suffix_weak_total _ _ _ Hx Hp); tauto.
Qed.

(** X23: the template handed to [mkstemp] is whole when the name of the
    scratch directory has at most 1002 characters.  When it has between 1003
    and 1022, the buffer of 1024 bytes cuts the template, which then fills
    the buffer and no longer ends in six X. *)
Theorem mkstemp_template_cut (e : Env) :
  (String.length (tmpdir e) <= 1002 ->
   mkstemp_template e = tmpdir e +:+ "/onenote-print-XXXXXX") /\
  (1003 <= String.length (tmpdir e) <= 1022 ->
   String.length (mkstemp_template e) = 1023 /\
   ~ ends_with "XXXXXX" (mkstemp_template e)).
Proof.
  unfold mkstemp_template. split.
  - intros Hlen. apply snprintf_fits. rewrite length_app_str. cbn [String.length]. lia.
  - intros Hlen. split; [|by apply template_cut].
    unfold snprintf. rewrite length_str_take, length_app_str. cbn [String.length]. lia.
Qed.

Lemma mkstemp_template_cut_witness :
  String.length (tmpdir long_tmpdir_env) = 1010 /\
  String.length (mkstemp_template long_tmpdir_env) = 1023 /\
  ~ ends_with "XXXXXX" (mkstemp_template long_tmpdir_env).
Proof.
  split; [vm_compute; reflexivity|].
  apply (proj2 (mkstemp_template_cut long_tmpdir_env)). vm_compute. lia.
Defined.

(** ** More on the sidecar (lines 204-250) and on the arguments (line 98) *)

(** X24: a sidecar that cannot be opened leaves an orphan.  When the
    document is staged and [fopen] fails, the last part of [main] returns the
    failure sentinel; the document stays where it is, with its bytes, and is
    not removed; the sidecar path and every other file are as before. *)
Theorem main_queue_sidecar_unopened (doc json : string) (pw : passwd)
  (title user job_id : string) (e : Env) (w : World) (i : inode) :
  files w !! doc = Some i -> doc <> json -> e_fopen_json_fail e = true ->
  exists w',
    main_queue doc json pw title user job_id e w = Return CUPS_BACKEND_FAILED w' /\
    (exists i', files w' !! doc = Some i' /\ i_data i' = i_data i) /\
    (forall p, p <> doc -> files w' !! p = files w !! p) /\
    last (stderr w') = Some (ErrJson json).
Proof.
  intros Hi Hne Hfopen. unfold main_queue, bind.
  destruct (main_chown_chmod_files doc pw (e_chown_doc_fail e) (e_chmod_doc_fail e) w i Hi)
    as (w1 & -> & Hf1).
  unfold main_sidecar, sys_open_trunc. rewrite Hfopen.
  eexists. split; [reflexivity|]. cbn [files stderr fprintf_stderr]. rewrite Hf1.
  split; [|split].
  - rewrite lookup_insert_eq. eauto.
  - intros p Hp. by rewrite lookup_insert_ne.
  - apply last_snoc.
Qed.

Lemma main_queue_sidecar_unopened_witness :
  exists w',
    main_queue staged_doc staged_json (Passwd (Some "/Users/alice") 501 20)
      "Report" "alice" "101" (json_env true None) staged_world
    = Return CUPS_BACKEND_FAILED w' /\
    (exists i', files w' !! staged_doc = Some i' /\
                i_data i' = i_data (Inode (bytes_of "%PDF-1.4 sample") 1 1 384)) /\
    (forall p, p <> staged_doc -> files w' !! p = files staged_world !! p) /\
    last (stderr w') = Some (ErrJson staged_json).
Proof.
  apply (main_queue_sidecar_unopened staged_doc staged_json).
  - vm_compute. reflexivity.
  - discriminate.
  - reflexivity.
Defined.

(** X25: the writing of the sidecar is not checked.  When the document is
    staged and [fopen] succeeds, the last part of [main] returns the success
    sentinel however little of the text reached the file: the sidecar holds
    the beginning of the text that was flushed, which may be nothing. *)
Theorem main_queue_write_unchecked (doc json : string) (pw : passwd)
  (title user job_id : string) (e : Env) (w : World) (i : inode) :
  files w !! doc = Some i -> doc <> json -> e_fopen_json_fail e = false ->
  exists w',
    main_queue doc json pw title user job_id e w = Return CUPS_BACKEND_OK w' /\
    data_at (files w') json =
    take (default (length (bytes_of (sidecar_text doc (escTitle title) user job_id)))
                  (e_json_flushed e))
         (bytes_of (sidecar_text doc (escTitle title) user job_id)).
Proof.
  intros Hi Hne Hfopen.
  destruct (main_queue_files doc json pw title user job_id e w i Hi Hne Hfopen)
    as (w' & Hrun & Hf).
  exists w'. split; [done|]. unfold data_at. by rewrite Hf, lookup_insert_eq.
Qed.

Lemma main_queue_write_unchecked_witness :
  exists w',
    main_queue staged_doc staged_json (Passwd (Some "/Users/alice") 501 20)
      "Report" "alice" "101" (json_env false (Some 10)) staged_world
    = Return CUPS_BACKEND_OK w' /\
    data_at (files w') staged_json =
    take (default (length (bytes_of (sidecar_text staged_doc (escTitle "Report")
                                       "alice" "101")))
                  (e_json_flushed (json_env false (Some 10))))
         (bytes_of (sidecar_text staged_doc (escTitle "Report") "alice" "101")).
Proof.
  apply (main_queue_write_unchecked staged_doc staged_json _ _ _ _ _ _
           (Inode (bytes_of "%PDF-1.4 sample") 1 1 384)).
  - vm_compute. reflexivity.
  - discriminate.
  - reflexivity.
Defined.

(** X26: an empty file name means standard input.  A run with a seventh
    argument that is the empty string does what the run with six arguments
    does. *)
Theorem main_empty_file_is_stdin (argv : list string) (e : Env) (w : World) :
  length argv = 6 ->
  main (argv ++ [EmptyString]) e w = main argv e w.
Proof.
  intros Hlen. unfold main. rewrite length_app, Hlen. cbn [length Nat.add Nat.eqb negb andb].
  rewrite !app_nth1 by lia. rewrite app_nth2 by lia. rewrite Hlen.
  cbn [Nat.sub nth]. reflexivity.
Qed.

Lemma main_empty_file_is_stdin_witness :
  length sample_argv = 6 /\
  main (sample_argv ++ [EmptyString]) sample_env sample_world
  = main sample_argv sample_env sample_world.
Proof.
  refine ((fun H => conj H (main_empty_file_is_stdin _ _ _ H)) _). reflexivity.
Defined.
